(** * Ethiopia financial-inclusion forecast: loader and dashboard metrics

    A shallow embedding of [src/data_loader.py] (class [DataLoader]) and of
    [dashboard/app.py] ([load_data] and the metric derivations of the
    Overview page), with the properties of the design document proved or
    refuted against it.

    Modelling conventions.
    - A Python [str] is a Rocq [string] that holds its UTF-8 bytes.
      [str.strip] drops the characters for which [str.isspace] holds, which
      have one, two or three bytes.  [str.lower] is modelled on the ASCII
      letters only: a byte above 127 is kept as it is, so the lower-case
      forms Python gives to letters outside ASCII (such as U+00E9 for
      U+00C9, or the letter k for the Kelvin sign U+212A) are not
      modelled.
    - A pandas [DataFrame] is a list of column labels together with a list of
      rows, each row carrying its index label.  Column labels may repeat, as
      in pandas, and a label is a string, a whole number or missing.
    - Code that can raise returns a [result]; a [try ... except] is a match
      on it.
    - Library functions of pandas and Python whose result is not computed by
      this repository (date parsing, date formatting, float parsing and
      formatting, the text of a number) are section variables, and so is
      what changes with the version of pandas (the text of a missing
      value). *)

From Stdlib Require Import Strings.Ascii.
From stdpp Require Import base option list strings gmap pretty.

(** ** Python string operations *)

Module PyStr.

(** [str.isspace] on a character of one byte: tab, line feed, vertical tab,
    form feed, carriage return, the four separators 0x1c-0x1f and space. *)
Definition isspace (c : ascii) : bool :=
  let n := nat_of_ascii c in
  ((9 <=? n) && (n <=? 13) || (28 <=? n) && (n <=? 32))%nat.

(** [str.isspace] on a character of two bytes: U+0085 and U+00A0, which are
    C2 85 and C2 A0. *)
Definition isspace2 (a b : ascii) : bool :=
  let m := N_of_ascii a in
  let n := N_of_ascii b in
  ((m =? 194) && ((n =? 133) || (n =? 160)))%N.

(** [str.isspace] on a character of three bytes: U+1680 (E1 9A 80),
    U+2000-U+200A, U+2028, U+2029 and U+202F (E2 80 80-8A, A8, A9, AF),
    U+205F (E2 81 9F) and U+3000 (E3 80 80).  No character of four bytes is
    a space. *)
Definition isspace3 (a b c : ascii) : bool :=
  let m := N_of_ascii a in
  let n := N_of_ascii b in
  let k := N_of_ascii c in
  ((m =? 225) && (n =? 154) && (k =? 128)
   || (m =? 226) && (n =? 128)
      && ((128 <=? k) && (k <=? 138) || (k =? 168) || (k =? 169) || (k =? 175))
   || (m =? 226) && (n =? 129) && (k =? 159)
   || (m =? 227) && (n =? 128) && (k =? 128))%N.

(** The string is one character for which [str.isspace] holds. *)
Definition is_space (s : string) : bool :=
  match s with
  | String a EmptyString => isspace a
  | String a (String b EmptyString) => isspace2 a b
  | String a (String b (String c EmptyString)) => isspace3 a b c
  | _ => false
  end.

(** [str.lower] on one ASCII character. *)
Definition lower_char (c : ascii) : ascii :=
  let n := nat_of_ascii c in
  if ((65 <=? n) && (n <=? 90))%nat then ascii_of_nat (n + 32) else c.

Fixpoint lower (s : string) : string :=
  match s with
  | EmptyString => EmptyString
  | String c s' => String (lower_char c) (lower s')
  end.

(** [str.lstrip()]: the leading space characters are dropped. *)
Fixpoint lstrip (s : string) : string :=
  match s with
  | EmptyString => EmptyString
  | String a s1 =>
      if isspace a then lstrip s1
      else
        match s1 with
        | EmptyString => s
        | String b s2 =>
            if isspace2 a b then lstrip s2
            else
              match s2 with
              | EmptyString => s
              | String c s3 => if isspace3 a b c then lstrip s3 else s
              end
        end
  end.

(** What follows a space character at the head of a string, when there is
    one; [lstrip] drops such characters as long as there are any. *)
Definition head_space (s : string) : option string :=
  match s with
  | EmptyString => None
  | String a s1 =>
      if isspace a then Some s1
      else
        match s1 with
        | EmptyString => None
        | String b s2 =>
            if isspace2 a b then Some s2
            else
              match s2 with
              | EmptyString => None
              | String c s3 => if isspace3 a b c then Some s3 else None
              end
        end
  end.

(** [str.rstrip()]: what is left of the string from a byte on is dropped
    when it is one space character and everything after it has been
    dropped. *)
Fixpoint rstrip (s : string) : string :=
  match s with
  | EmptyString => EmptyString
  | String c s' =>
      let r := String c (rstrip s') in
      if is_space r then EmptyString else r
  end.

(** [str.strip()]. *)
Definition strip (s : string) : string := rstrip (lstrip s).

(** [needle in s]. *)
Fixpoint contains (needle s : string) : bool :=
  String.prefix needle s ||
  match s with
  | EmptyString => false
  | String _ s' => contains needle s'
  end.

(** [s.replace(c, '')] for a one-character [c]. *)
Fixpoint remove_char (c : ascii) (s : string) : string :=
  match s with
  | EmptyString => EmptyString
  | String d s' =>
      if decide (d = c) then remove_char c s' else String d (remove_char c s')
  end.

End PyStr.

(** ** Exceptions and the error/log monad *)

(** The Python exceptions the modelled code can raise, with their message. *)
Inductive exn :=
  | FileNotFoundError (msg : string)
  | ValueError (msg : string)
  | KeyError (key : string)
  | IndexError (msg : string)
  | AttributeError (msg : string).

Inductive result (A : Type) :=
  | Ok (a : A)
  | Raise (e : exn).
Arguments Ok {A} a.
Arguments Raise {A} e.

Definition exn_str (e : exn) : string :=
  match e with
  | FileNotFoundError m | ValueError m | IndexError m | AttributeError m => m
  | KeyError k => "'" +:+ k +:+ "'"
  end.

(** Records of the module's [logger].  Only the records of the levels
    WARNING and ERROR are modelled; the INFO records the code also writes
    and its [print] output are left out.  Messages are kept without their
    leading pictograph and without the directory they interpolate. *)
Inductive level := WARNING | ERROR.
Definition log_record : Type := level * string.

Global Instance level_eq_dec : EqDecision level.
Proof. solve_decision. Defined.

(** A computation that may raise and that appends to the log. *)
Definition M (A : Type) : Type := result A * list log_record.

Definition ret {A} (a : A) : M A := (Ok a, []).
Definition raise {A} (e : exn) : M A := (Raise e, []).
Definition emit (lv : level) (msg : string) : M unit := (Ok tt, [(lv, msg)]).
Definition bind {A B} (m : M A) (f : A → M B) : M B :=
  match m with
  | (Ok a, l) => let '(r, l') := f a in (r, l ++ l')
  | (Raise e, l) => (Raise e, l)
  end.

(** A library call that logs nothing. *)
Definition lift {A} (r : result A) : M A := (r, []).

Declare Scope loader_scope.
Delimit Scope loader_scope with loader.
Notation "'let*' x ':=' m 'in' k" := (bind m (λ x, k))
  (at level 10, x name, m at level 100, k at level 200) : loader_scope.
Notation "m ';;' k" := (bind m (λ _, k))
  (at level 100, right associativity) : loader_scope.

(** [try: m except Exception as e: h e]. *)
Definition try_except {A} (m : M A) (h : exn → M A) : M A :=
  match m with
  | (Ok a, l) => (Ok a, l)
  | (Raise e, l) => let '(r, l') := h e in (r, l ++ l')
  end.

(** ** Tables *)

(** A cell of a table.  [CNull] is the missing value pandas stores for an
    empty cell ([NaN]; [NaT] in a column of dates). *)
Inductive cell :=
  | CNull
  | CStr (s : string)
  | CInt (n : Z)
  | CTime (t : Z).

Global Instance cell_eq_dec : EqDecision cell.
Proof. solve_decision. Defined.

Global Instance cell_countable : Countable cell.
Proof.
  refine (inj_countable'
    (λ c, match c with
          | CNull => inl ()
          | CStr s => inr (inl s)
          | CInt n => inr (inr (inl n))
          | CTime t => inr (inr (inr t))
          end)
    (λ x, match x with
          | inl () => CNull
          | inr (inl s) => CStr s
          | inr (inr (inl n)) => CInt n
          | inr (inr (inr t)) => CTime t
          end) _).
  by intros [].
Defined.

Definition isnull (c : cell) : bool :=
  match c with CNull => true | _ => false end.

(** A column label.  The readers give a string for a header cell that holds
    text and for an empty one, and the number itself for a header cell that
    holds a whole number; [LNaN] is the missing value that
    [Index.str.strip()] leaves in the place of a label that is not a
    string. *)
Inductive column_label :=
  | LStr (s : string)
  | LInt (n : Z)
  | LNaN.

Global Instance column_label_eq_dec : EqDecision column_label.
Proof. solve_decision. Defined.

Global Instance column_label_countable : Countable column_label.
Proof.
  refine (inj_countable'
    (λ c, match c with
          | LStr s => inl s
          | LInt n => inr (inl n)
          | LNaN => inr (inr ())
          end)
    (λ x, match x with
          | inl s => LStr s
          | inr (inl n) => LInt n
          | inr (inr ()) => LNaN
          end) _).
  by intros [].
Defined.

(** The labels as strings, when all of them are strings. *)
Fixpoint text_labels (cols : list column_label) : option (list string) :=
  match cols with
  | [] => Some []
  | LStr s :: cols' => cons s <$> text_labels cols'
  | _ :: _ => None
  end.

(** A frame: the column labels and the rows in order, each with its index
    label.  Rows are as wide as the header; a cell that a short row lacks
    reads as [CNull]. *)
Record DataFrame := mkDataFrame {
  columns : list column_label;
  body : list (nat * list cell)
}.

Global Instance DataFrame_eq_dec : EqDecision DataFrame.
Proof. solve_decision. Defined.

Definition index (df : DataFrame) : list nat := (body df).*1.
Definition rows (df : DataFrame) : list (list cell) := (body df).*2.

(** [len(df)]. *)
Definition len (df : DataFrame) : nat := length (body df).

(** [df.empty]: some axis has length zero. *)
Definition empty (df : DataFrame) : bool :=
  bool_decide (columns df = []) || bool_decide (body df = []).

(** [pd.DataFrame()]. *)
Definition empty_frame : DataFrame := mkDataFrame [] [].

(** The positions at which the string [name] occurs as a label in a
    header. *)
Fixpoint positions_from (i : nat) (name : string) (cols : list column_label)
  : list nat :=
  match cols with
  | [] => []
  | c :: cols' =>
      if decide (c = LStr name) then i :: positions_from (S i) name cols'
      else positions_from (S i) name cols'
  end.
Definition positions (name : string) (cols : list column_label) : list nat :=
  positions_from 0 name cols.

(** What [df[name]] selects: nothing ([KeyError]), one column (a [Series])
    or, when the label is repeated, several columns (a [DataFrame]). *)
Inductive selection :=
  | NoColumn
  | OneColumn (i : nat)
  | ManyColumns (l : list nat).

Definition locate (name : string) (df : DataFrame) : selection :=
  match positions name (columns df) with
  | [] => NoColumn
  | [i] => OneColumn i
  | l => ManyColumns l
  end.

Definition cell_at (i : nat) (r : list cell) : cell := default CNull (r !! i).

(** The values of the column at position [i], in row order. *)
Definition series_at (i : nat) (df : DataFrame) : list cell :=
  cell_at i <$> rows df.

(** Writing the cell at position [i] of a row; a short row is filled up
    with null cells first. *)
Definition put_cell (i : nat) (v : cell) (r : list cell) : list cell :=
  if decide (i < length r) then <[i:=v]> r
  else r ++ replicate (i - length r) CNull ++ [v].

(** [df[name] = values] for the column at position [i]. *)
Definition set_series_at (i : nat) (values : list cell) (df : DataFrame) : DataFrame :=
  mkDataFrame (columns df)
    (zip_with (λ p v, (p.1, put_cell i v p.2)) (body df) values).

(** [df[mask]] for a boolean mask: the rows at which the mask is true, in
    order, with their index labels. *)
Definition select_rows (mask : list bool) (df : DataFrame) : DataFrame :=
  mkDataFrame (columns df) (filter (λ p, p.1 = true) (zip mask (body df))).*2.

(** [df.reset_index(drop=True)]. *)
Definition reset_index (df : DataFrame) : DataFrame :=
  mkDataFrame (columns df) (imap (λ i p, (i, p.2)) (body df)).

(** [series == s] for a string [s], on one cell. *)
Definition cell_eq_str (s : string) (c : cell) : bool :=
  match c with CStr x => bool_decide (x = s) | _ => false end.

(** [series == n] for an integer [n], on one cell. *)
Definition cell_eq_int (n : Z) (c : cell) : bool :=
  match c with CInt x => bool_decide (x = n) | _ => false end.

(** A worksheet or CSV file as the pandas reader sees it: the header labels
    (as the reader assigns them) and the data rows.  [pd.read_csv] gives
    strings only; [pd.read_excel] also gives numbers. *)
Record sheet := mkSheet {
  header : list column_label;
  data : list (list cell)
}.

(** [pd.read_excel(path, sheet_name=...)] and [pd.read_csv(path)]: the
    frame gets the default index 0, 1, 2, ... *)
Definition read_table (t : sheet) : DataFrame :=
  mkDataFrame (header t) (imap (λ i r, (i, r)) (data t)).

(** [pd.read_excel(..., nrows=n)]. *)
Definition read_table_nrows (n : nat) (t : sheet) : DataFrame :=
  mkDataFrame (header t) (imap (λ i r, (i, r)) (take n (data t))).

(** The worksheets of an Excel file, in file order, by name. *)
Definition workbook : Type := list (string * sheet).

Definition sheet_names (wb : workbook) : list string := wb.*1.

(** The sheet of a given name. *)
Definition sheet_by_name (name : string) (wb : workbook) : option sheet :=
  (λ p, p.2.2) <$> list_find (λ p, p.1 = name) wb.

(** ** The data loader ([data_loader.py]) *)

Section Loader.

(** What [Series.astype(str)] makes of a missing value: the string ["nan"]
    with pandas before 3.0 ([true]), the missing value itself from pandas
    3.0 on ([false]). *)
Variable nan_as_text : bool.

(** The text [Series.astype(str)] gives for a number or a timestamp of a
    column; it depends on the dtype pandas has chosen for the column. *)
Variable value_str : list cell → cell → string.

(** [Index.str.strip().str.lower()] on labels that are not all strings:
    pandas raises [AttributeError] for an index of numbers and leaves a
    missing label for a number among strings. *)
Variable str_strip_lower_other : list column_label → result (list column_label).

Local Open Scope loader_scope.

(** [Series.astype(str)] on one cell of the column [col]. *)
Definition astype_str (col : list cell) (c : cell) : cell :=
  match c with
  | CNull => if nan_as_text then CStr "nan" else CNull
  | CStr s => CStr s
  | CInt _ | CTime _ => CStr (value_str col c)
  end.

(** [Series.str.strip()] and [Series.str.lower()] on one cell: a value that
    is not a string becomes missing. *)
Definition str_strip (c : cell) : cell :=
  match c with CStr s => CStr (PyStr.strip s) | _ => CNull end.

Definition str_lower (c : cell) : cell :=
  match c with CStr s => CStr (PyStr.lower s) | _ => CNull end.

(** *** Column normalizer *)

(** [name.strip().lower()]. *)
Definition normalize_name (name : string) : string :=
  PyStr.lower (PyStr.strip name).

(** [df.columns.str.strip().str.lower()] on labels that are strings. *)
Definition normalize_names (names : list string) : list string :=
  normalize_name <$> names.

(** [df.columns = df.columns.str.strip().str.lower()]. *)
Definition normalize_columns (df : DataFrame) : result DataFrame :=
  match text_labels (columns df) with
  | Some names => Ok (mkDataFrame (LStr <$> normalize_names names) (body df))
  | None =>
      match str_strip_lower_other (columns df) with
      | Ok cols => Ok (mkDataFrame cols (body df))
      | Raise e => Raise e
      end
  end.

(** *** Worksheet resolver *)

(** The names tried first for the unified data set and for the reference
    codes. *)
Definition possible_sheet_names : list string :=
  ["data"; "Sheet1"; "unified_data"; "ethiopia_fi"; "main"; "observations"].

Definition possible_ref_sheet_names : list string :=
  ["reference_codes"; "codes"; "Sheet1"; "ref"].

(** The first loop: [for sheet_name in possible: if sheet_name in
    sheet_names: df = read_excel(...); break]. *)
Fixpoint by_priority (possible : list string) (wb : workbook)
  : option (string * DataFrame) :=
  match possible with
  | [] => None
  | name :: possible' =>
      if decide (name ∈ sheet_names wb) then
        match sheet_by_name name wb with
        | Some t => Some (name, read_table t)
        | None => by_priority possible' wb
        end
      else by_priority possible' wb
  end.

(** The probe of one sheet: the ten leading rows are read and the header
    is searched for a marker label. *)
Definition looks_like_data (t : sheet) : bool :=
  let temp_df := read_table_nrows 10 t in
  bool_decide (LStr "record_type" ∈ columns temp_df) ||
  bool_decide (LStr "indicator" ∈ columns temp_df).


(** The second loop: [for sheet_name in sheet_names: ...]. *)
Fixpoint by_probe (wb : workbook) : option (string * DataFrame) :=
  match wb with
  | [] => None
  | (name, t) :: wb' =>
      if looks_like_data t then Some (name, read_table t) else by_probe wb'
  end.

(** The last resort: [if df is None and sheet_names: ...]. *)
Definition first_sheet (wb : workbook) : option (string * DataFrame) :=
  match wb with
  | [] => None
  | (name, t) :: _ => Some (name, read_table t)
  end.

(** The sheet [load_unified_data] reads, as [(sheet_used, df)]; [None]
    when [df] is still [None] after the three steps. *)
Definition resolve_sheet (possible : list string) (wb : workbook)
  : option (string * DataFrame) :=
  match by_priority possible wb with
  | Some r => Some r
  | None =>
      match by_probe wb with
      | Some r => Some r
      | None => first_sheet wb
      end
  end.

(** The sheet [load_reference_codes] reads: names first, then the first
    sheet; there is no probe. *)
Definition resolve_ref_sheet (possible : list string) (wb : workbook)
  : option (string * DataFrame) :=
  match by_priority possible wb with
  | Some r => Some r
  | None => first_sheet wb
  end.

(** *** Record partitioner *)

(** [.astype(str).str.strip().str.lower()] on one cell of the column
    [col]. *)
Definition clean_record_type (col : list cell) (c : cell) : cell :=
  str_lower (str_strip (astype_str col c)).

(** A row as the assignment [df['record_type'] = ...] leaves it, for the
    column [col] at position [i]. *)
Definition clean_row (i : nat) (col : list cell) (r : list cell) : list cell :=
  put_cell i (clean_record_type col (cell_at i r)) r.

(** The lines from [if 'record_type' in df.columns:] to the [else] branch,
    on the frame with normalized labels.  With a repeated label,
    [df['record_type']] is a frame, which has no [.str]. *)
Definition split_records (df : DataFrame) : M (DataFrame * DataFrame) :=
  match locate "record_type" df with
  | OneColumn i =>
      let record_type := series_at i df in
      let df := set_series_at i (clean_record_type record_type <$> record_type) df in
      let impact_links_mask := cell_eq_str "impact_link" <$> series_at i df in
      let main_data := select_rows (negb <$> impact_links_mask) df in
      let impact_links := select_rows impact_links_mask df in
      let main_data := reset_index main_data in
      let impact_links := reset_index impact_links in
      ret (main_data, impact_links)
  | ManyColumns _ =>
      raise (AttributeError "'DataFrame' object has no attribute 'str'")
  | NoColumn =>
      emit WARNING "No 'record_type' column found. Assuming all data is main data." ;;
      ret (df, empty_frame)
  end.

(** *** Files *)

(** The raw-data directory: its Excel files and its CSV files, by file
    name. *)
Record raw_dir := mkRawDir {
  xlsx : gmap string workbook;
  csv : gmap string sheet
}.

(** [self.data_files]. *)
Definition data_files : list (string * string) :=
  [("unified_data", "ethiopia_fi_unified_data.xlsx");
   ("reference_codes", "reference_codes.xlsx");
   ("additional_data", "Additional Data Points Guide.xlsx")].

(** [filename.replace('.xlsx', '.csv')] for the names of [data_files],
    which end in [.xlsx] and contain it once. *)
Definition csv_name (filename : string) : string :=
  String.substring 0 (String.length filename - 5) filename +:+ ".csv".

(** [Path.suffix.lower()]: the part of the name from its last dot. *)
Fixpoint suffix_from (s : string) : option string :=
  match s with
  | EmptyString => None
  | String c s' =>
      match suffix_from s' with
      | Some r => Some r
      | None => if decide (c = "."%char) then Some (PyStr.lower s) else None
      end
  end.
Definition suffix (p : string) : string := default "" (suffix_from p).

(** The loop of [download_data] over [self.data_files.items()]. *)
Fixpoint find_files (fs : raw_dir) (files : list (string * string))
    (file_paths : gmap string string) : M (gmap string string) :=
  match files with
  | [] => ret file_paths
  | (name, filename) :: files' =>
      let excel_path := filename in
      let csv_path := csv_name filename in
      if decide (is_Some (xlsx fs !! excel_path)) then
        find_files fs files' (<[name := excel_path]> file_paths)
      else if decide (is_Some (csv fs !! csv_path)) then
        find_files fs files' (<[name := csv_path]> file_paths)
      else
        emit ERROR ("No data file found for: " +:+ name) ;;
        emit ERROR ("Expected at: " +:+ excel_path +:+ " or " +:+ csv_path) ;;
        find_files fs files' file_paths
  end.

Definition download_data (fs : raw_dir) : M (gmap string string) :=
  let* file_paths := find_files fs data_files ∅ in
  (if decide (file_paths = ∅) then
     emit ERROR "No data files found!" ;;
     emit ERROR "Please place Excel files in the raw directory"
   else ret tt) ;;
  ret file_paths.

(** [pd.ExcelFile(path)] and [pd.read_csv(path)]. *)
Definition open_excel (fs : raw_dir) (p : string) : M workbook :=
  match xlsx fs !! p with
  | Some wb => ret wb
  | None => raise (FileNotFoundError ("No such file or directory: " +:+ p))
  end.

Definition read_csv (fs : raw_dir) (p : string) : M DataFrame :=
  match csv fs !! p with
  | Some t => ret (read_table t)
  | None => raise (FileNotFoundError ("No such file or directory: " +:+ p))
  end.

(** *** [load_unified_data] *)

(** The lines of [load_unified_data] from [if df is None or df.empty:] to
    the [return]. *)
Definition check_and_split (df : option DataFrame) : M (DataFrame * DataFrame) :=
  match df with
  | None => raise (ValueError "Loaded dataframe is empty")
  | Some df =>
      if empty df then raise (ValueError "Loaded dataframe is empty")
      else
        let* df := lift (normalize_columns df) in
        (if decide (LStr "record_type" ∈ columns df) then ret tt
         else emit WARNING "Missing expected columns: ['record_type']") ;;
        split_records df
  end.

(** The lines that read the file at [unified_data_path]. *)
Definition read_unified (fs : raw_dir) (unified_data_path : string)
  : M (option DataFrame) :=
  let file_extension := suffix unified_data_path in
  if decide (file_extension = ".xlsx") then
    let* excel_file := open_excel fs unified_data_path in
    ret (snd <$> resolve_sheet possible_sheet_names excel_file)
  else if decide (file_extension = ".csv") then
    let* df := read_csv fs unified_data_path in ret (Some df)
  else
    raise (ValueError ("Unsupported file format: " +:+ file_extension)).

Definition load_unified_data_try (fs : raw_dir) : M (DataFrame * DataFrame) :=
  let* file_paths := download_data fs in
  match file_paths !! "unified_data" with
  | None =>
      raise (FileNotFoundError
        "Unified data file not found. Expected: ethiopia_fi_unified_data.xlsx")
  | Some unified_data_path =>
      let* df := read_unified fs unified_data_path in
      check_and_split df
  end.

Definition load_unified_data (fs : raw_dir) : M (DataFrame * DataFrame) :=
  try_except (load_unified_data_try fs)
    (λ e,
       emit ERROR ("Error loading unified data: " +:+ exn_str e) ;;
       emit ERROR "Please check:" ;;
       emit ERROR "1. File exists in data/raw/ folder" ;;
       emit ERROR "2. File is not open in Excel" ;;
       emit ERROR "3. File format is correct" ;;
       raise e).

(** *** [load_reference_codes] *)

Definition load_reference_codes_try (fs : raw_dir) : M DataFrame :=
  let* file_paths := download_data fs in
  match file_paths !! "reference_codes" with
  | None =>
      raise (FileNotFoundError
        "Reference codes file not found. Expected: reference_codes.xlsx")
  | Some ref_codes_path =>
      let file_extension := suffix ref_codes_path in
      let* ref_codes :=
        (if decide (file_extension = ".xlsx") then
           let* excel_file := open_excel fs ref_codes_path in
           ret (snd <$> resolve_ref_sheet possible_ref_sheet_names excel_file)
         else if decide (file_extension = ".csv") then
           let* df := read_csv fs ref_codes_path in ret (Some df)
         else
           raise (ValueError ("Unsupported file format: " +:+ file_extension))) in
      match ref_codes with
      | None => raise (ValueError "Loaded reference codes dataframe is empty")
      | Some ref_codes =>
          if empty ref_codes then
            raise (ValueError "Loaded reference codes dataframe is empty")
          else lift (normalize_columns ref_codes)
      end
  end.

Definition load_reference_codes (fs : raw_dir) : M DataFrame :=
  try_except (load_reference_codes_try fs)
    (λ e,
       emit ERROR ("Error loading reference codes: " +:+ exn_str e) ;;
       raise e).

(** *** [load_additional_data_guide] *)

(** [for sheet_name in sheet_names: sheets_dict[sheet_name] = read_excel(...)]. *)
Definition read_all_sheets (wb : workbook) : gmap string DataFrame :=
  foldl (λ sheets_dict name,
           match sheet_by_name name wb with
           | Some t => <[name := read_table t]> sheets_dict
           | None => sheets_dict
           end) ∅ (sheet_names wb).

Definition load_additional_data_guide_try (fs : raw_dir)
  : M (gmap string DataFrame) :=
  let* file_paths := download_data fs in
  match file_paths !! "additional_data" with
  | None =>
      raise (FileNotFoundError
        "Additional data guide not found. Expected: Additional Data Points Guide.xlsx")
  | Some guide_path =>
      let file_extension := suffix guide_path in
      if decide (file_extension = ".xlsx") then
        let* excel_file := open_excel fs guide_path in
        ret (read_all_sheets excel_file)
      else
        raise (ValueError ("Unsupported file format for guide: " +:+ file_extension))
  end.

Definition load_additional_data_guide (fs : raw_dir)
  : M (gmap string DataFrame) :=
  try_except (load_additional_data_guide_try fs)
    (λ e,
       emit ERROR ("Error loading additional data guide: " +:+ exn_str e) ;;
       ret ∅).

(** *** Notions used in the statements *)

(** A sheet has a marker label in its header as it was read. *)
Definition has_marker (t : sheet) : Prop :=
  LStr "record_type" ∈ header t ∨ LStr "indicator" ∈ header t.

(** The path [download_data] records for a file name: the Excel file when
    it exists, else the CSV file when it exists. *)
Definition located (fs : raw_dir) (filename : string) : option string :=
  if decide (is_Some (xlsx fs !! filename)) then Some filename
  else if decide (is_Some (csv fs !! csv_name filename)) then Some (csv_name filename)
  else None.

(** One step of the loop of [download_data] on the dictionary
    [file_paths]. *)
Definition record_path (fs : raw_dir) (m : gmap string string)
    (entry : string * string) : gmap string string :=
  match located fs entry.2 with
  | Some p => <[entry.1 := p]> m
  | None => m
  end.

(** Neither the Excel file nor the CSV file of a data set is in the
    directory. *)
Definition missing_input (fs : raw_dir) (filename : string) : Prop :=
  xlsx fs !! filename = None ∧ csv fs !! csv_name filename = None.

(** A loader call ends in [FileNotFoundError], after an ERROR record that
    starts with [prefix] and carries the message of the exception. *)
Definition logged_and_reraised {A} (prefix : string) (m : M A) : Prop :=
  ∃ msg log,
    m = (Raise (FileNotFoundError msg), log) ∧ (ERROR, prefix +:+ msg) ∈ log.

(** A loader call returns [default] normally, after an ERROR record that
    starts with [prefix]. *)
Definition logged_and_defaulted {A} (prefix : string) (default : A) (m : M A) : Prop :=
  ∃ msg log, m = (Ok default, log) ∧ (ERROR, prefix +:+ msg) ∈ log.

End Loader.

(** ** The structural validator ([DataLoader.validate_data_structure]) *)

(** The value of ["unique_indicators"]: the number [nunique] gives for one
    column, or one number per column when the label is repeated. *)
Inductive unique_count :=
  | UniqueScalar (n : nat)
  | UniquePerColumn (ns : list nat).

(** The dictionary [validation_results].  A Python [dict] is a finite map:
    the order of its keys is not modelled.  ["date_range"] is [None] or the
    pair of ["min"] and ["max"]. *)
Record ValidationReport := mkReport {
  total_records : nat;
  record_type_counts : gmap cell nat;
  pillar_distribution : gmap cell nat;
  missing_values : gmap column_label nat;
  date_range : option (string * string);
  unique_indicators : unique_count
}.

(** [Series.nunique()]: the number of distinct non-null values. *)
Definition nunique (s : list cell) : nat :=
  length (remove_dups (filter (λ c, isnull c = false) s)).

(** How often [k] occurs in [l]. *)
Definition count_occ_of {A} `{EqDecision A} (k : A) (l : list A) : nat :=
  length (filter (λ x, x = k) l).

(** [Series.value_counts().to_dict()]: the missing values are dropped, and
    each other value is mapped to the number of its occurrences. *)
Definition value_counts (s : list cell) : gmap cell nat :=
  let kept := filter (λ c, isnull c = false) s in
  list_to_map ((λ c, (c, count_occ_of c kept)) <$> remove_dups kept).

(** [df[name].value_counts().to_dict()], run when [name in df.columns].
    With a repeated label [df[name]] is a frame, and [value_counts] of it
    groups by a label that selects more than one column, which raises. *)
Definition counts_of (name : string) (df : DataFrame) : result (gmap cell nat) :=
  match locate name df with
  | NoColumn => Ok ∅
  | OneColumn i => Ok (value_counts (series_at i df))
  | ManyColumns _ =>
      Raise (ValueError ("Grouper for '" +:+ name +:+ "' not 1-dimensional"))
  end.

(** [df.isnull().sum().to_dict()]: one null count per column, in column
    order, put into a dictionary, where the count of a later column
    replaces that of an earlier column with the same label. *)
Definition null_counts (df : DataFrame) : gmap column_label nat :=
  list_to_map
    (reverse (imap (λ i name,
                      (name, length (filter (λ c, isnull c = true) (series_at i df))))
                   (columns df))).

(** The name Python gives to the type of a label. *)
Definition type_name (c : column_label) : string :=
  match c with
  | LStr _ => "str"
  | LInt _ => "int"
  | LNaN => "float"
  end.

(** [[col for col in df.columns if 'date' in col.lower()]]: a label that is
    not a string has no [lower]. *)
Fixpoint date_columns_of (cols : list column_label) : result (list string) :=
  match cols with
  | [] => Ok []
  | LStr col :: cols' =>
      match date_columns_of cols' with
      | Ok rest =>
          Ok (if PyStr.contains "date" (PyStr.lower col) then col :: rest else rest)
      | Raise e => Raise e
      end
  | c :: _ =>
      Raise (AttributeError
               ("'" +:+ type_name c +:+ "' object has no attribute 'lower'"))
  end.

Definition date_columns (df : DataFrame) : result (list string) :=
  date_columns_of (columns df).

Section Validator.

(** [pd.to_datetime(s, errors='coerce')] on one value of the column [s]:
    the timestamp, or [None] where pandas gives [NaT].  How a value is
    read depends on the other values of the column. *)
Variable to_datetime : list cell → cell → option Z.

(** [t.strftime('%Y-%m-%d')]. *)
Variable strftime_ymd : Z → string.

Definition to_datetime_cell (s : list cell) (c : cell) : cell :=
  match to_datetime s c with
  | Some t => CTime t
  | None => CNull
  end.

(** [Series.dropna()] on a column of timestamps. *)
Definition dropna_times (s : list cell) : list Z :=
  omap (λ c, match c with CTime t => Some t | _ => None end) s.

Definition minimum (t : Z) (ts : list Z) : Z := foldr Z.min t ts.
Definition maximum (t : Z) (ts : list Z) : Z := foldr Z.max t ts.

(** The loop [for date_col in date_columns], as a function of the frame it
    reads and assigns to.  [pd.to_datetime] of a frame (a repeated label)
    raises, and the handler continues with the next label. *)
Fixpoint date_range_loop (cols : list string) (df : DataFrame)
  : option (string * string) * DataFrame :=
  match cols with
  | [] => (None, df)
  | date_col :: cols' =>
      match locate date_col df with
      | OneColumn i =>
          let s := series_at i df in
          let df := set_series_at i (to_datetime_cell s <$> s) df in
          match dropna_times (series_at i df) with
          | [] => date_range_loop cols' df
          | t :: ts =>
              (Some (strftime_ymd (minimum t ts), strftime_ymd (maximum t ts)), df)
          end
      | _ => date_range_loop cols' df
      end
  end.

(** The timestamps [pd.to_datetime] finds in the column of a label that
    is not repeated, read from the frame as it is given. *)
Definition parsed_dates (df : DataFrame) (col : string) : list Z :=
  match locate col df with
  | OneColumn i => omap (to_datetime (series_at i df)) (series_at i df)
  | _ => []
  end.

Definition range_of (ts : list Z) : option (string * string) :=
  match ts with
  | [] => None
  | t :: ts => Some (strftime_ymd (minimum t ts), strftime_ymd (maximum t ts))
  end.

(** The range of the first of the labels [cols] whose column has a
    timestamp. *)
Fixpoint first_range (cols : list string) (df : DataFrame)
  : option (string * string) :=
  match cols with
  | [] => None
  | col :: cols' =>
      match parsed_dates df col with
      | [] => first_range cols' df
      | ts => range_of ts
      end
  end.


(** [validate_data_structure(df)]: the report, or the exception that ends
    the call, and the frame [df] as the call leaves it. *)
Definition validate_data_structure (df : DataFrame)
  : result ValidationReport * DataFrame :=
  if empty df then (Ok (mkReport (len df) ∅ ∅ ∅ None (UniqueScalar 0)), df)
  else
    match counts_of "record_type" df with
    | Raise e => (Raise e, df)
    | Ok record_type_counts =>
        match counts_of "pillar" df with
        | Raise e => (Raise e, df)
        | Ok pillar_distribution =>
            let missing_values := null_counts df in
            let unique_indicators :=
              match positions "indicator_code" (columns df) with
              | [] => UniqueScalar 0
              | [i] => UniqueScalar (nunique (series_at i df))
              | sel => UniquePerColumn ((λ i, nunique (series_at i df)) <$> sel)
              end in
            match date_columns df with
            | Raise e => (Raise e, df)
            | Ok date_cols =>
                let '(date_range, df') := date_range_loop date_cols df in
                (Ok (mkReport (len df) record_type_counts pillar_distribution
                       missing_values date_range unique_indicators), df')
            end
        end
    end.

End Validator.

(** The sum of the counts of a frequency table. *)
Definition total_count (counts : gmap cell nat) : nat :=
  sum_list (map_to_list counts).*2.

(** ** The dashboard metrics ([dashboard/app.py], Overview page) *)

(** What [st.metric(label=..., value=..., delta=...)] shows. *)
Record metric := mkMetric {
  label : string;
  value : string;
  delta : string
}.

Section Dashboard.

(** Python floats and the operations the page applies to them:
    [float(s)] ([None] when it raises [ValueError]), the format [:.1f],
    subtraction and the conversion of an integer literal. *)
Variable F : Type.
Variable float_of_string : string → option F.
Variable format_1f : F → string.
Variable fsub : F → F → F.
Variable float_of_Z : Z → F.

(** The text an f-string gives for a cell. *)
Variable format_cell : cell → string.

(** The tables of the dictionary [data], by key.  They come from
    [pd.read_csv], which makes the labels of a file distinct; the model
    lets a selection by a repeated label raise. *)
Implicit Types data : gmap string DataFrame.

(** [df[name]] as a position, or [KeyError]. *)
Definition getitem (name : string) (df : DataFrame) : result nat :=
  match locate name df with
  | OneColumn i => Ok i
  | _ => Raise (KeyError name)
  end.

(** The body of the [try] in [get_forecast_value]:
    [float(df[(df['Indicator'] == indicator) & (df['Year'] == year)]
           ['Forecast_%'].values[0].replace('%', ''))]. *)
Definition forecast_lookup (df : DataFrame) (indicator : string) (year : Z)
  : result F :=
  match getitem "Indicator" df with
  | Raise e => Raise e
  | Ok i =>
      match getitem "Year" df with
      | Raise e => Raise e
      | Ok j =>
          let mask := zip_with andb (cell_eq_str indicator <$> series_at i df)
                                    (cell_eq_int year <$> series_at j df) in
          let hit := select_rows mask df in
          match getitem "Forecast_%" hit with
          | Raise e => Raise e
          | Ok k =>
              match series_at k hit with
              | [] => Raise (IndexError "index 0 is out of bounds for axis 0 with size 0")
              | CStr s :: _ =>
                  match float_of_string (PyStr.remove_char "%" s) with
                  | Some x => Ok x
                  | None => Raise (ValueError "could not convert string to float")
                  end
              | _ :: _ => Raise (AttributeError "object has no attribute 'replace'")
              end
          end
      end
  end.

(** [get_forecast_value(indicator, year)]; [None] is Python's [None]. *)
Definition get_forecast_value data (indicator : string) (year : Z) : option F :=
  match data !! "forecasts" with
  | Some df =>
      match forecast_lookup df indicator year with
      | Ok x => Some x
      | Raise _ => None
      end
  | None => None
  end.

(** The metric of the second column. *)
Definition forecast_metric data : metric :=
  match get_forecast_value data "ACC_OWNERSHIP" 2027 with
  | Some acc_2027 =>
      mkMetric "2027 Forecast (Base)" (format_1f acc_2027 +:+ "%")
        ("vs 2024: +" +:+ format_1f (fsub acc_2027 (float_of_Z 49)) +:+ "pp")
  | None => mkMetric "2027 Forecast (Base)" "Loading..." "Data required"
  end.

(** The metric of the third column. *)
Definition target_gap_metric data : metric :=
  let target_2030 := float_of_Z 70 in
  match get_forecast_value data "ACC_OWNERSHIP" 2027 with
  | Some acc_2027 =>
      let gap := fsub target_2030 acc_2027 in
      mkMetric "Gap to 2030 Target" (format_1f gap +:+ "pp") "Remaining"
  | None => mkMetric "Gap to 2030 Target" "--" "Data required"
  end.

(** The body of the [try] of the fourth column: the cell [row['Range_pp']]
    when the label is present and the cell is not null. *)
Definition scenario_range_lookup (df : DataFrame) : result (option cell) :=
  match getitem "Indicator" df with
  | Raise e => Raise e
  | Ok i =>
      let hit := select_rows (cell_eq_str "ACC_OWNERSHIP" <$> series_at i df) df in
      match rows hit with
      | [] => Raise (IndexError "single positional indexer is out of-bounds")
      | row :: _ =>
          match locate "Range_pp" hit with
          | NoColumn => Ok None
          | OneColumn k =>
              if isnull (cell_at k row) then Ok None else Ok (Some (cell_at k row))
          | ManyColumns _ => Raise (ValueError "The truth value of a Series is ambiguous")
          end
      end
  end.

Definition scenario_range_placeholder : metric :=
  mkMetric "Scenario Range (2027)" "--" "Data required".

(** The metric of the fourth column. *)
Definition scenario_range_metric data : metric :=
  match data !! "comparison_2027" with
  | Some df =>
      match scenario_range_lookup df with
      | Ok (Some c) =>
          mkMetric "Scenario Range (2027)" (format_cell c +:+ "pp")
            "Optimistic vs Pessimistic"
      | Ok None => scenario_range_placeholder
      | Raise _ => scenario_range_placeholder
      end
  | None => scenario_range_placeholder
  end.

(** *** Notions used in the statements *)

(** A row is one the forecast lookup selects. *)
Definition forecast_row (i j : nat) (indicator : string) (year : Z)
    (r : list cell) : Prop :=
  cell_at i r = CStr indicator ∧ cell_at j r = CInt year.

(** The ways in which the forecast lookup misses in a table: a column it
    names is absent, no row has the indicator and the year, or the value
    of the first such row is not a string that [float] accepts. *)
Inductive lookup_miss (df : DataFrame) (indicator : string) (year : Z) : Prop :=
  | column_absent (c : string) :
      c ∈ ["Indicator"; "Year"; "Forecast_%"] → LStr c ∉ columns df →
      lookup_miss df indicator year
  | row_absent (i j : nat) :
      locate "Indicator" df = OneColumn i →
      locate "Year" df = OneColumn j →
      (∀ r, r ∈ rows df → ¬ forecast_row i j indicator year r) →
      lookup_miss df indicator year
  | parse_failure (i j k : nat) (pre post : list (list cell)) (r : list cell) :
      locate "Indicator" df = OneColumn i →
      locate "Year" df = OneColumn j →
      locate "Forecast_%" df = OneColumn k →
      rows df = pre ++ r :: post →
      (∀ r', r' ∈ pre → ¬ forecast_row i j indicator year r') →
      forecast_row i j indicator year r →
      (∀ s, cell_at k r = CStr s →
            float_of_string (PyStr.remove_char "%" s) = None) →
      lookup_miss df indicator year.

(** The forecast of an indicator and a year cannot be derived from
    [data]. *)
Definition forecast_unavailable data (indicator : string) (year : Z) : Prop :=
  data !! "forecasts" = None ∨
  ∃ df, data !! "forecasts" = Some df ∧ lookup_miss df indicator year.

(** The scenario range cannot be derived from [data]: the table or its
    indicator column is absent, or no row is about account ownership, or
    the first such row has no range. *)
Definition scenario_range_unavailable data : Prop :=
  data !! "comparison_2027" = None ∨
  ∃ df, data !! "comparison_2027" = Some df ∧
    (LStr "Indicator" ∉ columns df ∨
     ∃ i, locate "Indicator" df = OneColumn i ∧
       ((∀ r, r ∈ rows df → cell_at i r ≠ CStr "ACC_OWNERSHIP") ∨
        ∃ pre r post,
          rows df = pre ++ r :: post ∧
          (∀ r', r' ∈ pre → cell_at i r' ≠ CStr "ACC_OWNERSHIP") ∧
          cell_at i r = CStr "ACC_OWNERSHIP" ∧
          (LStr "Range_pp" ∉ columns df ∨
           ∃ k, locate "Range_pp" df = OneColumn k ∧ isnull (cell_at k r) = true))).

End Dashboard.

(** ** The rest of the data loader *)

Section LoaderFiles.

Local Open Scope loader_scope.

(** The loop of [check_data_files] over [self.data_files.items()]. *)
Fixpoint check_files (fs : raw_dir) (files : list (string * string))
    (file_status : gmap string bool) : M (gmap string bool) :=
  match files with
  | [] => ret file_status
  | (name, filename) :: files' =>
      let file_path := filename in
      let csv_path := csv_name filename in
      let exists_ := bool_decide (is_Some (xlsx fs !! file_path))
                     || bool_decide (is_Some (csv fs !! csv_path)) in
      let file_status := <[name := exists_]> file_status in
      (if exists_ then ret tt
       else emit WARNING ("Data file not found for " +:+ name)) ;;
      check_files fs files' file_status
  end.

(** [check_data_files()]. *)
Definition check_data_files (fs : raw_dir) : M (gmap string bool) :=
  check_files fs data_files ∅.

(** [s.endswith(suffix)]. *)
Fixpoint str_endswith (s suffix : string) : bool :=
  bool_decide (s = suffix) ||
  match s with
  | EmptyString => false
  | String _ s' => str_endswith s' suffix
  end.

(** What [df.to_csv(path, index=False)] writes: the header and the rows,
    without the index. *)
Definition to_csv (df : DataFrame) : sheet := mkSheet (columns df) (rows df).

(** [save_processed_data(df, filename)] on the files of the processed
    directory, by name: the name of the file written and the directory
    after the call. *)
Definition save_processed_data (processed : gmap string sheet) (df : DataFrame)
    (filename : string) : string * gmap string sheet :=
  let filename :=
    if str_endswith filename ".csv" then filename else filename +:+ ".csv" in
  (filename, <[filename := to_csv df]> processed).

(** The table [load_unified_data] hands to its checks: the sheet resolved in
    the Excel file when that file exists ([None] when the file has no
    sheet), else the table of the CSV file. *)
Definition unified_source (fs : raw_dir) (df : option DataFrame) : Prop :=
  (∃ wb, xlsx fs !! "ethiopia_fi_unified_data.xlsx" = Some wb ∧
         df = snd <$> resolve_sheet possible_sheet_names wb) ∨
  (∃ t, xlsx fs !! "ethiopia_fi_unified_data.xlsx" = None ∧
        csv fs !! "ethiopia_fi_unified_data.csv" = Some t ∧
        df = Some (read_table t)).


End LoaderFiles.

(** ** Loading the dashboard data ([load_data] of [dashboard/app.py]) *)

Section DashboardData.

(** The value [json.load] returns, and [len] of it. *)
Variable json : Type.
Variable json_len : json → nat.

(** A value of the dictionary [data]: a frame read with [pd.read_csv], the
    events matrix read with [index_col=0] (its index labels, which are the
    cells of the first column of the file, and the frame of the other
    columns), a text, or a parsed JSON document. *)
Inductive artifact :=
  | ATable (df : DataFrame)
  | AEvents (labels : list cell) (df : DataFrame)
  | AText (s : string)
  | AJson (j : json).

(** The directory [data/processed]: each file that exists, by name, with what
    its reader returns or raises ([pd.read_csv], [f.read()], [json.load]).
    A table that [pd.read_csv] returns has at least one column. *)
Record processed_dir := mkProcessed {
  csv_files : gmap string (result sheet);
  text_files : gmap string (result string);
  json_files : gmap string (result json)
}.

(** Where [data/processed] exists: under the parent of the working
    directory, under the working directory, under the parent's parent. *)
Record workdir := mkWorkdir {
  at_parent : option processed_dir;
  at_cwd : option processed_dir;
  at_grandparent : option processed_dir
}.

(** [possible_paths], as the directories found there. *)
Definition possible_paths (w : workdir) : list (option processed_dir) :=
  [at_parent w; at_cwd w; at_grandparent w].

(** The loop [for base_path in possible_paths: ... break]. *)
Fixpoint first_existing (paths : list (option processed_dir)) : option processed_dir :=
  match paths with
  | [] => None
  | Some d :: _ => Some d
  | None :: paths' => first_existing paths'
  end.

(** Calls of [st.sidebar.success] and [st.sidebar.error], without the
    leading pictograph of the message. *)
Inductive sidebar :=
  | SidebarSuccess (msg : string)
  | SidebarError (msg : string).

(** One block [if path.exists(): data[key] = ...; st.sidebar.success(msg)]
    of the [try]: the key, the message, and what the block reads ([None]
    when it assigns nothing). *)
Definition block : Type := string * string * option (result artifact).

(** [pd.read_csv(path)] of a file of the directory, when it exists. *)
Definition read_csv_artifact (d : processed_dir) (filename : string)
  : option (result artifact) :=
  match csv_files d !! filename with
  | None => None
  | Some (Raise e) => Some (Raise e)
  | Some (Ok t) => Some (Ok (ATable (read_table t)))
  end.

(** Block 6: the historical table is kept only when it has a
    ["record_type"] label, and then only its rows with the value
    ["observation"].  (A label that [pd.read_csv] returns is not repeated;
    the model lets a selection by a repeated label raise.) *)
Definition read_historical (d : processed_dir) : option (result artifact) :=
  match csv_files d !! "enriched_main_data.csv" with
  | None => None
  | Some (Raise e) => Some (Raise e)
  | Some (Ok t) =>
      let historical_df := read_table t in
      match locate "record_type" historical_df with
      | NoColumn => None
      | OneColumn i =>
          Some (Ok (ATable
            (select_rows (cell_eq_str "observation" <$> series_at i historical_df)
                         historical_df)))
      | ManyColumns _ => Some (Raise (KeyError "record_type"))
      end
  end.

(** Block 7: [pd.read_csv(events_path, index_col=0)]. *)
Definition read_events (d : processed_dir) : option (result artifact) :=
  match csv_files d !! "event_indicator_matrix_refined.csv" with
  | None => None
  | Some (Raise e) => Some (Raise e)
  | Some (Ok t) =>
      match header t with
      | [] => Some (Raise (ValueError "No columns to parse from file"))
      | _ :: labels =>
          Some (Ok (AEvents (cell_at 0 <$> data t)
                      (mkDataFrame labels (imap (λ i r, (i, drop 1 r)) (data t)))))
      end
  end.

Definition read_text_artifact (d : processed_dir) (filename : string)
  : option (result artifact) :=
  match text_files d !! filename with
  | None => None
  | Some (Raise e) => Some (Raise e)
  | Some (Ok s) => Some (Ok (AText s))
  end.

Definition read_json_artifact (d : processed_dir) (filename : string)
  : option (result artifact) :=
  match json_files d !! filename with
  | None => None
  | Some (Raise e) => Some (Raise e)
  | Some (Ok j) => Some (Ok (AJson j))
  end.

(** The nine blocks of the [try], in order. *)
Definition load_plan (d : processed_dir) : list block :=
  [("baseline", "Loaded baseline forecasts",
    read_csv_artifact d "baseline_forecasts_summary.csv");
   ("augmented", "Loaded event-augmented forecasts",
    read_csv_artifact d "event_augmented_forecasts.csv");
   ("scenarios", "Loaded scenario forecasts",
    read_csv_artifact d "scenario_forecasts_comparison.csv");
   ("forecasts", "Loaded final forecasts",
    read_csv_artifact d "final_forecast_table.csv");
   ("comparison_2027", "Loaded 2027 comparison",
    read_csv_artifact d "scenario_comparison_2027.csv");
   ("historical", "Loaded historical data", read_historical d);
   ("events", "Loaded events matrix", read_events d);
   ("executive_summary", "Loaded executive summary",
    read_text_artifact d "forecasting_executive_summary.txt");
   ("report", "Loaded final report",
    read_json_artifact d "final_forecasting_report.json")].

(** Running the blocks on the dictionary [data]: a block that raises ends
    the run, and [data] stays as the blocks before it left it. *)
Fixpoint run_plan (plan : list block) (data : gmap string artifact)
    (shown : list sidebar) : gmap string artifact * list sidebar * option exn :=
  match plan with
  | [] => (data, shown, None)
  | (key, msg, read) :: plan' =>
      match read with
      | None => run_plan plan' data shown
      | Some (Raise e) => (data, shown, Some e)
      | Some (Ok a) =>
          run_plan plan' (<[key := a]> data) (shown ++ [SidebarSuccess msg])
      end
  end.

(** A block whose reader raises, and a plan with such a block. *)
Definition block_raises (b : block) : bool :=
  match b.2 with
  | Some (Raise _) => true
  | _ => false
  end.

Definition raises_in (plan : list block) : bool := existsb block_raises plan.

(** The keys of the blocks of a plan. *)
Definition plan_keys (plan : list block) : list string := (λ b : block, b.1.1) <$> plan.

(** [load_data()]: the pair [(data, data_loaded)] and the sidebar. *)
Definition load_data (w : workdir)
  : gmap string artifact * bool * list sidebar :=
  match first_existing (possible_paths w) with
  | None => (∅, false, [SidebarError "Could not find data/processed directory"])
  | Some d =>
      match run_plan (load_plan d) ∅ [] with
      | (data, shown, None) => (data, bool_decide (0 < size data), shown)
      | (data, shown, Some e) =>
          (data, false, shown ++ [SidebarError ("Error loading data: " +:+ exn_str e)])
      end
  end.

(** The frames of [data], by key. *)
Definition tables_of (data : gmap string artifact) : gmap string DataFrame :=
  omap (λ a, match a with
             | ATable df | AEvents _ df => Some df
             | _ => None
             end) data.

(** [len(x)] for a value of [data]. *)
Definition artifact_len (a : artifact) : nat :=
  match a with
  | ATable df | AEvents _ df => len df
  | AText s => String.length s
  | AJson j => json_len j
  end.

(** The "Historical Data Points" metric of the Overview page. *)
Definition historical_points (data : gmap string artifact) : nat :=
  match data !! "historical" with
  | Some a => artifact_len a
  | None => 0
  end.

(** The "Datasets Loaded" metric:
    [len([k for k in data.keys() if k not in ['executive_summary', 'report']])]. *)
Definition datasets_loaded (data : gmap string artifact) : nat :=
  length (filter (λ k, k ∉ ["executive_summary"; "report"]) (map_to_list data).*1).

End DashboardData.

(** ** Sample inputs *)

(** Instances of the library functions, for evaluating the model on the
    inputs below.  [sample_to_datetime] keeps a timestamp and gives no
    timestamp for any other cell; the index of a header that is not text
    has no [.str]; a sample float is the text it was read from, which must
    consist of digits and dots. *)
Definition sample_value_str (col : list cell) (c : cell) : string :=
  match c with
  | CInt n => pretty n
  | CTime t => pretty t
  | CStr s => s
  | CNull => "nan"
  end.

Definition sample_str_other (cols : list column_label)
  : result (list column_label) :=
  Raise (AttributeError "Can only use .str accessor with string values!").

Definition sample_to_datetime (s : list cell) (c : cell) : option Z :=
  match c with CTime t => Some t | _ => None end.

Definition sample_strftime (t : Z) : string := pretty t.

Fixpoint digits_and_dots (s : string) : bool :=
  match s with
  | EmptyString => true
  | String c s' =>
      (bool_decide (c = "."%char) ||
       (48 <=? nat_of_ascii c)%nat && (nat_of_ascii c <=? 57)%nat)
      && digits_and_dots s'
  end.

Definition sample_float_of_string (s : string) : option string :=
  if bool_decide (s = "") then None
  else if digits_and_dots s then Some s else None.

Definition sample_fsub (a b : string) : string := a +:+ " - " +:+ b.

Definition sample_float_of_Z (n : Z) : string := pretty n.

Definition sample_format_cell (c : cell) : string :=
  match c with
  | CNull => "nan"
  | CStr s => s
  | CInt n => pretty n
  | CTime t => pretty t
  end.

(** The loader with these instances, for pandas before 3.0 unless said
    otherwise. *)
Definition sample_load_unified_data : raw_dir → M (DataFrame * DataFrame) :=
  load_unified_data true sample_value_str sample_str_other.

Definition sample_split_records : DataFrame → M (DataFrame * DataFrame) :=
  split_records true sample_value_str.

Definition sample_validate : DataFrame → result ValidationReport * DataFrame :=
  validate_data_structure sample_to_datetime sample_strftime.

(** The no-break space U+00A0, which is C2 A0 in UTF-8. *)
Definition nbsp : string := String "194"%char (String "160"%char EmptyString).

(** A frame with one date column holding one string. *)
Definition dated_frame : DataFrame :=
  mkDataFrame [LStr "date"] [(0, [CStr "2024-01-15"])].


(** The table of five rows of the design document. *)
Definition five_rows : sheet :=
  mkSheet [LStr "record_type"; LStr "value"]
    [[CStr "observation"; CInt 10];
     [CStr "impact_link"; CInt 11];
     [CStr "observation"; CInt 12];
     [CStr "impact_link"; CInt 13];
     [CStr "observation"; CInt 14]].



(** A table without a record type. *)
Definition plain_frame : DataFrame :=
  mkDataFrame [LStr "indicator_code"; LStr "value"]
    [(0, [CStr "ACC_OWNERSHIP"; CInt 49])].

(** The workbook of the design document: ["Sheet1"] before ["data"]. *)
Definition two_sheets : workbook :=
  [("Sheet1", mkSheet [LStr "note"] [[CStr "see data"]]); ("data", five_rows)].



(** A directory without files, and one holding the unified data set as an
    Excel file whose labels are capitalized and padded. *)
Definition empty_dir : raw_dir := mkRawDir ∅ ∅.

Definition unified_sheet : sheet :=
  mkSheet [LStr " Record_Type "; LStr "Value"]
    [[CStr "observation"; CInt 10]; [CStr "impact_link"; CInt 11]].

Definition unified_dir : raw_dir :=
  mkRawDir {["ethiopia_fi_unified_data.xlsx" := [("data", unified_sheet)]]} ∅.

(** A unified data set without a record type, whose labels are padded. *)
Definition plain_sheet : sheet :=
  mkSheet [LStr " Indicator_Code"; LStr "Value "] [[CStr "ACC_OWNERSHIP"; CInt 49]].

Definition plain_dir : raw_dir :=
  mkRawDir ∅ {["ethiopia_fi_unified_data.csv" := plain_sheet]}.

(** A unified data set whose record-type label is padded with no-break
    spaces. *)
Definition nbsp_sheet : sheet :=
  mkSheet [LStr (nbsp +:+ "Record_Type" +:+ nbsp); LStr "Value"]
    [[CStr "observation"; CInt 10]; [CStr ("impact_link" +:+ nbsp); CInt 11]].

Definition nbsp_dir : raw_dir :=
  mkRawDir {["ethiopia_fi_unified_data.xlsx" := [("data", nbsp_sheet)]]} ∅.

(** A unified data set whose header cells hold numbers. *)
Definition numeric_header_sheet : sheet :=
  mkSheet [LInt 2023; LInt 2024] [[CInt 45; CInt 49]].

Definition numeric_header_dir : raw_dir :=
  mkRawDir {["ethiopia_fi_unified_data.xlsx" := [("data", numeric_header_sheet)]]} ∅.

(** A forecast table without a row for 2027, and one whose row for 2027
    does not hold a number. *)
Definition forecasts_to_2026 : DataFrame :=
  mkDataFrame [LStr "Indicator"; LStr "Year"; LStr "Forecast_%"]
    [(0, [CStr "ACC_OWNERSHIP"; CInt 2025; CStr "51.2%"]);
     (1, [CStr "ACC_OWNERSHIP"; CInt 2026; CStr "53.0%"]);
     (2, [CStr "USG_DIGITAL_PAYMENT"; CInt 2027; CStr "40.1%"])].

Definition forecasts_unparsable : DataFrame :=
  mkDataFrame [LStr "Indicator"; LStr "Year"; LStr "Forecast_%"]
    [(0, [CStr "ACC_OWNERSHIP"; CInt 2027; CStr "n/a"])].

(** The dictionary [data] with the first of these tables only. *)
Definition data_to_2026 : gmap string DataFrame :=
  {["forecasts" := forecasts_to_2026]}.

(** A unified data set whose priority-named first sheet is blank while the
    records are on a second sheet. *)
Definition blank_sheet_dir : raw_dir :=
  mkRawDir
    {["ethiopia_fi_unified_data.xlsx" :=
        [("Sheet1", mkSheet [] []); ("records", five_rows)]]}
    ∅.

(** A unified data set with two labels that normalize to ["record_type"]. *)
Definition repeated_label_sheet : sheet :=
  mkSheet [LStr "Record_Type"; LStr "record_type"]
    [[CStr "observation"; CStr "impact_link"]].

Definition repeated_label_dir : raw_dir :=
  mkRawDir {["ethiopia_fi_unified_data.xlsx" := [("data", repeated_label_sheet)]]} ∅.


(** The directory [unified_dir] with a CSV file of the unified data set and
    a guide beside the Excel file. *)
Definition unified_dir_with_csv : raw_dir :=
  mkRawDir (xlsx unified_dir)
    {["ethiopia_fi_unified_data.csv" := five_rows;
      "Additional Data Points Guide.csv" := five_rows]}.

(** Reference codes as a CSV file, and as a workbook without the priority
    names before its sheet ["codes"]. *)
Definition codes_sheet : sheet :=
  mkSheet [LStr " Code "; LStr "Label"] [[CStr "ACC"; CStr "access"]].


Definition codes_workbook : workbook :=
  [("Notes", mkSheet [LStr "note"] [[CStr "see codes"]]); ("codes", codes_sheet)].

(** A guide as an Excel file with two sheets, and as a CSV file only. *)
Definition guide_workbook : workbook :=
  [("A. Alternative Baselines", mkSheet [LStr "Source "] [[CStr "Findex"]]);
   ("B. Direct Corrln", mkSheet [LStr "Indicator"] [[CStr "ACC_OWNERSHIP"]])].

Definition guide_dir : raw_dir :=
  mkRawDir {["Additional Data Points Guide.xlsx" := guide_workbook]} ∅.

Definition guide_csv_dir : raw_dir :=
  mkRawDir ∅ {["Additional Data Points Guide.csv" := codes_sheet]}.

(** Frames for the validator: one with a missing record type and a pillar,
    one whose pillar label is repeated, one with a number as a label. *)
Definition pillar_frame : DataFrame :=
  mkDataFrame [LStr "record_type"; LStr "pillar"; LStr "observation_date"]
    [(0, [CStr "observation"; CStr "access"; CTime 19000]);
     (1, [CNull; CStr "usage"; CStr "soon"]);
     (2, [CStr "observation"; CNull; CTime 18000])].

Definition repeated_pillar_frame : DataFrame :=
  mkDataFrame [LStr "record_type"; LStr "pillar"; LStr "pillar"]
    [(0, [CStr "observation"; CStr "access"; CStr "usage"])].

Definition numeric_label_frame : DataFrame :=
  mkDataFrame [LStr "record_type"; LInt 2024] [(0, [CStr "observation"; CInt 49])].

(** A comparison table with a range for account ownership. *)
Definition comparison_table : DataFrame :=
  mkDataFrame [LStr "Indicator"; LStr "Range_pp"]
    [(0, [CStr "USG_DIGITAL_PAYMENT"; CStr "6.0"]);
     (1, [CStr "ACC_OWNERSHIP"; CStr "4.5"])].

Definition data_with_comparison : gmap string DataFrame :=
  {["comparison_2027" := comparison_table]}.

(** Processed directories of the dashboard, with JSON documents kept as
    text: one with the final forecasts and a historical table, and one whose
    final forecast file cannot be parsed. *)
Definition forecasts_sheet : sheet :=
  mkSheet [LStr "Indicator"; LStr "Year"; LStr "Forecast_%"]
    [[CStr "ACC_OWNERSHIP"; CInt 2027; CStr "55.2%"]].

Definition historical_sheet : sheet :=
  mkSheet [LStr "record_type"; LStr "value"]
    [[CStr "observation"; CInt 46];
     [CStr "Observation"; CInt 47];
     [CStr "event"; CNull];
     [CStr "observation"; CInt 49]].

Definition good_processed : processed_dir string :=
  mkProcessed string
    {["final_forecast_table.csv" := Ok forecasts_sheet;
      "enriched_main_data.csv" := Ok historical_sheet]}
    ∅ ∅.

Definition failing_processed : processed_dir string :=
  mkProcessed string
    {["baseline_forecasts_summary.csv" := Ok forecasts_sheet;
      "final_forecast_table.csv" := Raise (ValueError "No columns to parse from file");
      "scenario_comparison_2027.csv" := Ok forecasts_sheet]}
    ∅ ∅.

Definition good_workdir : workdir string :=
  mkWorkdir string None (Some good_processed) None.

Definition failing_workdir : workdir string :=
  mkWorkdir string (Some failing_processed) (Some good_processed) None.

(** * Properties *)

(** ** Strings *)

Module PyStrFacts.
Import PyStr.

Lemma lower_char_idem c : lower_char (lower_char c) = lower_char c.
Proof. by destruct c as [[] [] [] [] [] [] [] []]. Qed.

Lemma isspace_lower_char c : isspace (lower_char c) = isspace c.
Proof. by destruct c as [[] [] [] [] [] [] [] []]. Qed.

Lemma lower_idem s : lower (lower s) = lower s.
Proof. induction s as [|c s IH]; simpl; [done|]. by rewrite lower_char_idem, IH. Qed.

(** A character that [lower_char] changes is an ASCII character, and so is
    what it becomes. *)
Lemma lower_char_cases c :
  lower_char c = c ∨ (N_of_ascii c < 128 ∧ N_of_ascii (lower_char c) < 128)%N.
Proof.
  destruct c as [[] [] [] [] [] [] [] []];
    first [by left | by right].
Qed.

(** The bytes of the space characters: one ASCII byte, or a lead byte
    followed by continuation bytes. *)
Lemma isspace_low a : isspace a = true → (N_of_ascii a < 128)%N.
Proof. by destruct a as [[] [] [] [] [] [] [] []]. Qed.

Lemma isspace2_high a b :
  isspace2 a b = true →
  (N_of_ascii a = 194 ∧ 128 ≤ N_of_ascii b ≤ 191)%N.
Proof.
  unfold isspace2. intros [Ha Hb]%andb_true_iff.
  apply N.eqb_eq in Ha. apply orb_true_iff in Hb as [Hb|Hb]; apply N.eqb_eq in Hb; lia.
Qed.

Lemma isspace3_high a b c :
  isspace3 a b c = true →
  (225 ≤ N_of_ascii a ≤ 227 ∧ 128 ≤ N_of_ascii b ≤ 191 ∧ 128 ≤ N_of_ascii c ≤ 191)%N.
Proof.
  unfold isspace3.
  rewrite !orb_true_iff, !andb_true_iff, !orb_true_iff, !andb_true_iff,
    !N.eqb_eq, !N.leb_le.
  lia.
Qed.

Lemma isspace_high a : (128 ≤ N_of_ascii a)%N → isspace a = false.
Proof.
  intros Ha. destruct (isspace a) eqn:Hs; [|done]. apply isspace_low in Hs. lia.
Qed.

Lemma isspace2_not_lead a b : (N_of_ascii a ≠ 194)%N → isspace2 a b = false.
Proof.
  intros Ha. destruct (isspace2 a b) eqn:Hs; [|done]. apply isspace2_high in Hs. lia.
Qed.

Lemma isspace2_not_cont a b :
  (N_of_ascii b < 128 ∨ 191 < N_of_ascii b)%N → isspace2 a b = false.
Proof.
  intros Hb. destruct (isspace2 a b) eqn:Hs; [|done]. apply isspace2_high in Hs. lia.
Qed.

Lemma isspace3_not_lead a b c :
  (N_of_ascii a < 225 ∨ 227 < N_of_ascii a)%N → isspace3 a b c = false.
Proof.
  intros Ha. destruct (isspace3 a b c) eqn:Hs; [|done]. apply isspace3_high in Hs. lia.
Qed.

Lemma isspace3_not_cont a b c :
  (N_of_ascii b < 128 ∨ 191 < N_of_ascii b ∨ N_of_ascii c < 128 ∨ 191 < N_of_ascii c)%N →
  isspace3 a b c = false.
Proof.
  intros Hb. destruct (isspace3 a b c) eqn:Hs; [|done]. apply isspace3_high in Hs. lia.
Qed.

Lemma isspace2_lower_char a b :
  isspace2 (lower_char a) (lower_char b) = isspace2 a b.
Proof.
  destruct (lower_char_cases a) as [->|[Ha Ha']].
  - destruct (lower_char_cases b) as [->|[Hb Hb']]; [done|].
    rewrite !isspace2_not_cont by lia. done.
  - rewrite !(isspace2_not_lead) by lia. done.
Qed.

Lemma isspace3_lower_char a b c :
  isspace3 (lower_char a) (lower_char b) (lower_char c) = isspace3 a b c.
Proof.
  destruct (lower_char_cases a) as [->|[Ha Ha']].
  - destruct (lower_char_cases b) as [->|[Hb Hb']].
    + destruct (lower_char_cases c) as [->|[Hc Hc']]; [done|].
      rewrite !isspace3_not_cont by lia. done.
    + rewrite !isspace3_not_cont by lia. done.
  - rewrite !isspace3_not_lead by lia. done.
Qed.

Lemma is_space_lower s : is_space (lower s) = is_space s.
Proof.
  destruct s as [|a [|b [|c [|d s]]]]; simpl; try done.
  - apply isspace_lower_char.
  - apply isspace2_lower_char.
  - apply isspace3_lower_char.
Qed.

(** The first byte of a space character is not a continuation byte. *)
Lemma is_space_first a s :
  is_space (String a s) = true → (N_of_ascii a < 128 ∨ 194 ≤ N_of_ascii a)%N.
Proof.
  destruct s as [|b [|c [|d s]]]; simpl; [| | |done].
  - intros H%isspace_low. lia.
  - intros H%isspace2_high. lia.
  - intros H%isspace3_high. lia.
Qed.

Lemma lstrip_unfold s :
  lstrip s = match head_space s with Some r => lstrip r | None => s end.
Proof.
  destruct s as [|a [|b [|c s]]]; simpl; try done.
  - by destruct (isspace a).
  - destruct (isspace a); [done|]. by destruct (isspace2 a b).
  - destruct (isspace a); [done|]. destruct (isspace2 a b); [done|].
    by destruct (isspace3 a b c).
Qed.

Lemma head_space_Some s r :
  head_space s = Some r →
  ∃ w, s = w +:+ r ∧ is_space w = true ∧ w ≠ "".
Proof.
  destruct s as [|a [|b [|c s]]]; simpl; try done.
  - destruct (isspace a) eqn:Ha; [|done]. intros [= <-].
    exists (String a ""). by repeat split.
  - destruct (isspace a) eqn:Ha.
    { intros [= <-]. exists (String a ""). by repeat split. }
    destruct (isspace2 a b) eqn:Hb; [|done]. intros [= <-].
    exists (String a (String b "")). by repeat split.
  - destruct (isspace a) eqn:Ha.
    { intros [= <-]. exists (String a ""). by repeat split. }
    destruct (isspace2 a b) eqn:Hb.
    { intros [= <-]. exists (String a (String b "")). by repeat split. }
    destruct (isspace3 a b c) eqn:Hc; [|done]. intros [= <-].
    exists (String a (String b (String c ""))). by repeat split.
Qed.

Lemma length_app_string (s t : string) :
  String.length (s +:+ t) = String.length s + String.length t.
Proof. induction s as [|c s IH]; simpl; [done|]. by rewrite IH. Qed.

Lemma head_space_length s r : head_space s = Some r → String.length r < String.length s.
Proof.
  intros (w & -> & _ & Hw)%head_space_Some.
  destruct w; [done|]. simpl. rewrite length_app_string. lia.
Qed.

Lemma head_space_app s r q : head_space s = Some r → head_space (s +:+ q) = Some (r +:+ q).
Proof.
  destruct s as [|a [|b [|c s]]]; simpl; try done.
  - destruct (isspace a); [|done]. by intros [= <-].
  - destruct (isspace a); [by intros [= <-]|].
    destruct (isspace2 a b); [|done]. by intros [= <-].
  - destruct (isspace a); [by intros [= <-]|].
    destruct (isspace2 a b); [by intros [= <-]|].
    destruct (isspace3 a b c); [|done]. by intros [= <-].
Qed.

Lemma head_space_lower s : head_space (lower s) = lower <$> head_space s.
Proof.
  destruct s as [|a [|b [|c s]]]; simpl; try done.
  - rewrite isspace_lower_char. by destruct (isspace a).
  - rewrite isspace_lower_char, isspace2_lower_char.
    destruct (isspace a); [done|]. by destruct (isspace2 a b).
  - rewrite isspace_lower_char, isspace2_lower_char, isspace3_lower_char.
    destruct (isspace a); [done|]. destruct (isspace2 a b); [done|].
    by destruct (isspace3 a b c).
Qed.

(** Induction on the length of a string. *)
Lemma string_length_ind (P : string → Prop) :
  (∀ s, (∀ r, String.length r < String.length s → P r) → P s) → ∀ s, P s.
Proof.
  intros Hstep s. remember (String.length s) as n eqn:Hn. revert s Hn.
  induction n as [n IH] using lt_wf_ind. intros s ->.
  apply Hstep. intros r Hr. by apply (IH (String.length r)).
Qed.

Lemma lstrip_lower s : lstrip (lower s) = lower (lstrip s).
Proof.
  induction s as [s IH] using string_length_ind.
  rewrite (lstrip_unfold (lower s)), (lstrip_unfold s), head_space_lower.
  destruct (head_space s) as [r|] eqn:Hr; simpl; [|done].
  apply IH. by apply head_space_length.
Qed.

Lemma rstrip_lower s : rstrip (lower s) = lower (rstrip s).
Proof.
  induction s as [|c s IH]; [done|].
  cbn [lower rstrip]. cbv zeta. rewrite IH.
  change (String (lower_char c) (lower (rstrip s))) with (lower (String c (rstrip s))).
  rewrite is_space_lower. by destruct (is_space (String c (rstrip s))).
Qed.

Lemma strip_lower s : strip (lower s) = lower (strip s).
Proof. unfold strip. by rewrite lstrip_lower, rstrip_lower. Qed.

Lemma lstrip_idem s : lstrip (lstrip s) = lstrip s.
Proof.
  induction s as [s IH] using string_length_ind.
  rewrite (lstrip_unfold s).
  destruct (head_space s) as [r|] eqn:Hr.
  - apply IH. by apply head_space_length.
  - rewrite lstrip_unfold. by rewrite Hr.
Qed.

Lemma rstrip_idem s : rstrip (rstrip s) = rstrip s.
Proof.
  induction s as [|c s IH]; [done|].
  cbn [rstrip]. cbv zeta.
  destruct (is_space (String c (rstrip s))) eqn:Hs; [done|].
  cbn [rstrip]. cbv zeta. rewrite IH. by rewrite Hs.
Qed.

(** [rstrip] keeps a prefix of the string. *)
Lemma rstrip_prefix s : ∃ q, s = rstrip s +:+ q.
Proof.
  induction s as [|c s [q IH]]; [by exists ""|].
  cbn [rstrip]. cbv zeta.
  destruct (is_space (String c (rstrip s))).
  - by exists (String c s).
  - exists q. change (String c s = String c (rstrip s +:+ q)). by f_equal.
Qed.

Lemma head_space_rstrip_None s : head_space s = None → head_space (rstrip s) = None.
Proof.
  intros Hs. destruct (head_space (rstrip s)) as [r|] eqn:Hr; [|done].
  destruct (rstrip_prefix s) as [q Hq].
  apply (head_space_app _ _ q) in Hr. rewrite <- Hq in Hr. congruence.
Qed.

(** A space character before a string whose [rstrip] is not empty stays. *)
Lemma rstrip_space_app w r :
  is_space w = true →
  rstrip (w +:+ r) = match rstrip r with EmptyString => EmptyString | x => w +:+ x end.
Proof.
  intros Hw. destruct w as [|a [|b [|c [|d w]]]]; simpl in Hw; try done.
  - (* one byte *)
    pose proof (isspace_low a Hw) as Ha.
    cbv [String.append]. cbn [rstrip]. cbv zeta.
    destruct (rstrip r) as [|x [|y [|z xs]]] eqn:Hr; cbn [is_space].
    + by rewrite Hw.
    + by rewrite isspace2_not_lead by lia.
    + by rewrite isspace3_not_lead by lia.
    + done.
  - (* two bytes *)
    apply isspace2_high in Hw as Hab.
    cbv [String.append]. cbn [rstrip]. cbv zeta.
    assert (Hb : is_space (String b (rstrip r)) = false).
    { destruct (is_space (String b (rstrip r))) eqn:Hs; [|done].
      apply is_space_first in Hs. lia. }
    rewrite Hb.
    destruct (rstrip r) as [|x [|y xs]] eqn:Hr; cbn [is_space].
    + by rewrite Hw.
    + by rewrite isspace3_not_lead by lia.
    + done.
  - (* three bytes *)
    apply isspace3_high in Hw as Habc.
    cbv [String.append]. cbn [rstrip]. cbv zeta.
    assert (Hc : is_space (String c (rstrip r)) = false).
    { destruct (is_space (String c (rstrip r))) eqn:Hs; [|done].
      apply is_space_first in Hs. lia. }
    rewrite Hc.
    assert (Hb : is_space (String b (String c (rstrip r))) = false).
    { destruct (is_space (String b (String c (rstrip r)))) eqn:Hs; [|done].
      apply is_space_first in Hs. lia. }
    rewrite Hb.
    destruct (rstrip r) as [|x xs] eqn:Hr; cbn [is_space].
    + by rewrite Hw.
    + done.
Qed.

Lemma lstrip_rstrip s : lstrip (rstrip s) = rstrip (lstrip s).
Proof.
  induction s as [s IH] using string_length_ind.
  rewrite (lstrip_unfold s).
  destruct (head_space s) as [r|] eqn:Hr.
  - pose proof (head_space_length _ _ Hr) as Hlen.
    apply head_space_Some in Hr as (w & -> & Hw & Hne).
    rewrite (rstrip_space_app w r Hw), <- (IH r Hlen).
    destruct (rstrip r) as [|x xs] eqn:Hx; [done|].
    rewrite (lstrip_unfold (w +:+ String x xs)).
    assert (Hhead : head_space (w +:+ String x xs) = Some (String x xs)).
    { destruct w as [|a [|b [|c [|d w]]]]; simpl in Hw; try done;
        cbv [String.append]; cbn [head_space].
      - by rewrite Hw.
      - apply isspace2_high in Hw as Hab.
        rewrite isspace_high by lia. by rewrite Hw.
      - apply isspace3_high in Hw as Habc.
        rewrite isspace_high by lia. rewrite isspace2_not_lead by lia. by rewrite Hw. }
    by rewrite Hhead.
  - rewrite lstrip_unfold. by rewrite head_space_rstrip_None.
Qed.

Lemma strip_idem s : strip (strip s) = strip s.
Proof.
  unfold strip. by rewrite lstrip_rstrip, lstrip_idem, rstrip_idem.
Qed.

Example strip_example : strip "  Record_Type " = "Record_Type".
Proof. reflexivity. Qed.

Example lower_example : lower "Record_Type" = "record_type".
Proof. reflexivity. Qed.

Example contains_example :
  contains "date" "observation_date" = true ∧ contains "date" "dat" = false.
Proof. split; reflexivity. Qed.

End PyStrFacts.

(** ** Column normalizer *)

Lemma normalize_name_idem (name : string) :
  normalize_name (normalize_name name) = normalize_name name.
Proof.
  unfold normalize_name.
  by rewrite PyStrFacts.strip_lower, PyStrFacts.strip_idem, PyStrFacts.lower_idem.
Qed.

(** C9.  Normalizing the column labels twice gives the same labels as
    normalizing them once. *)
Theorem normalize_names_idempotent (names : list string) :
  normalize_names (normalize_names names) = normalize_names names.
Proof.
  unfold normalize_names. rewrite <- list_fmap_compose.
  apply list_fmap_ext. intros _ name _. apply normalize_name_idem.
Qed.

Lemma text_labels_fmap (names : list string) : text_labels (LStr <$> names) = Some names.
Proof. induction names as [|n names IH]; [done|]. csimpl. by rewrite IH. Qed.

Lemma text_labels_Some (cols : list column_label) (names : list string) :
  text_labels cols = Some names ↔ cols = LStr <$> names.
Proof.
  split; [|intros ->; apply text_labels_fmap].
  revert names. induction cols as [|[s| |] cols IH]; intros names; simpl; try done.
  - by intros [= <-].
  - destruct (text_labels cols) as [l|]; [|done]. simpl.
    intros [= <-]. csimpl. by rewrite (IH l).
Qed.


(** The frame with normalized labels, for labels that are strings. *)
Lemma normalize_columns_text (other : list column_label → result (list column_label))
    (df : DataFrame) (names : list string) :
  columns df = LStr <$> names →
  normalize_columns other df
  = Ok (mkDataFrame (LStr <$> normalize_names names) (body df)).
Proof.
  intros Hcols. unfold normalize_columns. by rewrite Hcols, text_labels_fmap.
Qed.

(** ** Lists and frames *)

Section ListFacts.
Context {A B : Type}.

Lemma filter_fmap (g : A → B) (P : B → Prop) `{!∀ y, Decision (P y)} (l : list A) :
  filter P (g <$> l) = g <$> filter (λ x, P (g x)) l.
Proof.
  induction l as [|x l IH]; [done|]. csimpl.
  rewrite !filter_cons, IH. by destruct (decide (P (g x))).
Qed.

Lemma filter_mask (f : A → bool) (l : list A) :
  (filter (λ p, p.1 = true) (zip (f <$> l) l)).*2 = filter (λ x, f x = true) l.
Proof.
  induction l as [|x l IH]; [done|]. csimpl.
  rewrite !filter_cons. simpl. destruct (decide (f x = true)); csimpl; by rewrite IH.
Qed.

Lemma length_filter_split (P : A → Prop) `{!∀ x, Decision (P x)} (l : list A) :
  length (filter P l) + length (filter (λ x, ¬ P x) l) = length l.
Proof.
  induction l as [|x l IH]; [done|].
  rewrite !filter_cons. destruct (decide (P x)), (decide (¬ P x)); simpl; tauto || lia.
Qed.
End ListFacts.

Lemma filter_none {A} (P : A → Prop) `{!∀ x, Decision (P x)} (l : list A) :
  (∀ x, x ∈ l → ¬ P x) → filter P l = [].
Proof.
  induction l as [|x l IH]; intros Hno; [done|].
  rewrite filter_cons_False by (apply Hno; left).
  apply IH. intros y Hy. apply Hno. by right.
Qed.

Lemma filter_first {A} (P : A → Prop) `{!∀ x, Decision (P x)} (pre post : list A) (x : A) :
  (∀ y, y ∈ pre → ¬ P y) → P x →
  filter P (pre ++ x :: post) = x :: filter P post.
Proof.
  intros Hpre Hx. rewrite filter_app, (filter_none P pre Hpre).
  by rewrite filter_cons_True.
Qed.

Lemma cell_at_put_cell_eq (i : nat) (v : cell) (r : list cell) :
  cell_at i (put_cell i v r) = v.
Proof.
  unfold cell_at, put_cell. case_decide.
  - by rewrite list_lookup_insert_eq.
  - rewrite lookup_app_r by lia. rewrite lookup_app_r; rewrite length_replicate; [|lia].
    by replace (i - length r - (i - length r)) with 0 by lia.
Qed.

Lemma cell_at_put_cell_ne (i j : nat) (v : cell) (r : list cell) :
  i ≠ j → cell_at j (put_cell i v r) = cell_at j r.
Proof.
  intros Hij. unfold cell_at, put_cell. case_decide.
  - by rewrite list_lookup_insert_ne.
  - destruct (decide (j < length r)).
    + by rewrite lookup_app_l.
    + rewrite (lookup_ge_None_2 r j) by lia.
      rewrite lookup_app_r by lia.
      destruct (decide (j - length r < i - length r)).
      * rewrite lookup_app_l by (rewrite length_replicate; lia).
        by rewrite lookup_replicate_2.
      * rewrite lookup_app_r; rewrite length_replicate; [|lia].
        rewrite lookup_ge_None_2; [done|]. simpl. lia.
Qed.

(** Assigning the image of a column under [f] rewrites each row in place. *)
Lemma body_set_series_fmap (f : cell → cell) (i : nat) (df : DataFrame) :
  body (set_series_at i (f <$> series_at i df) df)
  = (λ p, (p.1, put_cell i (f (cell_at i p.2)) p.2)) <$> body df.
Proof.
  unfold set_series_at, series_at, rows. simpl.
  rewrite <- !list_fmap_compose, zip_with_fmap_r, zip_with_diag. done.
Qed.

Lemma series_at_set_series_eq (f : cell → cell) (i : nat) (df : DataFrame) :
  series_at i (set_series_at i (f <$> series_at i df) df) = f <$> series_at i df.
Proof.
  unfold series_at at 1. unfold rows. rewrite body_set_series_fmap.
  unfold series_at, rows. rewrite <- !list_fmap_compose.
  apply list_fmap_ext. intros _ p _. simpl. apply cell_at_put_cell_eq.
Qed.

Lemma series_at_set_series_ne (f : cell → cell) (i j : nat) (df : DataFrame) :
  i ≠ j →
  series_at j (set_series_at i (f <$> series_at i df) df) = series_at j df.
Proof.
  intros Hij. unfold series_at at 1. unfold rows. rewrite body_set_series_fmap.
  unfold series_at, rows. rewrite <- !list_fmap_compose.
  apply list_fmap_ext. intros _ p _. simpl. by apply cell_at_put_cell_ne.
Qed.

(** Selecting by a mask computed from one column keeps the rows at which the
    test holds. *)
Lemma body_select_rows (f : cell → bool) (i : nat) (df : DataFrame) :
  body (select_rows (f <$> series_at i df) df)
  = filter (λ p, f (cell_at i p.2) = true) (body df).
Proof.
  unfold select_rows, series_at, rows. simpl.
  rewrite <- !list_fmap_compose. apply (filter_mask (λ p, f (cell_at i p.2))).
Qed.

Lemma rows_reset_index (df : DataFrame) : rows (reset_index df) = rows df.
Proof.
  unfold rows, reset_index. simpl. rewrite fmap_imap.
  rewrite (imap_ext _ (λ _, snd)) by done. apply imap_const.
Qed.


Lemma len_reset_index (df : DataFrame) : len (reset_index df) = len df.
Proof. unfold len, reset_index. simpl. apply length_imap. Qed.

Lemma len_rows (df : DataFrame) : len df = length (rows df).
Proof. unfold len, rows. by rewrite length_fmap. Qed.

Lemma positions_from_nil (k : nat) (name : string) (cols : list column_label) :
  positions_from k name cols = [] ↔ LStr name ∉ cols.
Proof.
  revert k. induction cols as [|c cols IH]; intros k; simpl.
  - split; [intros _; apply not_elem_of_nil|done].
  - rewrite not_elem_of_cons. case_decide as Hc.
    + split; [done|]. by intros [? _].
    + rewrite IH. split; [intros ?; split; [congruence|done]|by intros [_ ?]].
Qed.

Lemma locate_NoColumn (name : string) (df : DataFrame) :
  locate name df = NoColumn ↔ LStr name ∉ columns df.
Proof.
  unfold locate, positions. rewrite <- (positions_from_nil 0).
  by destruct (positions_from 0 name (columns df)) as [|? [|??]].
Qed.

Lemma positions_elem_of (name : string) (cols : list column_label) (i : nat) (l : list nat) :
  positions name cols = i :: l → LStr name ∈ cols.
Proof.
  intros Hpos. apply dec_stable. intros Hno.
  apply (positions_from_nil 0) in Hno. unfold positions in Hpos. congruence.
Qed.

(** ** Record partitioner *)

Section PartitionFacts.
Variable nan_as_text : bool.
Variable value_str : list cell → cell → string.

Abbreviation split_records := (split_records nan_as_text value_str).
Abbreviation clean_row := (clean_row nan_as_text value_str).
Abbreviation clean_record_type := (clean_record_type nan_as_text value_str).

(** The cleaning step on one cell, by the kind of the cell. *)
Lemma clean_record_type_cases (col : list cell) (c : cell) :
  clean_record_type col c
  = match c with
    | CStr s => CStr (PyStr.lower (PyStr.strip s))
    | CNull => if nan_as_text then CStr "nan" else CNull
    | c => CStr (PyStr.lower (PyStr.strip (value_str col c)))
    end.
Proof.
  unfold clean_record_type, astype_str. destruct c; try done.
  by destruct nan_as_text.
Qed.

Lemma cleaned_cell_eq_str (i : nat) (col : list cell) (r : list cell) :
  cell_eq_str "impact_link" (cell_at i (clean_row i col r)) = true
  ↔ clean_record_type col (cell_at i r) = CStr "impact_link".
Proof.
  unfold clean_row. rewrite cell_at_put_cell_eq.
  destruct (clean_record_type col (cell_at i r)); simpl;
    rewrite ?bool_decide_eq_true; split; congruence.
Qed.

(** The two frames [split_records] builds from a frame whose label
    ["record_type"] stands at position [i] only. *)
Lemma split_records_one_column (df : DataFrame) (i : nat) :
  positions "record_type" (columns df) = [i] →
  ∃ main_data impact_links,
    split_records df = (Ok (reset_index main_data, reset_index impact_links), []) ∧
    columns main_data = columns df ∧
    columns impact_links = columns df ∧
    rows impact_links
      = clean_row i (series_at i df) <$>
          filter (λ r, clean_record_type (series_at i df) (cell_at i r)
                       = CStr "impact_link") (rows df) ∧
    rows main_data
      = clean_row i (series_at i df) <$>
          filter (λ r, clean_record_type (series_at i df) (cell_at i r)
                       ≠ CStr "impact_link") (rows df).
Proof.
  intros Hpos. unfold split_records, locate. rewrite Hpos.
  eexists _, _. split; [reflexivity|]. split; [done|]. split; [done|].
  unfold rows at 1 3.
  rewrite <- list_fmap_compose, !body_select_rows, body_set_series_fmap.
  rewrite !filter_fmap, <- !list_fmap_compose.
  unfold rows. rewrite !filter_fmap, <- !list_fmap_compose. simpl.
  split; (f_equal; apply list_filter_iff; intros [k r]; simpl;
          fold (clean_row i (series_at i df) r)).
  - apply cleaned_cell_eq_str.
  - rewrite <- cleaned_cell_eq_str. by destruct (cell_eq_str _ _).
Qed.


(** With the label repeated, as after normalizing ["Record_Type"] and
    ["record_type"], the split raises. *)
Lemma split_records_repeated_label (df : DataFrame) (i j : nat) (l : list nat) :
  positions "record_type" (columns df) = i :: j :: l →
  ∃ msg, split_records df = (Raise (AttributeError msg), []).
Proof.
  intros Hpos. unfold split_records, locate. rewrite Hpos. by eexists.
Qed.

(** C7.  Without a ["record_type"] column the main-data frame is the input
    frame as it is, the impact-link frame is the empty frame, and the
    split returns normally, with a warning in the log. *)
Theorem split_records_without_record_type (df : DataFrame) :
  LStr "record_type" ∉ columns df →
  ∃ main_data impact_links log,
    split_records df = (Ok (main_data, impact_links), log) ∧
    main_data = df ∧
    len impact_links = 0 ∧
    columns impact_links = [] ∧
    Forall (λ rec, rec.1 = WARNING) log.
Proof.
  intros Hno. apply locate_NoColumn in Hno.
  unfold split_records. rewrite Hno.
  eexists _, _, _. split; [reflexivity|].
  repeat split; try done. by repeat constructor.
Qed.


End PartitionFacts.

(** ** Worksheet resolver *)

Lemma looks_like_data_true (t : sheet) : looks_like_data t = true ↔ has_marker t.
Proof.
  unfold looks_like_data, has_marker. simpl.
  by rewrite orb_true_iff, !bool_decide_eq_true.
Qed.

Lemma looks_like_data_false (t : sheet) : looks_like_data t = false ↔ ¬ has_marker t.
Proof.
  rewrite <- looks_like_data_true. by destruct (looks_like_data t).
Qed.

Lemma sheet_by_name_elem_of (name : string) (wb : workbook) :
  name ∈ sheet_names wb →
  ∃ t, sheet_by_name name wb = Some t ∧ (name, t) ∈ wb.
Proof.
  unfold sheet_names, sheet_by_name. intros Hin.
  apply list_elem_of_fmap in Hin as ([n t] & Hn & Hin).
  simpl in Hn. subst name.
  destruct (list_find_elem_of (λ p : string * sheet, p.1 = n) wb (n, t))
    as [[j [n' t']] Hfind]; [done..|].
  rewrite Hfind. simpl.
  apply list_find_Some in Hfind as (Hj & Hn & _). simpl in Hn. subst n'.
  exists t'. split; [done|]. by eapply list_elem_of_lookup_2.
Qed.

Lemma by_priority_None (possible : list string) (wb : workbook) :
  by_priority possible wb = None ↔ ∀ p, p ∈ possible → p ∉ sheet_names wb.
Proof.
  induction possible as [|name possible IH]; simpl.
  - split; [|done]. intros _ p Hp. by apply elem_of_nil in Hp.
  - case_decide as Hin.
    + destruct (sheet_by_name_elem_of name wb Hin) as (t & -> & _).
      split; [done|]. intros Hall. destruct (Hall name); [left|done].
    + rewrite IH. split.
      * intros Hall p Hp. apply elem_of_cons in Hp as [->|Hp]; auto.
      * intros Hall p Hp. apply Hall. by right.
Qed.

Lemma by_priority_Some (possible : list string) (wb : workbook)
    (name : string) (df : DataFrame) :
  by_priority possible wb = Some (name, df) →
  ∃ t pre post,
    df = read_table t ∧ sheet_by_name name wb = Some t ∧ (name, t) ∈ wb ∧
    possible = pre ++ name :: post ∧
    ∀ p, p ∈ pre → p ∉ sheet_names wb.
Proof.
  induction possible as [|cand possible IH]; simpl; [done|].
  case_decide as Hin.
  - destruct (sheet_by_name_elem_of cand wb Hin) as (t & Ht & Hel).
    rewrite Ht. intros [= <- <-].
    exists t, [], possible. repeat split; try done.
    intros p Hp. by apply elem_of_nil in Hp.
  - intros Hrec. destruct (IH Hrec) as (t & pre & post & -> & Ht & Hel & -> & Hpre).
    exists t, (cand :: pre), post. repeat split; try done.
    intros p Hp. apply elem_of_cons in Hp as [->|Hp]; auto.
Qed.

Lemma by_probe_None (wb : workbook) :
  by_probe wb = None ↔ ∀ q, q ∈ wb → ¬ has_marker q.2.
Proof.
  induction wb as [|[n t] wb IH]; simpl.
  - split; [|done]. intros _ q Hq. by apply elem_of_nil in Hq.
  - destruct (looks_like_data t) eqn:Hprobe.
    + split; [done|]. intros Hall. apply looks_like_data_true in Hprobe.
      destruct (Hall (n, t)); [left|done].
    + apply looks_like_data_false in Hprobe. rewrite IH. split.
      * intros Hall q Hq. apply elem_of_cons in Hq as [->|Hq]; auto.
      * intros Hall q Hq. apply Hall. by right.
Qed.

Lemma by_probe_Some (wb : workbook) (name : string) (df : DataFrame) :
  by_probe wb = Some (name, df) →
  ∃ t pre post,
    df = read_table t ∧ wb = pre ++ (name, t) :: post ∧ has_marker t ∧
    ∀ q, q ∈ pre → ¬ has_marker q.2.
Proof.
  induction wb as [|[n t] wb IH]; simpl; [done|].
  destruct (looks_like_data t) eqn:Hprobe.
  - intros [= <- <-]. apply looks_like_data_true in Hprobe.
    exists t, [], wb. repeat split; try done.
    intros q Hq. by apply elem_of_nil in Hq.
  - apply looks_like_data_false in Hprobe.
    intros Hrec. destruct (IH Hrec) as (t' & pre & post & -> & -> & Hm & Hpre).
    exists t', ((n, t) :: pre), post. repeat split; try done.
    intros q Hq. apply elem_of_cons in Hq as [->|Hq]; auto.
Qed.

(** X10.  The resolver of the reference codes has no probe: a name of its
    priority list, else the first sheet. *)
Lemma resolve_ref_sheet_first_match (possible : list string) (wb : workbook) :
  wb ≠ [] →
  ∃ name t,
    resolve_ref_sheet possible wb = Some (name, read_table t) ∧
    (name, t) ∈ wb ∧
    ((∃ pre post,
        possible = pre ++ name :: post ∧
        sheet_by_name name wb = Some t ∧
        ∀ p, p ∈ pre → p ∉ sheet_names wb)
     ∨ ((∀ p, p ∈ possible → p ∉ sheet_names wb) ∧ head wb = Some (name, t))).
Proof.
  intros Hne. unfold resolve_ref_sheet.
  destruct (by_priority possible wb) as [[name df]|] eqn:Hprio.
  - apply by_priority_Some in Hprio as (t & pre & post & -> & Ht & Hel & Hsplit & Hpre).
    exists name, t. repeat split; try done. left. by exists pre, post.
  - pose proof (proj1 (by_priority_None _ _) Hprio) as Hnone.
    destruct wb as [|[name t] wb]; [done|].
    exists name, t. split; [done|]. split; [left|]. by right.
Qed.

(** C2.  For a workbook with at least one sheet the resolver returns a
    sheet of the workbook, chosen by the first rule that applies: the sheet
    named by the first name of the priority list that is a sheet name
    (whatever its position in the file); else the first sheet, in file
    order, whose header has a marker label; else the first sheet. *)
Theorem resolve_sheet_first_match (possible : list string) (wb : workbook) :
  wb ≠ [] →
  ∃ name t,
    resolve_sheet possible wb = Some (name, read_table t) ∧
    (name, t) ∈ wb ∧
    ((∃ pre post,
        possible = pre ++ name :: post ∧
        sheet_by_name name wb = Some t ∧
        ∀ p, p ∈ pre → p ∉ sheet_names wb)
     ∨ ((∀ p, p ∈ possible → p ∉ sheet_names wb) ∧
        ∃ pre post,
          wb = pre ++ (name, t) :: post ∧ has_marker t ∧
          ∀ q, q ∈ pre → ¬ has_marker q.2)
     ∨ ((∀ p, p ∈ possible → p ∉ sheet_names wb) ∧
        (∀ q, q ∈ wb → ¬ has_marker q.2) ∧
        head wb = Some (name, t))).
Proof.
  intros Hne. unfold resolve_sheet.
  destruct (by_priority possible wb) as [[name df]|] eqn:Hprio.
  - apply by_priority_Some in Hprio as (t & pre & post & -> & Ht & Hel & Hsplit & Hpre).
    exists name, t. repeat split; try done. left. by exists pre, post.
  - pose proof (proj1 (by_priority_None _ _) Hprio) as Hnone.
    destruct (by_probe wb) as [[name df]|] eqn:Hprobe.
    + apply by_probe_Some in Hprobe as (t & pre & post & -> & Hsplit & Hm & Hpre).
      exists name, t. split; [done|]. split.
      { rewrite Hsplit. apply elem_of_app. right. left. }
      right. left. split; [done|]. by exists pre, post.
    + pose proof (proj1 (by_probe_None _) Hprobe) as Hplain.
      destruct wb as [|[name t] wb]; [done|].
      exists name, t. split; [done|]. split; [left|].
      right. right. done.
Qed.


(** ** Loader operations *)

Lemma find_files_spec (fs : raw_dir) (files : list (string * string))
    (acc : gmap string string) :
  ∃ log, find_files fs files acc = (Ok (foldl (record_path fs) acc files), log).
Proof.
  revert acc. induction files as [|[name filename] files IH]; intros acc; simpl.
  - by exists [].
  - unfold record_path at 2, located. simpl.
    destruct (decide (is_Some (xlsx fs !! filename))); [apply IH|].
    destruct (decide (is_Some (csv fs !! csv_name filename))); [apply IH|].
    destruct (IH acc) as [log ->]. unfold bind, emit. by eexists.
Qed.

Lemma find_files_log (fs : raw_dir) (files : list (string * string))
    (acc : gmap string string) :
  (find_files fs files acc).2
  = flat_map (λ entry,
      match located fs entry.2 with
      | Some _ => []
      | None =>
          [(ERROR, "No data file found for: " +:+ entry.1);
           (ERROR, "Expected at: " +:+ entry.2 +:+ " or " +:+ csv_name entry.2)]
      end) files.
Proof.
  revert acc. induction files as [|[name filename] files IH]; intros acc; simpl.
  - done.
  - unfold located. simpl.
    destruct (decide (is_Some (xlsx fs !! filename))); [apply IH|].
    destruct (decide (is_Some (csv fs !! csv_name filename))); [apply IH|].
    specialize (IH acc). destruct (find_files fs files acc) as [r l].
    simpl in IH. subst l. unfold bind, emit. by destruct r.
Qed.

(** [download_data] returns the paths it has found, and what it logs is
    at ERROR level. *)
Lemma download_data_spec (fs : raw_dir) :
  ∃ log,
    download_data fs = (Ok (foldl (record_path fs) ∅ data_files), log) ∧
    Forall (λ rec, rec.1 = ERROR) log.
Proof.
  unfold download_data.
  pose proof (find_files_log fs data_files ∅) as Hlog.
  destruct (find_files_spec fs data_files ∅) as [log Hrun].
  rewrite Hrun in Hlog |- *. simpl in Hlog.
  assert (Hlevels : Forall (λ rec : log_record, rec.1 = ERROR) log).
  { subst log. rewrite !Forall_app.
    destruct (located fs "ethiopia_fi_unified_data.xlsx"),
             (located fs "reference_codes.xlsx"),
             (located fs "Additional Data Points Guide.xlsx");
      repeat split; by repeat constructor. }
  unfold bind. case_decide; simpl; eexists; (split; [reflexivity|]).
  - apply Forall_app. split; [done|]. by repeat constructor.
  - by rewrite !app_nil_r.
Qed.

Lemma download_data_lookup (fs : raw_dir) :
  foldl (record_path fs) ∅ data_files !! "unified_data"
    = located fs "ethiopia_fi_unified_data.xlsx" ∧
  foldl (record_path fs) ∅ data_files !! "reference_codes"
    = located fs "reference_codes.xlsx" ∧
  foldl (record_path fs) ∅ data_files !! "additional_data"
    = located fs "Additional Data Points Guide.xlsx".
Proof.
  simpl. unfold record_path. simpl.
  destruct (located fs "ethiopia_fi_unified_data.xlsx"),
           (located fs "reference_codes.xlsx"),
           (located fs "Additional Data Points Guide.xlsx");
    repeat split; by simplify_map_eq.
Qed.

Lemma located_None (fs : raw_dir) (filename : string) :
  located fs filename = None ↔ missing_input fs filename.
Proof.
  unfold located, missing_input.
  repeat case_decide; (split; [intros ?|intros [??]]); try done;
    rewrite ?eq_None_not_Some in *; tauto.
Qed.

Lemma located_Some (fs : raw_dir) (filename p : string) :
  located fs filename = Some p →
  (p = filename ∧ is_Some (xlsx fs !! filename)) ∨
  (p = csv_name filename ∧ is_Some (csv fs !! csv_name filename)).
Proof.
  unfold located. repeat case_decide; intros [= <-]; auto.
Qed.


Section LoadFacts.
Variable nan_as_text : bool.
Variable value_str : list cell → cell → string.
Variable str_strip_lower_other : list column_label → result (list column_label).

Abbreviation load_unified_data :=
  (load_unified_data nan_as_text value_str str_strip_lower_other).
Abbreviation load_unified_data_try :=
  (load_unified_data_try nan_as_text value_str str_strip_lower_other).
Abbreviation check_and_split :=
  (check_and_split nan_as_text value_str str_strip_lower_other).
Abbreviation split_records := (split_records nan_as_text value_str).
Abbreviation normalize_columns := (normalize_columns str_strip_lower_other).
Abbreviation load_reference_codes := (load_reference_codes str_strip_lower_other).
Abbreviation load_reference_codes_try :=
  (load_reference_codes_try str_strip_lower_other).

Lemma load_unified_data_missing (fs : raw_dir) :
  missing_input fs "ethiopia_fi_unified_data.xlsx" →
  logged_and_reraised "Error loading unified data: " (load_unified_data fs).
Proof.
  intros Hmiss. apply located_None in Hmiss.
  unfold load_unified_data, load_unified_data_try.
  destruct (download_data_spec fs) as (log & -> & _).
  destruct (download_data_lookup fs) as (Hu & _ & _).
  unfold bind at 1. rewrite Hu, Hmiss. simpl.
  eexists _, _. split; [reflexivity|].
  rewrite !elem_of_app. right. left.
Qed.

Lemma load_reference_codes_missing (fs : raw_dir) :
  missing_input fs "reference_codes.xlsx" →
  logged_and_reraised "Error loading reference codes: " (load_reference_codes fs).
Proof.
  intros Hmiss. apply located_None in Hmiss.
  unfold load_reference_codes, load_reference_codes_try.
  destruct (download_data_spec fs) as (log & -> & _).
  destruct (download_data_lookup fs) as (_ & Hr & _).
  unfold bind at 1. rewrite Hr, Hmiss. simpl.
  eexists _, _. split; [reflexivity|].
  rewrite !elem_of_app. right. left.
Qed.

Lemma load_additional_data_guide_missing (fs : raw_dir) :
  missing_input fs "Additional Data Points Guide.xlsx" →
  logged_and_defaulted "Error loading additional data guide: " ∅
    (load_additional_data_guide fs).
Proof.
  intros Hmiss. apply located_None in Hmiss.
  unfold load_additional_data_guide, load_additional_data_guide_try.
  destruct (download_data_spec fs) as (log & -> & _).
  destruct (download_data_lookup fs) as (_ & _ & Hg).
  unfold bind at 1. rewrite Hg, Hmiss. simpl.
  eexists _, _. split; [reflexivity|].
  rewrite !elem_of_app. right. left.
Qed.

(** The lines after the reading of the file, on a table that was read. *)
Lemma check_and_split_Some (raw : DataFrame) :
  check_and_split (Some raw)
  = if empty raw then (Raise (ValueError "Loaded dataframe is empty"), [])
    else
      match normalize_columns raw with
      | Raise e => (Raise e, [])
      | Ok df =>
          ((split_records df).1,
           (if decide (LStr "record_type" ∈ columns df) then []
            else [(WARNING, "Missing expected columns: ['record_type']")])
           ++ (split_records df).2)
      end.
Proof.
  unfold check_and_split. destruct (empty raw); [done|].
  unfold lift, bind at 1.
  destruct (normalize_columns raw) as [df|e]; [|done].
  destruct (split_records df) as [r l].
  case_decide; unfold bind, ret, emit; simpl; by destruct r.
Qed.

Lemma split_records_Ok (df main impact : DataFrame) (log : list log_record) :
  split_records df = (Ok (main, impact), log) →
  columns main = columns df ∧
  ((LStr "record_type" ∈ columns df ∧
    (∃ i, positions "record_type" (columns df) = [i]) ∧
    columns impact = columns df ∧ log = [])
   ∨ ((LStr "record_type" ∉ columns df) ∧ main = df ∧ impact = empty_frame ∧
      log = [(WARNING, "No 'record_type' column found. Assuming all data is main data.")])).
Proof.
  unfold split_records, locate.
  destruct (positions "record_type" (columns df)) as [|i [|j l]] eqn:Hpos.
  - unfold bind, emit, ret. simpl. intros [= <- <- <-].
    split; [done|]. right. split; [|done].
    by apply (positions_from_nil 0).
  - unfold ret. simpl. intros [= <- <- <-]. split; [done|]. left.
    split; [by eapply positions_elem_of|]. split; [by exists i|]. done.
  - done.
Qed.

Lemma unified_suffixes :
  suffix "ethiopia_fi_unified_data.xlsx" = ".xlsx" ∧
  suffix (csv_name "ethiopia_fi_unified_data.xlsx") = ".csv".
Proof. split; reflexivity. Qed.

(** The body of the [try], from the table it reads on. *)
Lemma load_unified_data_try_source (fs : raw_dir) (df : option DataFrame) :
  unified_source fs df →
  ∃ log0,
    load_unified_data_try fs
    = ((check_and_split df).1, log0 ++ (check_and_split df).2) ∧
    Forall (λ rec, rec.1 = ERROR) log0.
Proof.
  intros Hsrc. unfold load_unified_data_try.
  destruct (download_data_spec fs) as (log0 & -> & Hlevels).
  destruct (download_data_lookup fs) as (Hu & _ & _).
  unfold bind at 1. rewrite Hu. clear Hu.
  destruct unified_suffixes as [Hx Hc]. unfold located.
  destruct Hsrc as [(wb & Hwb & ->)|(t & Hno & Ht & ->)].
  - rewrite decide_True by (by rewrite Hwb).
    unfold read_unified. rewrite Hx.
    destruct (decide (".xlsx" = ".xlsx")) as [_|]; [|done].
    unfold open_excel. rewrite Hwb.
    unfold bind, ret.
    destruct (check_and_split (snd <$> resolve_sheet possible_sheet_names wb))
      as [r l].
    simpl. by exists log0.
  - rewrite decide_False by (rewrite Hno; by intros [??]).
    change (csv_name "ethiopia_fi_unified_data.xlsx")
      with "ethiopia_fi_unified_data.csv" in *.
    rewrite decide_True by (by rewrite Ht).
    unfold read_unified. rewrite Hc.
    destruct (decide (".csv" = ".xlsx")) as [|_]; [done|].
    destruct (decide (".csv" = ".csv")) as [_|]; [|done].
    unfold read_csv. rewrite Ht.
    unfold bind, ret.
    destruct (check_and_split (Some (read_table t))) as [r l].
    simpl. by exists log0.
Qed.

(** Either file of the unified data set is missing, or there is a table
    the loader reads. *)
Lemma unified_source_total (fs : raw_dir) :
  missing_input fs "ethiopia_fi_unified_data.xlsx" ∨ ∃ df, unified_source fs df.
Proof.
  unfold missing_input, unified_source.
  change (csv_name "ethiopia_fi_unified_data.xlsx")
    with "ethiopia_fi_unified_data.csv".
  destruct (xlsx fs !! "ethiopia_fi_unified_data.xlsx") as [wb|] eqn:Hwb.
  - right. eexists. left. by exists wb.
  - destruct (csv fs !! "ethiopia_fi_unified_data.csv") as [t|] eqn:Ht.
    + right. eexists. right. by exists t.
    + by left.
Qed.

Lemma unified_source_inj (fs : raw_dir) (df df' : option DataFrame) :
  unified_source fs df → unified_source fs df' → df = df'.
Proof.
  intros [(wb & Hwb & ->)|(t & Hno & Ht & ->)] [(wb' & Hwb' & ->)|(t' & Hno' & Ht' & ->)];
    congruence.
Qed.

(** What the handler adds when the body raises. *)
Lemma load_unified_data_raise (fs : raw_dir) (e : exn) (log : list log_record) :
  load_unified_data_try fs = (Raise e, log) →
  ∃ log',
    load_unified_data fs = (Raise e, log') ∧
    (ERROR, "Error loading unified data: " +:+ exn_str e) ∈ log'.
Proof.
  intros Htry. unfold load_unified_data. rewrite Htry. simpl.
  eexists. split; [reflexivity|]. rewrite !elem_of_app. right. left.
Qed.

(** What a successful [load_unified_data] read, and that it went through
    [check_and_split]; the records logged before that are errors. *)
Lemma load_unified_data_Ok (fs : raw_dir) (main impact : DataFrame)
    (log : list log_record) :
  load_unified_data fs = (Ok (main, impact), log) →
  ∃ raw log0 log',
    unified_source fs (Some raw) ∧
    Forall (λ rec, rec.1 = ERROR) log0 ∧
    check_and_split (Some raw) = (Ok (main, impact), log') ∧
    log = log0 ++ log'.
Proof.
  intros Hload.
  destruct (unified_source_total fs) as [Hmiss|[df Hsrc]].
  - destruct (load_unified_data_missing fs Hmiss) as (msg & l & Heq & _). congruence.
  - destruct (load_unified_data_try_source fs df Hsrc) as (log0 & Htry & Hlevels).
    unfold load_unified_data in Hload. rewrite Htry in Hload.
    destruct (check_and_split df) as [[v|e] l] eqn:Hcs; simpl in Hload; [|done].
    injection Hload as -> <-.
    destruct df as [raw|]; [|done].
    by exists raw, log0, l.
Qed.


(** C4, amended.  When the file of its data set is missing,
    [load_unified_data] and [load_reference_codes] log the failure and
    raise [FileNotFoundError] again, and [load_additional_data_guide] logs
    it and returns the empty dictionary. *)
Theorem missing_input_outcomes (fs : raw_dir) :
  (missing_input fs "ethiopia_fi_unified_data.xlsx" →
     logged_and_reraised "Error loading unified data: "
       (load_unified_data fs)) ∧
  (missing_input fs "reference_codes.xlsx" →
     logged_and_reraised "Error loading reference codes: "
       (load_reference_codes fs)) ∧
  (missing_input fs "Additional Data Points Guide.xlsx" →
     logged_and_defaulted "Error loading additional data guide: " ∅
       (load_additional_data_guide fs)).
Proof.
  split; [|split].
  - apply load_unified_data_missing.
  - apply load_reference_codes_missing.
  - apply load_additional_data_guide_missing.
Qed.

End LoadFacts.

(** ** Finding the data files *)

Lemma located_is_Some (fs : raw_dir) (filename : string) :
  is_Some (located fs filename)
  ↔ is_Some (xlsx fs !! filename) ∨ is_Some (csv fs !! csv_name filename).
Proof.
  unfold located.
  destruct (decide (is_Some (xlsx fs !! filename))) as [Hx|Hx];
    [split; eauto|].
  destruct (decide (is_Some (csv fs !! csv_name filename))) as [Hc|Hc];
    [split; eauto|].
  split; [by intros [??]|tauto].
Qed.

Lemma download_data_other_keys (fs : raw_dir) (name : string) :
  name ∉ data_files.*1 → foldl (record_path fs) ∅ data_files !! name = None.
Proof.
  intros Hname. simpl in *. unfold record_path. simpl.
  rewrite !not_elem_of_cons in Hname. destruct Hname as (? & ? & ? & _).
  destruct (located fs "ethiopia_fi_unified_data.xlsx"),
           (located fs "reference_codes.xlsx"),
           (located fs "Additional Data Points Guide.xlsx");
    by simplify_map_eq.
Qed.

Lemma download_data_lookup_located (fs : raw_dir) (name filename : string) :
  (name, filename) ∈ data_files →
  foldl (record_path fs) ∅ data_files !! name = located fs filename.
Proof.
  destruct (download_data_lookup fs) as (Hu & Hr & Hg).
  intros Hin. unfold data_files in Hin.
  repeat (apply elem_of_cons in Hin as [[= -> ->]|Hin]; [done|]).
  by apply elem_of_nil in Hin.
Qed.

(** X1.  [download_data] never raises.  For each of the three data sets it
    records the Excel file when that exists, else the CSV file when that
    exists, else nothing; it records no other key, and every path it records
    is a file of the directory. *)
Theorem download_data_paths (fs : raw_dir) :
  ∃ file_paths log,
    download_data fs = (Ok file_paths, log) ∧
    (∀ name filename, (name, filename) ∈ data_files →
       (is_Some (xlsx fs !! filename) → file_paths !! name = Some filename) ∧
       (xlsx fs !! filename = None → is_Some (csv fs !! csv_name filename) →
          file_paths !! name = Some (csv_name filename)) ∧
       (xlsx fs !! filename = None → csv fs !! csv_name filename = None →
          file_paths !! name = None)) ∧
    (∀ name p, file_paths !! name = Some p →
       name ∈ data_files.*1 ∧ (is_Some (xlsx fs !! p) ∨ is_Some (csv fs !! p))).
Proof.
  destruct (download_data_spec fs) as (log & Hrun & _).
  eexists _, log. split; [exact Hrun|]. split.
  - intros name filename Hin.
    rewrite (download_data_lookup_located fs name filename Hin).
    unfold located. split; [|split].
    + intros Hx. by rewrite decide_True.
    + intros Hx Hc. rewrite decide_False by (rewrite Hx; by intros [??]).
      by rewrite decide_True.
    + intros Hx Hc. rewrite decide_False by (rewrite Hx; by intros [??]).
      rewrite decide_False by (rewrite Hc; by intros [??]). done.
  - intros name p Hp.
    destruct (decide (name ∈ data_files.*1)) as [Hname|Hname].
    + split; [done|].
      apply list_elem_of_fmap in Hname as ([n filename] & Hn & Hin).
      simpl in Hn. subst name.
      rewrite (download_data_lookup_located fs n filename Hin) in Hp.
      apply located_Some in Hp as [[-> ?]|[-> ?]]; auto.
    + by rewrite download_data_other_keys in Hp.
Qed.

(** X2.  [download_data] writes no record at WARNING level.  It writes the
    ERROR record "No data file found for" a data set exactly when neither
    file of that data set is in the directory, and the ERROR record "No data
    files found!" exactly when all three data sets are missing. *)
Theorem download_data_log (fs : raw_dir) :
  ∃ file_paths log,
    download_data fs = (Ok file_paths, log) ∧
    Forall (λ rec, rec.1 = ERROR) log ∧
    (∀ name filename, (name, filename) ∈ data_files →
       (ERROR, "No data file found for: " +:+ name) ∈ log
       ↔ missing_input fs filename) ∧
    ((ERROR, "No data files found!") ∈ log
     ↔ ∀ name filename, (name, filename) ∈ data_files → missing_input fs filename).
Proof.
  unfold download_data.
  pose proof (find_files_log fs data_files ∅) as Hlog.
  destruct (find_files_spec fs data_files ∅) as [log0 Hrun].
  rewrite Hrun in Hlog |- *. clear Hrun.
  simpl in Hlog. simpl. unfold record_path. simpl.
  pose proof (located_None fs "ethiopia_fi_unified_data.xlsx") as Hu.
  pose proof (located_None fs "reference_codes.xlsx") as Hr.
  pose proof (located_None fs "Additional Data Points Guide.xlsx") as Hg.
  assert (Hall : ∀ P : string → string → Prop,
            (∀ name filename, (name, filename) ∈ data_files → P name filename)
            ↔ P "unified_data" "ethiopia_fi_unified_data.xlsx" ∧
              P "reference_codes" "reference_codes.xlsx" ∧
              P "additional_data" "Additional Data Points Guide.xlsx").
  { intros P. unfold data_files. split.
    - intros HP. split; [apply HP; left|].
      split; [apply HP; right; left|apply HP; right; right; left].
    - intros (H1 & H2 & H3) name filename Hin.
      repeat (apply elem_of_cons in Hin as [[= -> ->]|Hin]; [done|]).
      by apply elem_of_nil in Hin. }
  destruct (located fs "ethiopia_fi_unified_data.xlsx") as [pu|],
           (located fs "reference_codes.xlsx") as [pr|],
           (located fs "Additional Data Points Guide.xlsx") as [pg|];
    subst log0; unfold bind, emit, ret;
    (case_decide as Hempty;
       [try (by apply insert_non_empty in Hempty)|try done]);
    (eexists _, _; split; [reflexivity|]; split; [by repeat constructor|]);
    rewrite (Hall (λ name filename,
               (ERROR, "No data file found for: " +:+ name) ∈ _
               ↔ missing_input fs filename));
    rewrite (Hall (λ _ filename, missing_input fs filename));
    rewrite <- Hu, <- Hr, <- Hg; clear Hu Hr Hg Hall;
    simpl; repeat split;
    first
      [ discriminate
      | tauto
      | by intros (? & ? & ?)
      | intros; refine (bool_decide_unpack _ _); vm_compute; exact I
      | intros; exfalso; match goal with Hm : _ ∈ _ |- _ => revert Hm end;
        refine (bool_decide_unpack (¬ _) _); vm_compute; exact I ].
Qed.

Lemma check_files_spec (fs : raw_dir) (files : list (string * string))
    (acc : gmap string bool) :
  ∃ log,
    check_files fs files acc
    = (Ok (foldl (λ m entry, <[entry.1 := bool_decide (is_Some (located fs entry.2))]> m)
                 acc files), log) ∧
    Forall (λ rec, rec.1 = WARNING) log.
Proof.
  revert acc. induction files as [|[name filename] files IH]; intros acc; simpl.
  - by exists [].
  - assert (Hex : bool_decide (is_Some (xlsx fs !! filename))
                  || bool_decide (is_Some (csv fs !! csv_name filename))
                  = bool_decide (is_Some (located fs filename))).
    { apply eq_true_iff_eq.
      rewrite orb_true_iff, !bool_decide_eq_true. symmetry. apply located_is_Some. }
    rewrite Hex.
    destruct (IH (<[name := bool_decide (is_Some (located fs filename))]> acc))
      as (log & -> & Hlog).
    destruct (bool_decide (is_Some (located fs filename)));
      unfold bind, emit, ret; simpl; eexists; (split; [reflexivity|]); auto.
Qed.

(** X3.  [check_data_files] never raises and gives a status to each of the
    three data sets and to nothing else; the status is [True] exactly for
    the data sets for which [download_data] records a path. *)
Theorem check_data_files_agrees_with_download_data (fs : raw_dir) :
  ∃ file_status log file_paths log',
    check_data_files fs = (Ok file_status, log) ∧
    download_data fs = (Ok file_paths, log') ∧
    (∀ name, is_Some (file_status !! name) ↔ name ∈ data_files.*1) ∧
    (∀ name, file_status !! name = Some true ↔ is_Some (file_paths !! name)).
Proof.
  unfold check_data_files.
  destruct (check_files_spec fs data_files ∅) as (log & -> & _).
  destruct (download_data_spec fs) as (log' & -> & _).
  eexists _, log, _, log'. split; [reflexivity|]. split; [reflexivity|].
  assert (Hkeys : ∀ name, name ∈ data_files.*1 ↔
            name = "unified_data" ∨ name = "reference_codes" ∨ name = "additional_data").
  { intros name. simpl. rewrite !elem_of_cons, elem_of_nil. tauto. }
  destruct (download_data_lookup fs) as (Hu & Hr & Hg).
  split; intros name.
  - rewrite Hkeys. simpl.
    destruct (decide (name = "additional_data")) as [->|];
      [simplify_map_eq; split; eauto|].
    destruct (decide (name = "reference_codes")) as [->|];
      [simplify_map_eq; split; eauto|].
    destruct (decide (name = "unified_data")) as [->|];
      [simplify_map_eq; split; eauto|].
    simplify_map_eq. split; [by intros [??]|tauto].
  - destruct (decide (name ∈ data_files.*1)) as [Hin|Hout].
    + apply Hkeys in Hin as [-> | [-> | ->]]; simpl foldl at 1;
        [rewrite Hu|rewrite Hr|rewrite Hg]; simplify_map_eq;
        (split; [intros [= Hb]; by apply bool_decide_eq_true in Hb
                |intros Hs; f_equal; by apply bool_decide_eq_true]).
    + rewrite (download_data_other_keys fs name Hout).
      rewrite Hkeys in Hout.
      assert (name ≠ "unified_data" ∧ name ≠ "reference_codes"
              ∧ name ≠ "additional_data") as (? & ? & ?) by tauto.
      simpl. simplify_map_eq. split; [done|by intros [??]].
Qed.

(** ** Loading the unified data set *)

Lemma locate_OneColumn_positions (name : string) (df : DataFrame) (i : nat) :
  locate name df = OneColumn i → positions name (columns df) = [i].
Proof.
  unfold locate. destruct (positions name (columns df)) as [|j [|??]]; congruence.
Qed.

Lemma empty_false_len (df : DataFrame) : empty df = false → 1 ≤ len df.
Proof.
  unfold empty, len. intros [_ Hb]%orb_false_iff.
  apply bool_decide_eq_false in Hb. destruct (body df); [done|simpl; lia].
Qed.

Lemma normalize_columns_body (other : list column_label → result (list column_label))
    (raw df : DataFrame) :
  normalize_columns other raw = Ok df → body df = body raw.
Proof.
  unfold normalize_columns. destruct (text_labels (columns raw)).
  - by intros [= <-].
  - destruct (other (columns raw)); [|done]. by intros [= <-].
Qed.

Section UnifiedFacts.
Variable nan_as_text : bool.
Variable value_str : list cell → cell → string.
Variable str_strip_lower_other : list column_label → result (list column_label).

Abbreviation load_unified_data :=
  (load_unified_data nan_as_text value_str str_strip_lower_other).
Abbreviation load_unified_data_try :=
  (load_unified_data_try nan_as_text value_str str_strip_lower_other).
Abbreviation check_and_split :=
  (check_and_split nan_as_text value_str str_strip_lower_other).
Abbreviation split_records := (split_records nan_as_text value_str).
Abbreviation clean_row := (clean_row nan_as_text value_str).
Abbreviation clean_record_type := (clean_record_type nan_as_text value_str).
Abbreviation normalize_columns := (normalize_columns str_strip_lower_other).

(** X5.  When the table read for the unified data set has no rows or no
    columns, or the Excel file has no sheet, [load_unified_data] logs and
    raises [ValueError] "Loaded dataframe is empty". *)
Theorem load_unified_data_empty_table (fs : raw_dir) (df : option DataFrame) :
  unified_source fs df →
  (df = None ∨ ∃ raw, df = Some raw ∧ empty raw = true) →
  ∃ log,
    load_unified_data fs = (Raise (ValueError "Loaded dataframe is empty"), log) ∧
    (ERROR, "Error loading unified data: Loaded dataframe is empty") ∈ log.
Proof.
  intros Hsrc Hempty.
  destruct (load_unified_data_try_source nan_as_text value_str str_strip_lower_other
              fs df Hsrc) as (log0 & Htry & _).
  assert (Hcs : (check_and_split df).1 = Raise (ValueError "Loaded dataframe is empty")).
  { destruct Hempty as [->|(raw & -> & Hraw)]; simpl; [done|]. by rewrite Hraw. }
  rewrite Hcs in Htry.
  apply load_unified_data_raise in Htry as (log & Hrun & Hlog). eauto.
Qed.

(** X7.  When two labels of the table read become ["record_type"] once
    normalized, [load_unified_data] logs and raises [AttributeError]. *)
Theorem load_unified_data_repeated_record_type (fs : raw_dir) (raw df : DataFrame)
    (i j : nat) (l : list nat) :
  unified_source fs (Some raw) →
  empty raw = false →
  normalize_columns raw = Ok df →
  positions "record_type" (columns df) = i :: j :: l →
  ∃ msg log,
    load_unified_data fs = (Raise (AttributeError msg), log) ∧
    (ERROR, "Error loading unified data: " +:+ msg) ∈ log.
Proof.
  intros Hsrc Hne Hnorm Hpos.
  destruct (load_unified_data_try_source nan_as_text value_str str_strip_lower_other
              fs _ Hsrc) as (log0 & Htry & _).
  assert (Hcs : ∃ msg, (check_and_split (Some raw)).1 = Raise (AttributeError msg)).
  { rewrite check_and_split_Some, Hne, Hnorm.
    destruct (split_records_repeated_label nan_as_text value_str df i j l Hpos)
      as [msg ->].
    by exists msg. }
  destruct Hcs as [msg Hcs]. rewrite Hcs in Htry.
  apply load_unified_data_raise in Htry as (log & Hrun & Hlog).
  exists msg, log. done.
Qed.

(** X6.  When the Excel file of the unified data set exists, what
    [load_unified_data] returns or raises is fixed by that workbook: the CSV
    file and the other files of the directory are not read. *)
Theorem load_unified_data_excel_shadows_csv (fs fs' : raw_dir) (wb : workbook) :
  xlsx fs !! "ethiopia_fi_unified_data.xlsx" = Some wb →
  xlsx fs' !! "ethiopia_fi_unified_data.xlsx" = Some wb →
  (load_unified_data fs).1 = (load_unified_data fs').1.
Proof.
  intros Hwb Hwb'.
  assert (Hsrc : unified_source fs (snd <$> resolve_sheet possible_sheet_names wb))
    by (left; eauto).
  assert (Hsrc' : unified_source fs' (snd <$> resolve_sheet possible_sheet_names wb))
    by (left; eauto).
  destruct (load_unified_data_try_source nan_as_text value_str str_strip_lower_other
              fs _ Hsrc) as (log0 & Htry & _).
  destruct (load_unified_data_try_source nan_as_text value_str str_strip_lower_other
              fs' _ Hsrc') as (log0' & Htry' & _).
  unfold load_unified_data. rewrite Htry, Htry'.
  by destruct (check_and_split _) as [[v|e] l].
Qed.

(** X4.  The two frames of a successful [load_unified_data] have together
    at least one row, and when the labels of the table read are strings,
    their labels are strings fixed by trimming and lowercasing.  With a
    ["record_type"] label, that label stands once, every row of the impact
    links holds ["impact_link"] there and no row of the main data does: a
    main-data cell of that column is a string fixed by trimming and
    lowercasing, or, where [astype(str)] keeps missing values (pandas 3),
    still missing.  Without the label the impact links are the empty
    frame. *)
Theorem load_unified_data_partitioned (fs : raw_dir) (main_data impact_links : DataFrame)
    (log : list log_record) :
  load_unified_data fs = (Ok (main_data, impact_links), log) →
  (∀ raw, unified_source fs (Some raw) → is_Some (text_labels (columns raw)) →
     ∀ c, c ∈ columns main_data → ∃ s, c = LStr s ∧ normalize_name s = s) ∧
  1 ≤ len main_data + len impact_links ∧
  (LStr "record_type" ∉ columns main_data → impact_links = empty_frame) ∧
  (LStr "record_type" ∈ columns main_data →
     ∃ i, positions "record_type" (columns main_data) = [i] ∧
       columns impact_links = columns main_data ∧
       (∀ r, r ∈ rows impact_links → cell_at i r = CStr "impact_link") ∧
       (∀ r, r ∈ rows main_data →
          (∃ s, cell_at i r = CStr s ∧ s ≠ "impact_link" ∧ normalize_name s = s)
          ∨ (nan_as_text = false ∧ cell_at i r = CNull))).
Proof.
  intros Hload.
  destruct (load_unified_data_Ok _ _ _ _ _ _ _ Hload)
    as (raw & log0 & log' & Hsrc & _ & Hcs & _).
  rewrite check_and_split_Some in Hcs.
  destruct (empty raw) eqn:Hne; [done|].
  apply empty_false_len in Hne.
  destruct (normalize_columns raw) as [df|e] eqn:Hnorm; [|done].
  pose proof (normalize_columns_body _ _ _ Hnorm) as Hbody.
  assert (Hlen : len df = len raw) by (unfold len; by rewrite Hbody).
  destruct (split_records df) as [res l] eqn:Hsplit. simpl in Hcs.
  injection Hcs as -> _.
  assert (Hcols : columns main_data = columns df).
  { by apply split_records_Ok in Hsplit as [? _]. }
  split.
  { intros raw' Hsrc' [names Hnames].
    assert (raw' = raw) as -> by (pose proof (unified_source_inj _ _ _ Hsrc Hsrc'); congruence).
    apply text_labels_Some in Hnames.
    rewrite (normalize_columns_text _ raw names Hnames) in Hnorm.
    injection Hnorm as <-. rewrite Hcols. simpl.
    intros c (s & -> & Hs)%list_elem_of_fmap.
    exists s. split; [done|].
    unfold normalize_names in Hs. apply list_elem_of_fmap in Hs as (n & -> & _).
    apply normalize_name_idem. }
  destruct (positions "record_type" (columns df)) as [|i [|j sel]] eqn:Hpos.
  - apply (positions_from_nil 0) in Hpos.
    apply split_records_Ok in Hsplit as [_ [(Hin & _)|(_ & -> & -> & _)]]; [done|].
    split; [unfold len at 2; simpl; lia|]. split; [done|]. done.
  - destruct (split_records_one_column nan_as_text value_str df i Hpos)
      as (m & im & Heq & Hcm & Hci & Hri & Hrm).
    rewrite Heq in Hsplit. injection Hsplit as <- <- _.
    split.
    { rewrite !len_reset_index, !len_rows, Hrm, Hri, !length_fmap, Nat.add_comm.
      rewrite (length_filter_split
                 (λ r, clean_record_type (series_at i df) (cell_at i r)
                       = CStr "impact_link")).
      by rewrite <- len_rows, Hlen. }
    split.
    { intros Hno. exfalso. apply Hno. simpl. rewrite Hcm.
      by eapply positions_elem_of. }
    intros _. exists i. simpl. rewrite Hcm, Hci. split; [done|]. split; [done|].
    rewrite !rows_reset_index, Hri, Hrm. split.
    + intros r (r0 & -> & Hin)%list_elem_of_fmap.
      apply list_elem_of_filter in Hin as [Hlink _].
      unfold clean_row. by rewrite cell_at_put_cell_eq.
    + intros r (r0 & -> & Hin)%list_elem_of_fmap.
      apply list_elem_of_filter in Hin as [Hmain _].
      unfold clean_row. rewrite cell_at_put_cell_eq.
      rewrite clean_record_type_cases in Hmain |- *.
      assert (Hfix : ∀ s, normalize_name (PyStr.lower (PyStr.strip s))
                          = PyStr.lower (PyStr.strip s))
        by (intros s; apply normalize_name_idem).
      destruct (cell_at i r0) as [|s|n|t].
      * destruct nan_as_text; [left|right; done].
        exists "nan". split; [done|]. split; [congruence|]. reflexivity.
      * left. eexists. split; [done|]. split; [congruence|]. apply Hfix.
      * left. eexists. split; [done|]. split; [congruence|]. apply Hfix.
      * left. eexists. split; [done|]. split; [congruence|]. apply Hfix.
  - unfold split_records, locate in Hsplit. by rewrite Hpos in Hsplit.
Qed.

(** X8.  [load_unified_data] returns normally whenever the table read has
    a row and a column, its labels are strings, and at most one of them
    normalizes to ["record_type"]. *)
Theorem load_unified_data_succeeds (fs : raw_dir) (raw : DataFrame) (names : list string) :
  unified_source fs (Some raw) →
  empty raw = false →
  columns raw = LStr <$> names →
  length (positions "record_type" (LStr <$> normalize_names names)) ≤ 1 →
  ∃ main_data impact_links log,
    load_unified_data fs = (Ok (main_data, impact_links), log).
Proof.
  intros Hsrc Hne Hnames Hpos.
  destruct (load_unified_data_try_source nan_as_text value_str str_strip_lower_other
              fs _ Hsrc) as (log0 & Htry & _).
  assert (Hcs : ∃ v, (check_and_split (Some raw)).1 = Ok v).
  { rewrite check_and_split_Some, Hne, (normalize_columns_text _ raw names Hnames).
    unfold split_records, locate. simpl.
    destruct (positions "record_type" (LStr <$> normalize_names names))
      as [|i [|j sel]]; simpl in Hpos; [by eexists..|lia]. }
  destruct Hcs as [[main impact] Hcs].
  unfold load_unified_data. rewrite Htry, Hcs. simpl. by eexists _, _, _.
Qed.

End UnifiedFacts.

(** ** Loading the reference codes and the guide *)

Section ReferenceFacts.
Variable str_strip_lower_other : list column_label → result (list column_label).

Abbreviation normalize_columns := (normalize_columns str_strip_lower_other).
Abbreviation load_reference_codes := (load_reference_codes str_strip_lower_other).
Abbreviation load_reference_codes_try :=
  (load_reference_codes_try str_strip_lower_other).


End ReferenceFacts.

Lemma sheet_by_name_None (name : string) (wb : workbook) :
  name ∉ sheet_names wb → sheet_by_name name wb = None.
Proof.
  intros Hno. unfold sheet_by_name.
  destruct (list_find (λ p : string * sheet, p.1 = name) wb) as [[k [n t]]|] eqn:Hfind;
    [|done].
  apply list_find_Some in Hfind as (Hk & Hn & _). simpl in Hn. subst n.
  exfalso. apply Hno. unfold sheet_names.
  apply list_elem_of_fmap. exists (name, t). split; [done|].
  by eapply list_elem_of_lookup_2.
Qed.

(** The dictionary of the guide has, under each sheet name, the table of
    that sheet as it was read. *)
Lemma read_all_sheets_lookup (wb : workbook) (name : string) :
  read_all_sheets wb !! name = read_table <$> sheet_by_name name wb.
Proof.
  unfold read_all_sheets.
  assert (Hgen : ∀ names,
            foldl (λ sheets_dict n,
                     match sheet_by_name n wb with
                     | Some t => <[n := read_table t]> sheets_dict
                     | None => sheets_dict
                     end) (∅ : gmap string DataFrame) names !! name
            = read_table <$>
                (if decide (name ∈ names) then sheet_by_name name wb
                 else @None sheet)).
  { induction names as [|n names IH] using rev_ind.
    - destruct (decide (name ∈ [])) as [Hin|_]; [by apply elem_of_nil in Hin|].
      simpl. apply lookup_empty.
    - rewrite foldl_app. simpl. destruct (decide (n = name)) as [->|Hne].
      + rewrite decide_True by (apply elem_of_app; right; left).
        destruct (sheet_by_name name wb) as [t|] eqn:Ht.
        * by rewrite lookup_insert_eq.
        * rewrite IH. by case_decide.
      + assert (Hmem : name ∈ names ++ [n] ↔ name ∈ names).
        { rewrite elem_of_app, list_elem_of_singleton.
          split; [intros [?|?]; [done|congruence]|auto]. }
        destruct (sheet_by_name n wb).
        * rewrite lookup_insert_ne by done. rewrite IH.
          by destruct (decide (name ∈ names)), (decide (name ∈ names ++ [n]));
            try tauto.
        * rewrite IH.
          by destruct (decide (name ∈ names)), (decide (name ∈ names ++ [n]));
            try tauto. }
  rewrite Hgen. case_decide as Hin; [done|].
  by rewrite sheet_by_name_None.
Qed.

Lemma guide_suffixes :
  suffix "Additional Data Points Guide.xlsx" = ".xlsx" ∧
  suffix (csv_name "Additional Data Points Guide.xlsx") = ".csv".
Proof. split; reflexivity. Qed.

(** X11.  [load_additional_data_guide] never raises, and the dictionary it
    returns is empty unless the Excel file of the guide exists. *)
Theorem load_additional_data_guide_never_raises (fs : raw_dir) :
  ∃ sheets log,
    load_additional_data_guide fs = (Ok sheets, log) ∧
    (xlsx fs !! "Additional Data Points Guide.xlsx" = None → sheets = ∅).
Proof.
  unfold load_additional_data_guide, load_additional_data_guide_try.
  destruct (download_data_spec fs) as (log0 & -> & _).
  destruct (download_data_lookup fs) as (_ & _ & Hg).
  unfold bind at 1. rewrite Hg. clear Hg. unfold located.
  destruct guide_suffixes as [Hx Hc].
  destruct (decide (is_Some (xlsx fs !! "Additional Data Points Guide.xlsx")))
    as [[wb Hwb]|Hno].
  - rewrite Hx. destruct (decide (".xlsx" = ".xlsx")) as [_|]; [|done].
    unfold open_excel. rewrite Hwb. unfold bind, ret. simpl.
    eexists _, _. split; [reflexivity|]. done.
  - destruct (decide (is_Some (csv fs !! csv_name "Additional Data Points Guide.xlsx"))).
    + rewrite Hc. destruct (decide (".csv" = ".xlsx")) as [|_]; [done|].
      simpl. eexists _, _. split; [reflexivity|]. done.
    + simpl. eexists _, _. split; [reflexivity|]. done.
Qed.

(** X12.  When the Excel file of the guide exists, the dictionary returned
    holds, under each sheet name of the file and under no other key, the
    table of that sheet as it was read: labels and cells are not touched. *)
Theorem load_additional_data_guide_sheets (fs : raw_dir) (wb : workbook) :
  xlsx fs !! "Additional Data Points Guide.xlsx" = Some wb →
  ∃ sheets log,
    load_additional_data_guide fs = (Ok sheets, log) ∧
    (∀ name, is_Some (sheets !! name) ↔ name ∈ sheet_names wb) ∧
    (∀ name t, sheet_by_name name wb = Some t → sheets !! name = Some (read_table t)).
Proof.
  intros Hwb.
  unfold load_additional_data_guide, load_additional_data_guide_try.
  destruct (download_data_spec fs) as (log0 & -> & _).
  destruct (download_data_lookup fs) as (_ & _ & Hg).
  unfold bind at 1. rewrite Hg. clear Hg. unfold located.
  destruct guide_suffixes as [Hx _].
  rewrite decide_True by (by rewrite Hwb). rewrite Hx.
  destruct (decide (".xlsx" = ".xlsx")) as [_|]; [|done].
  unfold open_excel. rewrite Hwb. unfold bind, ret. simpl.
  eexists _, _. split; [reflexivity|]. split.
  - intros name. rewrite read_all_sheets_lookup. split.
    + intros Hsome. apply dec_stable. intros Hno.
      rewrite (sheet_by_name_None name wb Hno) in Hsome. by destruct Hsome.
    + intros Hin. destruct (sheet_by_name_elem_of name wb Hin) as (t & -> & _).
      by eexists.
  - intros name t Ht. by rewrite read_all_sheets_lookup, Ht.
Qed.

(** X13.  A guide that exists only as a CSV file is found by
    [download_data] but rejected by [load_additional_data_guide]: the call
    logs "Unsupported file format for guide: .csv" and returns the empty
    dictionary. *)
Theorem load_additional_data_guide_csv_rejected (fs : raw_dir) :
  xlsx fs !! "Additional Data Points Guide.xlsx" = None →
  is_Some (csv fs !! "Additional Data Points Guide.csv") →
  ∃ file_paths log0 log,
    download_data fs = (Ok file_paths, log0) ∧
    file_paths !! "additional_data" = Some "Additional Data Points Guide.csv" ∧
    load_additional_data_guide fs = (Ok ∅, log) ∧
    (ERROR, "Error loading additional data guide: Unsupported file format for guide: .csv")
      ∈ log.
Proof.
  intros Hno Hcsv.
  unfold load_additional_data_guide, load_additional_data_guide_try.
  destruct (download_data_spec fs) as (log0 & -> & _).
  destruct (download_data_lookup fs) as (_ & _ & Hg).
  assert (Hloc : located fs "Additional Data Points Guide.xlsx"
                 = Some "Additional Data Points Guide.csv").
  { unfold located. rewrite decide_False by (rewrite Hno; by intros [??]).
    by rewrite decide_True. }
  rewrite Hloc in Hg.
  eexists _, log0, _. split; [reflexivity|]. split; [exact Hg|].
  unfold bind at 1. rewrite Hg. simpl.
  split; [reflexivity|]. rewrite !elem_of_app. right. left.
Qed.

(** ** Structural validator *)

Lemma elem_of_positions_from (k : nat) (name : string) (cols : list column_label)
    (i : nat) :
  i ∈ positions_from k name cols ↔ k ≤ i ∧ cols !! (i - k) = Some (LStr name).
Proof.
  revert k. induction cols as [|c cols IH]; intros k; simpl.
  - rewrite elem_of_nil. split; [done|]. by intros [_ ?].
  - assert (Hrec : i ∈ positions_from (S k) name cols
                   ↔ k < i ∧ (c :: cols) !! (i - k) = Some (LStr name)).
    { rewrite IH. split.
      - intros [Hle Hlk]. split; [lia|].
        replace (i - k) with (S (i - S k)) by lia. done.
      - intros [Hlt Hlk]. split; [lia|].
        replace (i - k) with (S (i - S k)) in Hlk by lia. done. }
    case_decide as Hc.
    + rewrite elem_of_cons, Hrec. split.
      * intros [->|[Hlt Hlk]]; [|split; [lia|done]].
        split; [done|]. rewrite Nat.sub_diag. simpl. by rewrite Hc.
      * intros [Hle Hlk]. destruct (decide (i = k)) as [->|]; [by left|].
        right. split; [lia|done].
    + rewrite Hrec. split.
      * intros [Hlt Hlk]. split; [lia|done].
      * intros [Hle Hlk]. split; [|done].
        destruct (decide (i = k)) as [->|]; [|lia].
        rewrite Nat.sub_diag in Hlk. simpl in Hlk. congruence.
Qed.

Lemma elem_of_positions (name : string) (cols : list column_label) (i : nat) :
  i ∈ positions name cols ↔ cols !! i = Some (LStr name).
Proof.
  unfold positions. rewrite elem_of_positions_from, Nat.sub_0_r.
  split; [by intros [_ ?]|]. intros ?. split; [lia|done].
Qed.

Lemma locate_OneColumn_lookup (name : string) (df : DataFrame) (i : nat) :
  locate name df = OneColumn i → columns df !! i = Some (LStr name).
Proof.
  intros Hloc. apply locate_OneColumn_positions in Hloc.
  apply elem_of_positions. rewrite Hloc. left.
Qed.

Lemma length_positions_from (k : nat) (name : string) (names : list string) :
  length (positions_from k name (LStr <$> names))
  = length (filter (λ c, c = name) names).
Proof.
  revert k. induction names as [|c names IH]; intros k; [done|]. csimpl.
  rewrite filter_cons.
  destruct (decide (LStr c = LStr name)) as [[= ->]|Hne].
  - rewrite decide_True by done. simpl. by rewrite IH.
  - rewrite decide_False by congruence. apply IH.
Qed.

Lemma locate_OneColumn_once (name : string) (df : DataFrame) (names : list string)
    (i : nat) :
  columns df = LStr <$> names →
  locate name df = OneColumn i →
  length (filter (λ c, c = name) names) = 1.
Proof.
  intros Hnames Hloc. apply locate_OneColumn_positions in Hloc.
  rewrite Hnames in Hloc. unfold positions in Hloc.
  by rewrite <- (length_positions_from 0), Hloc.
Qed.

Lemma length_filter_filter_le {A} (P Q : A → Prop)
    `{!∀ x, Decision (P x)} `{!∀ x, Decision (Q x)} (l : list A) :
  length (filter P (filter Q l)) ≤ length (filter P l).
Proof.
  induction l as [|x l IH]; [done|].
  rewrite !filter_cons. destruct (decide (Q x)), (decide (P x));
    rewrite ?filter_cons_True, ?filter_cons_False by done; simpl; lia.
Qed.



(** The date labels of a header of strings, and when the comprehension
    raises. *)
Lemma date_columns_of_text (names : list string) :
  date_columns_of (LStr <$> names)
  = Ok (filter (λ c, PyStr.contains "date" (PyStr.lower c) = true) names).
Proof.
  induction names as [|c names IH]; [done|]. csimpl. rewrite IH, filter_cons.
  by destruct (PyStr.contains "date" (PyStr.lower c)).
Qed.

Lemma date_columns_of_Ok (cols : list column_label) (l : list string) :
  date_columns_of cols = Ok l → ∃ names, cols = LStr <$> names.
Proof.
  revert l. induction cols as [|[c| |] cols IH]; intros l; simpl; try done.
  - intros _. by exists [].
  - destruct (date_columns_of cols) as [rest|]; [|done].
    intros _. destruct (IH rest eq_refl) as [names ->]. by exists (c :: names).
Qed.



Section ValidatorFacts.
Variable to_datetime : list cell → cell → option Z.
Variable strftime_ymd : Z → string.

Abbreviation parsed_dates := (parsed_dates to_datetime).
Abbreviation first_range := (first_range to_datetime strftime_ymd).
Abbreviation date_range_loop := (date_range_loop to_datetime strftime_ymd).
Abbreviation validate_data_structure :=
  (validate_data_structure to_datetime strftime_ymd).
Abbreviation to_datetime_cell := (to_datetime_cell to_datetime).

Lemma dropna_times_to_datetime (col s : list cell) :
  dropna_times (to_datetime_cell col <$> s) = omap (to_datetime col) s.
Proof.
  unfold dropna_times. induction s as [|c s IH]; [done|]. csimpl.
  rewrite IH. unfold to_datetime_cell. by destruct (to_datetime col c).
Qed.

(** Parsing one column leaves the timestamps of the other labels as they
    were. *)
Lemma parsed_dates_set_series (f : cell → cell) (i : nat) (col col' : string)
    (df : DataFrame) :
  locate col df = OneColumn i → col' ≠ col →
  parsed_dates (set_series_at i (f <$> series_at i df) df) col'
  = parsed_dates df col'.
Proof.
  intros Hloc Hne. unfold parsed_dates, locate. simpl.
  fold (locate col' df). destruct (locate col' df) as [|j|] eqn:Hloc'; try done.
  rewrite series_at_set_series_ne; [done|].
  intros ->. apply locate_OneColumn_lookup in Hloc, Hloc'. congruence.
Qed.

Lemma first_range_ext (cols : list string) (df df' : DataFrame) :
  (∀ c, c ∈ cols → parsed_dates df' c = parsed_dates df c) →
  first_range cols df' = first_range cols df.
Proof.
  induction cols as [|c cols IH]; intros Hext; simpl; [done|].
  rewrite Hext by left. rewrite IH; [done|].
  intros c' Hc'. apply Hext. by right.
Qed.

(** The loop, which reads the frame it has assigned to, finds the range
    that [first_range] finds in the frame as it was given. *)
Lemma date_range_loop_first_range (cols : list string) (df : DataFrame) :
  (∀ c i, locate c df = OneColumn i → length (filter (λ x, x = c) cols) ≤ 1) →
  (date_range_loop cols df).1 = first_range cols df.
Proof.
  revert df. induction cols as [|c cols IH]; intros df Honce; simpl; [done|].
  assert (Htail : ∀ c' i, locate c' df = OneColumn i →
                          length (filter (λ x, x = c') cols) ≤ 1).
  { intros c' i Hloc. specialize (Honce c' i Hloc).
    rewrite filter_cons in Honce. case_decide; simpl in Honce; lia. }
  unfold parsed_dates.
  destruct (locate c df) as [|i|] eqn:Hloc; [by apply IH| |by apply IH].
  rewrite series_at_set_series_eq, dropna_times_to_datetime.
  destruct (omap (to_datetime (series_at i df)) (series_at i df)) as [|t ts]; [|done].
  rewrite IH.
  - apply first_range_ext. intros c' Hc'.
    apply (parsed_dates_set_series _ i c); [done|].
    intros ->. specialize (Honce c i Hloc).
    rewrite filter_cons_True in Honce by done. simpl in Honce.
    assert (Hnil : filter (λ x, x = c) cols = []) by (apply nil_length_inv; lia).
    assert (Hin : c ∈ filter (λ x, x = c) cols) by (by apply list_elem_of_filter).
    rewrite Hnil in Hin. by apply elem_of_nil in Hin.
  - intros c' j Hloc'. apply (Htail c' j). exact Hloc'.
Qed.

(** The report of a frame that is not empty, step by step. *)
Lemma validate_nonempty (df : DataFrame) :
  empty df = false →
  validate_data_structure df
  = match counts_of "record_type" df with
    | Raise e => (Raise e, df)
    | Ok record_type_counts =>
        match counts_of "pillar" df with
        | Raise e => (Raise e, df)
        | Ok pillar_distribution =>
            match date_columns df with
            | Raise e => (Raise e, df)
            | Ok date_cols =>
                (Ok (mkReport (len df) record_type_counts pillar_distribution
                       (null_counts df) (date_range_loop date_cols df).1
                       match positions "indicator_code" (columns df) with
                       | [] => UniqueScalar 0
                       | [i] => UniqueScalar (nunique (series_at i df))
                       | sel => UniquePerColumn ((λ i, nunique (series_at i df)) <$> sel)
                       end),
                 (date_range_loop date_cols df).2)
            end
        end
    end.
Proof.
  intros Hne. unfold validate_data_structure. rewrite Hne.
  destruct (counts_of "record_type" df); [|done].
  destruct (counts_of "pillar" df); [|done].
  destruct (date_columns df) as [cols|]; [|done].
  by destruct (date_range_loop cols df).
Qed.


(** When the call returns a report for a frame that is not empty. *)
Lemma validate_Ok (df : DataFrame) (report : ValidationReport) :
  empty df = false →
  (validate_data_structure df).1 = Ok report →
  ∃ names,
    columns df = LStr <$> names ∧
    counts_of "record_type" df = Ok (record_type_counts report) ∧
    counts_of "pillar" df = Ok (pillar_distribution report) ∧
    missing_values report = null_counts df ∧
    total_records report = len df ∧
    date_range report
    = first_range
        (filter (λ c, PyStr.contains "date" (PyStr.lower c) = true) names) df.
Proof.
  intros Hne. rewrite (validate_nonempty df Hne).
  destruct (counts_of "record_type" df) as [rc|]; [|done].
  destruct (counts_of "pillar" df) as [pd|]; [|done].
  destruct (date_columns df) as [cols|] eqn:Hdc; [|done].
  simpl. intros [= <-]. simpl.
  unfold date_columns in Hdc.
  destruct (date_columns_of_Ok _ _ Hdc) as [names Hnames].
  rewrite Hnames, date_columns_of_text in Hdc. injection Hdc as <-.
  exists names. repeat split; try done.
  apply date_range_loop_first_range.
  intros c i Hloc.
  rewrite <- (locate_OneColumn_once c df names i Hnames Hloc).
  apply length_filter_filter_le.
Qed.




(** A frame without a date label is returned as it was given. *)
Lemma validate_without_date_columns (df : DataFrame) :
  date_columns df = Ok [] → (validate_data_structure df).2 = df.
Proof.
  intros Hnone. destruct (empty df) eqn:Hne.
  { unfold validate_data_structure. by rewrite Hne. }
  rewrite (validate_nonempty df Hne), Hnone.
  destruct (counts_of "record_type" df); [|done].
  by destruct (counts_of "pillar" df).
Qed.

(** C5 (the code departs from it).  After [validate_data_structure] the
    cell of the ["date"] column of [dated_frame] is no longer the string
    it was: the frame the caller passed has been overwritten. *)
Theorem validate_data_structure_overwrites_date_column :
  (validate_data_structure dated_frame).2 ≠ dated_frame ∧
  series_at 0 (validate_data_structure dated_frame).2
    = [to_datetime_cell [CStr "2024-01-15"] (CStr "2024-01-15")].
Proof.
  assert (Hrun : (validate_data_structure dated_frame).2
                 = mkDataFrame [LStr "date"]
                     [(0, [to_datetime_cell [CStr "2024-01-15"] (CStr "2024-01-15")])]).
  { unfold to_datetime_cell. vm_compute.
    by destruct (to_datetime _ _). }
  rewrite Hrun. split; [|done].
  unfold dated_frame, to_datetime_cell.
  destruct (to_datetime _ _); congruence.
Qed.

Lemma index_set_series_fmap (f : cell → cell) (i : nat) (df : DataFrame) :
  index (set_series_at i (f <$> series_at i df) df) = index df.
Proof.
  unfold index. rewrite body_set_series_fmap, <- list_fmap_compose.
  by apply list_fmap_ext.
Qed.

(** What the loop over the date labels leaves of the frame. *)
Lemma date_range_loop_frame (cols : list string) (df : DataFrame) :
  columns (date_range_loop cols df).2 = columns df ∧
  index (date_range_loop cols df).2 = index df ∧
  ∀ j, (∀ c, c ∈ cols → columns df !! j ≠ Some (LStr c)) →
       series_at j (date_range_loop cols df).2 = series_at j df.
Proof.
  revert df. induction cols as [|c cols IH]; intros df; simpl; [done|].
  assert (Hskip :
    columns (date_range_loop cols df).2 = columns df ∧
    index (date_range_loop cols df).2 = index df ∧
    ∀ j, (∀ c', c' ∈ c :: cols → columns df !! j ≠ Some (LStr c')) →
         series_at j (date_range_loop cols df).2 = series_at j df).
  { destruct (IH df) as (Hc & Hi & Hs). repeat split; try done.
    intros j Hj. apply Hs. intros c' Hc'. apply Hj. by right. }
  destruct (locate c df) as [|i|sel] eqn:Hloc; [done| |done].
  set (df1 := set_series_at i (to_datetime_cell (series_at i df) <$> series_at i df) df).
  assert (Hone : columns df1 = columns df ∧ index df1 = index df ∧
            ∀ j, (∀ c', c' ∈ c :: cols → columns df !! j ≠ Some (LStr c')) →
                 series_at j df1 = series_at j df).
  { split; [done|]. split; [apply index_set_series_fmap|].
    intros j Hj. apply series_at_set_series_ne. intros ->.
    apply (Hj c); [left|]. by apply locate_OneColumn_lookup. }
  destruct (dropna_times (series_at i df1)); [|done].
  destruct (IH df1) as (Hc & Hi & Hs). destruct Hone as (Hc1 & Hi1 & Hs1).
  split; [by rewrite Hc|]. split; [by rewrite Hi|].
  intros j Hj. rewrite Hs.
  - by apply Hs1.
  - intros c' Hc'. rewrite Hc1. apply Hj. by right.
Qed.

(** X14.  [validate_data_structure] leaves the labels, the index and the
    number of rows of the frame as they were, and every column whose
    lowercased label does not contain ["date"]: only columns with a date
    label can be overwritten. *)
Theorem validate_data_structure_frame (df : DataFrame) :
  columns (validate_data_structure df).2 = columns df ∧
  index (validate_data_structure df).2 = index df ∧
  len (validate_data_structure df).2 = len df ∧
  ∀ j c, columns df !! j = Some c →
         (∀ s, c = LStr s → PyStr.contains "date" (PyStr.lower s) = false) →
         series_at j (validate_data_structure df).2 = series_at j df.
Proof.
  assert (Hlen : ∀ df', index df' = index df → len df' = len df).
  { intros df' Hi. unfold len. rewrite <- (length_fmap fst (body df')).
    fold (index df'). rewrite Hi. unfold index. by rewrite length_fmap. }
  destruct (empty df) eqn:Hne.
  { unfold validate_data_structure. rewrite Hne. by auto. }
  rewrite (validate_nonempty df Hne).
  destruct (counts_of "record_type" df); [|by auto].
  destruct (counts_of "pillar" df); [|by auto].
  destruct (date_columns df) as [cols|] eqn:Hdc; [|by auto].
  unfold date_columns in Hdc.
  destruct (date_columns_of_Ok _ _ Hdc) as [names Hnames].
  rewrite Hnames, date_columns_of_text in Hdc. injection Hdc as <-.
  destruct (date_range_loop_frame
              (filter (λ c, PyStr.contains "date" (PyStr.lower c) = true) names) df)
    as (Hc & Hi & Hs).
  simpl. split; [done|]. split; [done|]. split; [by apply Hlen|].
  intros j c Hj Hdate. apply Hs. intros c' Hc'.
  apply list_elem_of_filter in Hc' as [Hc' _].
  rewrite Hj. intros [= ->]. rewrite (Hdate c' eq_refl) in Hc'. done.
Qed.

End ValidatorFacts.

(** ** The frequency tables of the validator *)

Lemma length_filter_or {A} (P Q : A → Prop)
    `{!∀ x, Decision (P x)} `{!∀ x, Decision (Q x)} (l : list A) :
  (∀ x, P x → Q x → False) →
  length (filter (λ x, P x ∨ Q x) l) = length (filter P l) + length (filter Q l).
Proof.
  intros Hdisj. induction l as [|x l IH]; [done|].
  rewrite !filter_cons.
  destruct (decide (P x)) as [HP|HP], (decide (Q x)) as [HQ|HQ].
  - destruct (Hdisj x HP HQ).
  - rewrite decide_True by auto. simpl. lia.
  - rewrite decide_True by auto. simpl. lia.
  - rewrite decide_False by tauto. done.
Qed.

Lemma sum_counts_NoDup {A} `{EqDecision A} (keys l : list A) :
  NoDup keys →
  sum_list ((λ k, count_occ_of k l) <$> keys)
  = length (filter (λ x, x ∈ keys) l).
Proof.
  intros Hnd. induction Hnd as [|k keys Hk Hnd IH]; csimpl.
  - symmetry. apply length_zero_iff_nil, filter_none.
    intros x _ Hx. by apply elem_of_nil in Hx.
  - rewrite IH. unfold count_occ_of.
    rewrite <- (length_filter_or (λ x, x = k) (λ x, x ∈ keys)) by (by intros x ->).
    f_equal. apply list_filter_iff. intros x. by rewrite elem_of_cons.
Qed.

(** The counts of a frequency table add up to the number of values
    counted. *)
Lemma sum_counts_remove_dups {A} `{EqDecision A} (l : list A) :
  sum_list ((λ k, count_occ_of k l) <$> remove_dups l) = length l.
Proof.
  rewrite sum_counts_NoDup by apply NoDup_remove_dups.
  f_equal. induction l as [|x l IH]; [done|].
  assert (Hall : ∀ l' : list A,
            (∀ y, y ∈ l' → y ∈ remove_dups (x :: l)) →
            filter (λ y, y ∈ remove_dups (x :: l)) l' = l').
  { induction l' as [|y l' IH']; intros Hin; [done|].
    rewrite filter_cons_True by (apply Hin; left).
    f_equal. apply IH'. intros z Hz. apply Hin. by right. }
  apply Hall. intros y Hy. by apply elem_of_remove_dups.
Qed.

Lemma count_occ_of_filter (P : cell → Prop) `{!∀ c, Decision (P c)}
    (c : cell) (s : list cell) :
  P c → count_occ_of c (filter P s) = count_occ_of c s.
Proof.
  intros Hc. unfold count_occ_of. induction s as [|x s IH]; [done|].
  rewrite (filter_cons P). destruct (decide (P x)) as [Hx|Hx].
  - rewrite !(filter_cons (λ y, y = c)). by destruct (decide (x = c)); simpl; rewrite IH.
  - rewrite (filter_cons (λ y, y = c)).
    destruct (decide (x = c)) as [->|]; [done|]. exact IH.
Qed.

(** The frequency table has one key for each value of the column that is
    not missing, mapped to the number of its occurrences. *)
Lemma value_counts_lookup (s : list cell) (c : cell) (n : nat) :
  value_counts s !! c = Some n
  ↔ isnull c = false ∧ c ∈ s ∧ n = count_occ_of c s.
Proof.
  unfold value_counts.
  set (kept := filter (λ c, isnull c = false) s).
  rewrite <- elem_of_list_to_map;
    [|rewrite <- list_fmap_compose, list_fmap_id; apply NoDup_remove_dups].
  rewrite list_elem_of_fmap. split.
  - intros (c' & [= -> ->] & Hin).
    rewrite elem_of_remove_dups in Hin.
    apply list_elem_of_filter in Hin as [Hnull Hin].
    split; [done|]. split; [done|]. by apply count_occ_of_filter.
  - intros (Hnull & Hin & ->). exists c. split.
    + f_equal. symmetry. by apply count_occ_of_filter.
    + rewrite elem_of_remove_dups. by apply list_elem_of_filter.
Qed.

Lemma total_count_value_counts (s : list cell) :
  total_count (value_counts s) = length (filter (λ c, isnull c = false) s).
Proof.
  unfold total_count, value_counts.
  set (kept := filter (λ c, isnull c = false) s).
  rewrite map_to_list_to_map
    by (rewrite <- list_fmap_compose, list_fmap_id; apply NoDup_remove_dups).
  rewrite <- list_fmap_compose. apply (sum_counts_remove_dups kept).
Qed.

(** The number of missing values the report gives for a label that stands
    once. *)
Lemma null_counts_lookup (df : DataFrame) (name : string) (i : nat) :
  positions name (columns df) = [i] →
  null_counts df !! LStr name
  = Some (length (filter (λ c, isnull c = true) (series_at i df))).
Proof.
  intros Hpos. unfold null_counts. apply elem_of_list_to_map_1'.
  - intros y Hy. rewrite elem_of_reverse in Hy.
    apply list_elem_of_lookup in Hy as [j Hj].
    rewrite list_lookup_imap in Hj.
    destruct (columns df !! j) as [c|] eqn:Hc; simpl in Hj; [|done].
    injection Hj as -> <-.
    apply elem_of_positions in Hc. rewrite Hpos in Hc.
    apply list_elem_of_singleton in Hc. by subst j.
  - rewrite elem_of_reverse. apply list_elem_of_lookup. exists i.
    rewrite list_lookup_imap.
    assert (Hc : columns df !! i = Some (LStr name)).
    { apply elem_of_positions. rewrite Hpos. left. }
    by rewrite Hc.
Qed.

Section ValidatorMoreFacts.
Variable to_datetime : list cell → cell → option Z.
Variable strftime_ymd : Z → string.

Abbreviation validate_data_structure :=
  (validate_data_structure to_datetime strftime_ymd).

(** X15.  When [validate_data_structure] returns a report for a frame with
    a row, a column and one ["record_type"] label, the frequency table of
    the report has one key for each value of that column that is not
    missing, with the number of its occurrences, which is at least one; the
    counts add up to the number of cells of the column that are not
    missing, and together with the missing count the report gives for that
    column to the total number of records. *)
Theorem record_type_counts_total (df : DataFrame) (i : nat) (report : ValidationReport) :
  (validate_data_structure df).1 = Ok report →
  empty df = false →
  positions "record_type" (columns df) = [i] →
  (∀ c n, record_type_counts report !! c = Some n
          ↔ isnull c = false ∧ c ∈ series_at i df
            ∧ n = count_occ_of c (series_at i df)) ∧
  (∀ c n, record_type_counts report !! c = Some n → 1 ≤ n) ∧
  total_count (record_type_counts report)
    = length (filter (λ c, isnull c = false) (series_at i df)) ∧
  ∃ n, missing_values report !! LStr "record_type" = Some n ∧
       n = length (filter (λ c, isnull c = true) (series_at i df)) ∧
       n + total_count (record_type_counts report) = total_records report.
Proof.
  intros Hrun Hne Hpos.
  destruct (validate_Ok _ _ df report Hne Hrun)
    as (names & _ & Hrc & _ & Hmv & Htotal & _).
  unfold counts_of, locate in Hrc. rewrite Hpos in Hrc. injection Hrc as Hrc.
  rewrite <- Hrc, Hmv, Htotal. clear Hrun Hrc Hmv Htotal.
  split; [intros c n; apply value_counts_lookup|].
  split.
  { intros c n (_ & Hin & ->)%value_counts_lookup. unfold count_occ_of.
    assert (Hc : c ∈ filter (λ x, x = c) (series_at i df))
      by (by apply list_elem_of_filter).
    destruct (filter (λ x, x = c) (series_at i df));
      [by apply elem_of_nil in Hc|simpl; lia]. }
  split; [apply total_count_value_counts|].
  eexists. split; [by apply null_counts_lookup|]. split; [done|].
  rewrite total_count_value_counts.
  rewrite (list_filter_iff (λ c, isnull c = false) (λ c, ¬ isnull c = true));
    [|intros c; by destruct (isnull c)].
  rewrite (length_filter_split (λ c, isnull c = true)).
  unfold series_at. by rewrite length_fmap, len_rows.
Qed.

End ValidatorMoreFacts.

(** ** Saving processed data *)

Lemma str_endswith_refl (s : string) : str_endswith s s = true.
Proof.
  destruct s; cbn [str_endswith]; by rewrite (bool_decide_eq_true_2 _ eq_refl).
Qed.

Lemma str_endswith_app (s suffix : string) : str_endswith (s +:+ suffix) suffix = true.
Proof.
  induction s as [|c s IH]; simpl.
  - apply str_endswith_refl.
  - rewrite IH. apply orb_true_r.
Qed.

(** X16.  The file [save_processed_data] writes always has a name ending in
    [.csv]: the given name when it ends so, else the given name with [.csv]
    appended.  Saving under the returned name returns it again, and a name
    without the suffix and the same name with it address the same file. *)
Theorem save_processed_data_name (processed : gmap string sheet) (df : DataFrame)
    (filename : string) :
  let name := (save_processed_data processed df filename).1 in
  str_endswith name ".csv" = true ∧
  (str_endswith filename ".csv" = true → name = filename) ∧
  (str_endswith filename ".csv" = false → name = filename +:+ ".csv") ∧
  (∀ processed' df', (save_processed_data processed' df' name).1 = name) ∧
  (∀ processed' df',
     str_endswith filename ".csv" = false →
     (save_processed_data processed' df' (filename +:+ ".csv")).1 = name).
Proof.
  unfold save_processed_data. simpl.
  destruct (str_endswith filename ".csv") eqn:Hend.
  - repeat split; try done.
    intros _ _. by rewrite Hend.
  - repeat split; try done.
    + apply str_endswith_app.
    + intros _ _. by rewrite str_endswith_app.
    + intros _ _ _. by rewrite str_endswith_app.
Qed.

(** ** Dashboard metrics *)

Lemma cell_eq_str_true (s : string) (c : cell) :
  cell_eq_str s c = true ↔ c = CStr s.
Proof.
  destruct c; simpl; rewrite ?bool_decide_eq_true; split; congruence.
Qed.

Lemma cell_eq_int_true (n : Z) (c : cell) :
  cell_eq_int n c = true ↔ c = CInt n.
Proof.
  destruct c; simpl; rewrite ?bool_decide_eq_true; split; congruence.
Qed.

Lemma series_at_rows (i : nat) (df : DataFrame) :
  series_at i df = cell_at i <$> rows df.
Proof. done. Qed.

Lemma locate_select_rows (name : string) (mask : list bool) (df : DataFrame) :
  locate name (select_rows mask df) = locate name df.
Proof. done. Qed.

(** The rows a conjunction of two column tests selects. *)
Lemma rows_select_rows_and (f g : cell → bool) (i j : nat) (df : DataFrame) :
  rows (select_rows (zip_with andb (f <$> series_at i df) (g <$> series_at j df)) df)
  = filter (λ r, f (cell_at i r) = true ∧ g (cell_at j r) = true) (rows df).
Proof.
  assert (Hmask : zip_with andb (f <$> series_at i df) (g <$> series_at j df)
                  = (λ p, f (cell_at i p.2) && g (cell_at j p.2)) <$> body df).
  { unfold series_at, rows.
    rewrite <- !list_fmap_compose, zip_with_fmap_l, zip_with_fmap_r, zip_with_diag.
    done. }
  rewrite Hmask. unfold select_rows, rows. simpl.
  rewrite (filter_mask (λ p, f (cell_at i p.2) && g (cell_at j p.2))).
  rewrite filter_fmap. f_equal. apply list_filter_iff. intros p.
  by rewrite andb_true_iff.
Qed.

Lemma rows_select_rows_one (f : cell → bool) (i : nat) (df : DataFrame) :
  rows (select_rows (f <$> series_at i df) df)
  = filter (λ r, f (cell_at i r) = true) (rows df).
Proof.
  unfold rows at 1. rewrite body_select_rows. unfold rows. by rewrite filter_fmap.
Qed.

Section DashboardFacts.
Variable F : Type.
Variable float_of_string : string → option F.
Variable format_1f : F → string.
Variable fsub : F → F → F.
Variable float_of_Z : Z → F.
Variable format_cell : cell → string.

Abbreviation forecast_lookup := (forecast_lookup F float_of_string).
Abbreviation get_forecast_value := (get_forecast_value F float_of_string).
Abbreviation lookup_miss := (lookup_miss F float_of_string).
Abbreviation forecast_unavailable := (forecast_unavailable F float_of_string).
Abbreviation forecast_metric :=
  (forecast_metric F float_of_string format_1f fsub float_of_Z).
Abbreviation target_gap_metric :=
  (target_gap_metric F float_of_string format_1f fsub float_of_Z).
Abbreviation scenario_range_metric := (scenario_range_metric format_cell).

Lemma forecast_row_test (i j : nat) (indicator : string) (year : Z) (r : list cell) :
  cell_eq_str indicator (cell_at i r) = true ∧ cell_eq_int year (cell_at j r) = true
  ↔ forecast_row i j indicator year r.
Proof. unfold forecast_row. by rewrite cell_eq_str_true, cell_eq_int_true. Qed.

(** Every miss makes the body of the [try] raise. *)
Lemma forecast_lookup_miss (df : DataFrame) (indicator : string) (year : Z) :
  lookup_miss df indicator year →
  ∃ e, forecast_lookup df indicator year = Raise e.
Proof.
  intros [c Hc Hno|i j Hi Hj Hrows|i j k pre post r Hi Hj Hk Hrows Hpre Hr Hparse];
    unfold forecast_lookup, getitem.
  - apply locate_NoColumn in Hno.
    apply elem_of_cons in Hc as [->|Hc]; [by rewrite Hno; eauto|].
    destruct (locate "Indicator" df); eauto.
    apply elem_of_cons in Hc as [->|Hc]; [by rewrite Hno; eauto|].
    destruct (locate "Year" df); eauto.
    apply elem_of_cons in Hc as [->|Hc]; [|by apply elem_of_nil in Hc].
    rewrite locate_select_rows, Hno. eauto.
  - rewrite Hi, Hj. rewrite locate_select_rows.
    destruct (locate "Forecast_%" df) as [|n|]; eauto.
    rewrite (series_at_rows n (select_rows _ _)).
    rewrite rows_select_rows_and, filter_none; [simpl; eauto|].
    intros r Hr Htest. apply forecast_row_test in Htest. by apply (Hrows r).
  - rewrite Hi, Hj. rewrite locate_select_rows, Hk.
    rewrite (series_at_rows k (select_rows _ _)).
    rewrite rows_select_rows_and, Hrows.
    rewrite filter_first.
    + simpl. destruct (cell_at k r) as [|s| |] eqn:Hcell; eauto.
      rewrite (Hparse s eq_refl). eauto.
    + intros r' Hr' Htest. apply forecast_row_test in Htest. by apply (Hpre r').
    + by apply forecast_row_test.
Qed.

Lemma get_forecast_value_unavailable data (indicator : string) (year : Z) :
  forecast_unavailable data indicator year →
  get_forecast_value data indicator year = None.
Proof.
  unfold get_forecast_value. intros [->|(df & -> & Hmiss)]; [done|].
  by destruct (forecast_lookup_miss df indicator year Hmiss) as [e ->].
Qed.

(** A miss of the scenario-range lookup ends in the placeholder. *)
Lemma scenario_range_unavailable_placeholder data :
  scenario_range_unavailable data →
  scenario_range_metric data = scenario_range_placeholder.
Proof.
  unfold scenario_range_metric.
  intros [->|(df & -> & Hmiss)]; [done|].
  unfold scenario_range_lookup, getitem.
  destruct Hmiss as [Hno|(i & Hi & Hmiss)].
  { apply locate_NoColumn in Hno. by rewrite Hno. }
  rewrite Hi. rewrite rows_select_rows_one.
  destruct Hmiss as [Hrows|(pre & r & post & Hrows & Hpre & Hr & Hrange)].
  - rewrite filter_none; [done|].
    intros r Hr Htest. apply cell_eq_str_true in Htest. by apply (Hrows r).
  - rewrite Hrows, filter_first.
    + rewrite locate_select_rows.
      destruct Hrange as [Hno|(k & Hk & Hnull)].
      * apply locate_NoColumn in Hno. by rewrite Hno.
      * by rewrite Hk, Hnull.
    + intros r' Hr' Htest. apply cell_eq_str_true in Htest. by apply (Hpre r').
    + by apply cell_eq_str_true.
Qed.

(** C3.  On a lookup miss (table, column or row absent, or a value that
    does not parse) [get_forecast_value] returns [None]; the forecast and
    target-gap metrics then show their placeholders, and the scenario-range
    metric shows its placeholder on a miss of its own lookup.  No
    derivation raises. *)
Theorem metric_derivations_unavailable data :
  (∀ indicator year,
     forecast_unavailable data indicator year →
     get_forecast_value data indicator year = None) ∧
  (forecast_unavailable data "ACC_OWNERSHIP" 2027 →
     forecast_metric data
       = mkMetric "2027 Forecast (Base)" "Loading..." "Data required" ∧
     target_gap_metric data
       = mkMetric "Gap to 2030 Target" "--" "Data required") ∧
  (scenario_range_unavailable data →
     scenario_range_metric data
       = mkMetric "Scenario Range (2027)" "--" "Data required").
Proof.
  split; [|split].
  - apply get_forecast_value_unavailable.
  - intros Hmiss. apply get_forecast_value_unavailable in Hmiss.
    unfold forecast_metric, target_gap_metric. by rewrite Hmiss.
  - apply scenario_range_unavailable_placeholder.
Qed.

End DashboardFacts.

(** ** More on the dashboard metrics *)

Section DashboardMoreFacts.
Variable F : Type.
Variable float_of_string : string → option F.
Variable format_1f : F → string.
Variable fsub : F → F → F.
Variable float_of_Z : Z → F.
Variable format_cell : cell → string.

Abbreviation forecast_lookup := (forecast_lookup F float_of_string).
Abbreviation get_forecast_value := (get_forecast_value F float_of_string).
Abbreviation forecast_metric :=
  (forecast_metric F float_of_string format_1f fsub float_of_Z).
Abbreviation target_gap_metric :=
  (target_gap_metric F float_of_string format_1f fsub float_of_Z).
Abbreviation scenario_range_metric := (scenario_range_metric format_cell).

Lemma forecast_row_test' (i j : nat) (indicator : string) (year : Z) (r : list cell) :
  cell_eq_str indicator (cell_at i r) = true ∧ cell_eq_int year (cell_at j r) = true
  ↔ forecast_row i j indicator year r.
Proof. unfold forecast_row. by rewrite cell_eq_str_true, cell_eq_int_true. Qed.

(** X18.  [get_forecast_value] reads the first row, in table order, that
    has the indicator and the year; rows after it are not looked at.  When
    the forecast cell of that row is a string, the result is what [float]
    makes of it with every percent sign removed ([None] when [float]
    rejects it); when the cell is not a string the result is [None]. *)
Theorem get_forecast_value_first_match (data : gmap string DataFrame) (df : DataFrame)
    (indicator : string) (year : Z) (i j k : nat)
    (pre post : list (list cell)) (r : list cell) :
  data !! "forecasts" = Some df →
  locate "Indicator" df = OneColumn i →
  locate "Year" df = OneColumn j →
  locate "Forecast_%" df = OneColumn k →
  rows df = pre ++ r :: post →
  (∀ r', r' ∈ pre → ¬ forecast_row i j indicator year r') →
  forecast_row i j indicator year r →
  get_forecast_value data indicator year
  = match cell_at k r with
    | CStr s => float_of_string (PyStr.remove_char "%" s)
    | _ => None
    end.
Proof.
  intros Hdata Hi Hj Hk Hrows Hpre Hr.
  unfold get_forecast_value, forecast_lookup, getitem.
  rewrite Hdata, Hi, Hj, locate_select_rows, Hk.
  rewrite (series_at_rows k (select_rows _ _)).
  rewrite rows_select_rows_and, Hrows, filter_first.
  - simpl. destruct (cell_at k r) as [|s| |]; try done.
    by destruct (float_of_string (PyStr.remove_char "%" s)).
  - intros r' Hr' Htest. apply forecast_row_test' in Htest. by apply (Hpre r').
  - by apply forecast_row_test'.
Qed.

(** X19.  When the comparison table has a row for ["ACC_OWNERSHIP"], the
    scenario-range metric is read from the first such row: it shows the
    cell of ["Range_pp"] followed by "pp" when that cell is not null. *)
Theorem scenario_range_metric_first_match (data : gmap string DataFrame) (df : DataFrame)
    (i k : nat) (pre post : list (list cell)) (r : list cell) :
  data !! "comparison_2027" = Some df →
  locate "Indicator" df = OneColumn i →
  locate "Range_pp" df = OneColumn k →
  rows df = pre ++ r :: post →
  (∀ r', r' ∈ pre → cell_at i r' ≠ CStr "ACC_OWNERSHIP") →
  cell_at i r = CStr "ACC_OWNERSHIP" →
  isnull (cell_at k r) = false →
  scenario_range_metric data
  = mkMetric "Scenario Range (2027)" (format_cell (cell_at k r) +:+ "pp")
      "Optimistic vs Pessimistic".
Proof.
  intros Hdata Hi Hk Hrows Hpre Hr Hnull.
  unfold scenario_range_metric, scenario_range_lookup, getitem.
  rewrite Hdata, Hi, rows_select_rows_one, Hrows, filter_first.
  - by rewrite locate_select_rows, Hk, Hnull.
  - intros r' Hr' Htest. apply cell_eq_str_true in Htest. by apply (Hpre r').
  - by apply cell_eq_str_true.
Qed.

End DashboardMoreFacts.

(** ** Loading the dashboard data *)

Section DashboardDataFacts.
Variable json : Type.
Variable json_len : json → nat.

Abbreviation artifact := (artifact json).
Abbreviation block := (block json).
Abbreviation run_plan := (run_plan json).
Abbreviation load_plan := (load_plan json).
Abbreviation load_data := (load_data json).
Abbreviation raises_in := (raises_in json).
Abbreviation plan_keys := (plan_keys json).
Abbreviation processed_dir := (processed_dir json).
Abbreviation workdir := (workdir json).

Implicit Types (plan pre post : list block) (data : gmap string artifact).

(** A run leaves the keys that no block of the plan has. *)
Lemma run_plan_lookup_other plan data shown (key : string) :
  key ∉ plan_keys plan →
  (run_plan plan data shown).1.1 !! key = data !! key.
Proof.
  revert data shown. induction plan as [|[[k m] read] plan IH]; intros data shown Hk.
  - done.
  - apply not_elem_of_cons in Hk as [Hne Hk]. simpl in Hne. simpl.
    destruct read as [[a|e]|]; [|done|by apply IH].
    rewrite IH by done. by rewrite lookup_insert_ne.
Qed.

(** What a run leaves under the key of a block whose key no other block
    has. *)
Lemma run_plan_lookup pre post (key msg : string) (read : option (result artifact))
    data shown :
  key ∉ plan_keys pre → key ∉ plan_keys post →
  (run_plan (pre ++ (key, msg, read) :: post) data shown).1.1 !! key
  = if raises_in pre then data !! key
    else match read with
         | Some (Ok a) => Some a
         | _ => data !! key
         end.
Proof.
  intros Hpre Hpost. revert data shown Hpre.
  induction pre as [|[[k m] r] pre IH]; intros data shown Hpre.
  - simpl. destruct read as [[a|e]|]; [|done|by apply run_plan_lookup_other].
    rewrite run_plan_lookup_other by done. apply lookup_insert_eq.
  - apply not_elem_of_cons in Hpre as [Hne Hpre]. simpl in Hne.
    simpl. unfold block_raises at 1. simpl.
    destruct r as [[a|e]|]; simpl; [|done|by apply IH].
    rewrite IH by done. rewrite !lookup_insert_ne by done. done.
Qed.

(** A run ends without an exception exactly when no block raises. *)
Lemma run_plan_error plan data shown :
  (run_plan plan data shown).2 = None ↔ raises_in plan = false.
Proof.
  revert data shown. induction plan as [|[[k m] r] plan IH]; intros data shown.
  - done.
  - simpl. unfold block_raises at 1. simpl.
    destruct r as [[a|e]|]; simpl; [apply IH|done|apply IH].
Qed.

(** A run stops at the first block that raises. *)
Lemma run_plan_stops pre post (key msg : string) (e : exn) data shown :
  raises_in pre = false →
  run_plan (pre ++ (key, msg, Some (Raise e)) :: post) data shown
  = ((run_plan pre data shown).1, Some e).
Proof.
  revert data shown. induction pre as [|[[k m] r] pre IH]; intros data shown Hpre.
  - done.
  - simpl in *. unfold block_raises in Hpre at 1. simpl in Hpre.
    destruct r as [[a|e']|]; simpl in *; [by apply IH|done|by apply IH].
Qed.

Lemma load_plan_keys (d : processed_dir) :
  plan_keys (load_plan d)
  = ["baseline"; "augmented"; "scenarios"; "forecasts"; "comparison_2027";
     "historical"; "events"; "executive_summary"; "report"].
Proof. done. Qed.

Lemma plan_keys_app pre post : plan_keys (pre ++ post) = plan_keys pre ++ plan_keys post.
Proof. unfold plan_keys. apply fmap_app. Qed.

(** The keys of the plan are distinct, so a block's key is in no other
    block of the plan. *)
Lemma load_plan_split_keys (d : processed_dir) pre post (key msg : string)
    (read : option (result artifact)) :
  load_plan d = pre ++ (key, msg, read) :: post →
  (key ∉ plan_keys pre) ∧ (key ∉ plan_keys post) ∧
  (∀ k, k ∈ plan_keys pre → (k ∉ plan_keys post) ∧ k ≠ key).
Proof.
  intros Hsplit.
  assert (Hnd : NoDup (plan_keys (load_plan d))).
  { rewrite load_plan_keys. refine (bool_decide_unpack _ _). vm_compute. exact I. }
  rewrite Hsplit, plan_keys_app in Hnd. simpl in Hnd.
  apply NoDup_app in Hnd as (_ & Hdisj & Hnd).
  apply NoDup_cons in Hnd as [Hpost _].
  split; [|split; [done|]].
  - intros Hin. apply (Hdisj key Hin). left.
  - intros k Hk. split.
    + intros Hin. apply (Hdisj k Hk). by right.
    + intros ->. apply (Hdisj key Hk). left.
Qed.

Lemma raises_in_false plan :
  raises_in plan = false ↔ ∀ b e, b ∈ plan → b.2 ≠ Some (Raise e).
Proof.
  unfold raises_in. induction plan as [|[[k m] r] plan IH]; simpl.
  - split; [|done]. intros _ b e Hb. by apply elem_of_nil in Hb.
  - rewrite orb_false_iff, IH. unfold block_raises. simpl. split.
    + intros [Hr Hall] b e [->|Hb]%elem_of_cons; [|by apply Hall].
      simpl. intros ->. done.
    + intros Hall. split.
      * destruct r as [[a|e]|]; try done. by destruct (Hall (k, m, Some (Raise e)) e); [left|].
      * intros b e Hb. apply Hall. by right.
Qed.

(** After a run without an exception the dictionary is non-empty exactly
    when it was so before or some block has read something. *)
Lemma run_plan_non_empty plan data shown :
  raises_in plan = false →
  (run_plan plan data shown).1.1 ≠ ∅
  ↔ data ≠ ∅ ∨ ∃ b a, b ∈ plan ∧ b.2 = Some (Ok a).
Proof.
  revert data shown. induction plan as [|[[k m] r] plan IH]; intros data shown Hno.
  - simpl. split; [auto|]. intros [?|(b & a & Hb & _)]; [done|].
    by apply elem_of_nil in Hb.
  - simpl in Hno. unfold raises_in in Hno. simpl in Hno.
    apply orb_false_iff in Hno as [Hr Hno]. unfold block_raises in Hr. simpl in Hr.
    simpl. destruct r as [[a|e]|]; [|done|].
    + rewrite IH by done. split.
      * intros _. right. exists (k, m, Some (Ok a)), a. split; [left|done].
      * intros _. left. apply insert_non_empty.
    + rewrite IH by done. split.
      * intros [?|(b & a & Hb & Ha)]; [by left|].
        right. exists b, a. split; [by right|done].
      * intros [?|(b & a & Hb & Ha)]; [by left|].
        apply elem_of_cons in Hb as [->|Hb]; [done|].
        right. by exists b, a.
Qed.

(** X20.  [load_data] reports [data_loaded = True] exactly when a
    [data/processed] directory is found, no reader raises, and at least one
    of the nine blocks reads something; the dictionary is then
    non-empty. *)
Theorem load_data_loaded_flag (w : workdir) data (loaded : bool) (shown : list sidebar) :
  load_data w = (data, loaded, shown) →
  (loaded = true ↔
     ∃ d, first_existing json (possible_paths json w) = Some d ∧
          (∀ b e, b ∈ load_plan d → b.2 ≠ Some (Raise e)) ∧
          ∃ b a, b ∈ load_plan d ∧ b.2 = Some (Ok a)) ∧
  (loaded = true → data ≠ ∅).
Proof.
  unfold load_data.
  destruct (first_existing json (possible_paths json w)) as [d|] eqn:Hfind.
  - destruct (run_plan (load_plan d) ∅ []) as [[data' shown'] err] eqn:Hrun.
    pose proof (run_plan_error (load_plan d) ∅ []) as Herr.
    pose proof (run_plan_non_empty (load_plan d) ∅ []) as Hnon.
    rewrite Hrun in Herr, Hnon. simpl in Herr, Hnon.
    destruct err as [e|]; intros [= <- <- <-].
    + split; [|done]. split; [done|].
      intros (d' & [= <-] & Hno & _). apply raises_in_false in Hno.
      apply Herr in Hno. done.
    + assert (Hno : raises_in (load_plan d) = false) by (by apply Herr).
      specialize (Hnon Hno). rewrite bool_decide_eq_true.
      assert (Hsize : 0 < size data' ↔ data' ≠ ∅).
      { rewrite <- (map_size_empty_iff data'). lia. }
      rewrite Hsize, Hnon. split; [|tauto]. split.
      * intros [?|Hok]; [done|]. exists d. split; [done|].
        split; [by apply raises_in_false|done].
      * intros (d' & [= <-] & _ & Hok). by right.
  - intros [= <- <- <-]. split; [|done]. split; [done|].
    by intros (d & ? & _).
Qed.

(** X21.  When the reader of a block raises and none before it does,
    [load_data] reports [data_loaded = False] and shows the error; [data]
    then holds what the blocks before it have read, and nothing under the
    key of the failing block or of any block after it. *)
Theorem load_data_failure (w : workdir) (d : processed_dir) pre post
    (key msg : string) (e : exn) :
  first_existing json (possible_paths json w) = Some d →
  load_plan d = pre ++ (key, msg, Some (Raise e)) :: post →
  (∀ b e', b ∈ pre → b.2 ≠ Some (Raise e')) →
  ∃ data shown,
    load_data w
    = (data, false, shown ++ [SidebarError ("Error loading data: " +:+ exn_str e)]) ∧
    data !! key = None ∧
    (∀ k, k ∈ plan_keys post → data !! k = None) ∧
    (∀ k m a, (k, m, Some (Ok a)) ∈ pre → data !! k = Some a).
Proof.
  intros Hfind Hsplit Hpre. apply raises_in_false in Hpre.
  destruct (load_plan_split_keys d pre post key msg _ Hsplit) as (Hk1 & Hk2 & Hk3).
  unfold load_data. rewrite Hfind, Hsplit, run_plan_stops by done.
  destruct (run_plan pre ∅ []) as [[data shown] err] eqn:Hrun. simpl.
  exists data, shown. split; [done|].
  assert (Hdata : data = (run_plan pre ∅ []).1.1) by (by rewrite Hrun).
  split; [|split].
  - rewrite Hdata, run_plan_lookup_other by done. apply lookup_empty.
  - intros k Hk. rewrite Hdata, run_plan_lookup_other; [apply lookup_empty|].
    intros Hin. by destruct (Hk3 k Hin).
  - intros k m a Hin.
    apply list_elem_of_split in Hin as (p1 & p2 & Hp).
    assert (Hnd : NoDup (plan_keys pre)).
    { assert (Hall : NoDup (plan_keys (load_plan d))).
      { rewrite load_plan_keys. refine (bool_decide_unpack _ _). vm_compute. exact I. }
      rewrite Hsplit, plan_keys_app in Hall. by apply NoDup_app in Hall as (? & _). }
    rewrite Hp, plan_keys_app in Hnd. simpl in Hnd.
    apply NoDup_app in Hnd as (_ & Hdisj & Hnd2).
    apply NoDup_cons in Hnd2 as [Hp2 _].
    rewrite Hdata, Hp, run_plan_lookup.
    + assert (Hp1 : raises_in p1 = false).
      { rewrite Hp in Hpre. unfold raises_in in *. rewrite existsb_app in Hpre.
        by apply orb_false_iff in Hpre as [? _]. }
      by rewrite Hp1.
    + intros Hin. apply (Hdisj k Hin). left.
    + done.
Qed.

Lemma rows_read_table (t : sheet) : rows (read_table t) = data t.
Proof.
  unfold rows, read_table. simpl. rewrite fmap_imap.
  rewrite (imap_ext _ (const id)) by done. rewrite imap_const. apply list_fmap_id.
Qed.

(** What a run of the whole plan leaves under the key of one block. *)
Lemma load_plan_lookup (d : processed_dir) pre post (key msg : string)
    (read : option (result artifact)) :
  load_plan d = pre ++ (key, msg, read) :: post →
  (run_plan (load_plan d) ∅ []).1.1 !! key
  = if raises_in pre then None
    else match read with Some (Ok a) => Some a | _ => None end.
Proof.
  intros Hsplit.
  destruct (load_plan_split_keys d pre post key msg _ Hsplit) as (Hk1 & Hk2 & _).
  rewrite Hsplit, run_plan_lookup by done. rewrite lookup_empty.
  by destruct (raises_in pre), read as [[?|?]|].
Qed.

Lemma load_data_dictionary (w : workdir) data (loaded : bool) (shown : list sidebar) :
  load_data w = (data, loaded, shown) →
  match first_existing json (possible_paths json w) with
  | Some d => data = (run_plan (load_plan d) ∅ []).1.1
  | None => data = ∅
  end.
Proof.
  unfold load_data. destruct (first_existing json (possible_paths json w)) as [d|].
  - destruct (run_plan (load_plan d) ∅ []) as [[data' shown'] [e|]];
      by intros [= <- <- <-].
  - by intros [= <- <- <-].
Qed.

(** X22.  [data] has a ["historical"] entry only when the historical file
    was read and has a ["record_type"] label.  The entry is then the frame
    of the rows of the file whose record type is the string ["observation"]
    as it stands (no trimming, no lowercasing), in file order and with the
    index labels they had; the "Historical Data Points" metric is their
    number. *)
Theorem load_data_historical (w : workdir) (dict : gmap string artifact) (loaded : bool) (shown : list sidebar)
    (a : artifact) :
  load_data w = (dict, loaded, shown) →
  dict !! "historical" = Some a →
  ∃ d t i hist,
    first_existing json (possible_paths json w) = Some d ∧
    csv_files json d !! "enriched_main_data.csv" = Some (Ok t) ∧
    positions "record_type" (header t) = [i] ∧
    a = ATable json hist ∧
    columns hist = header t ∧
    body hist = filter (λ p, cell_at i p.2 = CStr "observation") (body (read_table t)) ∧
    rows hist = filter (λ r, cell_at i r = CStr "observation") (data t) ∧
    historical_points json json_len dict = length (rows hist).
Proof.
  intros Hload Ha. pose proof (load_data_dictionary _ _ _ _ Hload) as Hdata.
  destruct (first_existing json (possible_paths json w)) as [d|];
    [|by rewrite Hdata, lookup_empty in Ha].
  pose proof Ha as Ha'. rewrite Hdata in Ha'.
  rewrite (load_plan_lookup d
             (take 5 (load_plan d)) (drop 6 (load_plan d))
             "historical" "Loaded historical data" (read_historical json d))
    in Ha' by done.
  destruct (raises_in (take 5 (load_plan d))); [done|].
  unfold read_historical in Ha'.
  destruct (csv_files json d !! "enriched_main_data.csv") as [[t|e]|] eqn:Hfile;
    [|done..].
  destruct (locate "record_type" (read_table t)) as [|i|sel] eqn:Hloc; [done| |done].
  injection Ha' as <-.
  eexists d, t, i, _. split; [done|]. split; [done|].
  split; [by apply locate_OneColumn_positions in Hloc|].
  split; [reflexivity|]. split; [done|].
  assert (Hbody : body (select_rows (cell_eq_str "observation" <$> series_at i (read_table t))
                          (read_table t))
                  = filter (λ p, cell_at i p.2 = CStr "observation") (body (read_table t))).
  { rewrite body_select_rows. apply list_filter_iff. intros p.
    apply cell_eq_str_true. }
  split; [exact Hbody|]. split.
  - unfold rows at 1. rewrite Hbody. rewrite <- rows_read_table.
    unfold rows. by rewrite filter_fmap.
  - unfold historical_points. rewrite Ha. simpl. apply len_rows.
Qed.

Lemma load_data_loaded_no_raise (w : workdir) (d : processed_dir) data
    (shown : list sidebar) :
  load_data w = (data, true, shown) →
  first_existing json (possible_paths json w) = Some d →
  raises_in (load_plan d) = false.
Proof.
  unfold load_data. intros Hload Hfind. rewrite Hfind in Hload.
  apply (run_plan_error (load_plan d) ∅ []).
  by destruct (run_plan (load_plan d) ∅ []) as [[data' shown'] [e|]].
Qed.

Lemma raises_in_take (n : nat) plan :
  raises_in plan = false → raises_in (take n plan) = false.
Proof.
  intros Hno. rewrite <- (take_drop n plan) in Hno.
  unfold raises_in in *. rewrite existsb_app in Hno.
  by apply orb_false_iff in Hno as [? _].
Qed.

Section ForecastFromFile.
Variable F : Type.
Variable float_of_string : string → option F.

(** X23.  On a page that [load_data] reports as loaded, the forecast value
    comes from [final_forecast_table.csv] alone: it is the lookup in the
    table of that file, and [None] when the file is absent, whatever the
    baseline, augmented and scenario tables hold. *)
Theorem forecast_value_from_final_table (w : workdir) (d : processed_dir)
    (dict : gmap string artifact) (shown : list sidebar)
    (indicator : string) (year : Z) :
  load_data w = (dict, true, shown) →
  first_existing json (possible_paths json w) = Some d →
  get_forecast_value F float_of_string (tables_of json dict) indicator year
  = match csv_files json d !! "final_forecast_table.csv" with
    | Some (Ok t) =>
        match forecast_lookup F float_of_string (read_table t) indicator year with
        | Ok x => Some x
        | Raise _ => None
        end
    | _ => None
    end.
Proof.
  intros Hload Hfind.
  pose proof (load_data_loaded_no_raise _ _ _ _ Hload Hfind) as Hno.
  pose proof (load_data_dictionary _ _ _ _ Hload) as Hdict. rewrite Hfind in Hdict.
  assert (Hlook : dict !! "forecasts"
                  = match read_csv_artifact json d "final_forecast_table.csv" with
                    | Some (Ok a) => Some a
                    | _ => None
                    end).
  { rewrite Hdict.
    rewrite (load_plan_lookup d (take 3 (load_plan d)) (drop 4 (load_plan d))
               "forecasts" "Loaded final forecasts"
               (read_csv_artifact json d "final_forecast_table.csv")) by done.
    by rewrite (raises_in_take 3 _ Hno). }
  unfold get_forecast_value, tables_of. rewrite lookup_omap, Hlook.
  unfold read_csv_artifact.
  by destruct (csv_files json d !! "final_forecast_table.csv") as [[t|e]|].
Qed.

End ForecastFromFile.

End DashboardDataFacts.

(** ** The statements on the sample inputs *)

(** The table of five rows: rows 0, 2 and 4 become the main data, rows 1 and
    3 the impact links, both renumbered from zero. *)
Example five_rows_split :
  sample_split_records (read_table five_rows)
  = (Ok (mkDataFrame [LStr "record_type"; LStr "value"]
           [(0, [CStr "observation"; CInt 10]);
            (1, [CStr "observation"; CInt 12]);
            (2, [CStr "observation"; CInt 14])],
         mkDataFrame [LStr "record_type"; LStr "value"]
           [(0, [CStr "impact_link"; CInt 11]);
            (1, [CStr "impact_link"; CInt 13])]),
     []).
Proof. reflexivity. Qed.

(** A header and record types padded with no-break spaces are trimmed like
    those padded with spaces. *)
Example nbsp_labels_load :
  (sample_load_unified_data nbsp_dir).1
  = Ok (mkDataFrame [LStr "record_type"; LStr "value"]
          [(0, [CStr "observation"; CInt 10])],
        mkDataFrame [LStr "record_type"; LStr "value"]
          [(0, [CStr "impact_link"; CInt 11])]).
Proof. vm_compute. reflexivity. Qed.

(** A header of numbers: the index has no [.str], and the loader raises. *)
Example numeric_header_raises :
  (sample_load_unified_data numeric_header_dir).1
  = Raise (AttributeError "Can only use .str accessor with string values!").
Proof. vm_compute. reflexivity. Qed.

(** The validator on a frame whose ["pillar"] label is repeated, and on one
    with a number as a label. *)
Example repeated_pillar_raises :
  (sample_validate repeated_pillar_frame).1
  = Raise (ValueError "Grouper for 'pillar' not 1-dimensional").
Proof. vm_compute. reflexivity. Qed.

Example numeric_label_raises :
  (sample_validate numeric_label_frame).1
  = Raise (AttributeError "'int' object has no attribute 'lower'").
Proof. vm_compute. reflexivity. Qed.



Lemma split_records_without_record_type_witness :
  (LStr "record_type" ∉ columns plain_frame) ∧
  ∃ main_data impact_links log,
    sample_split_records plain_frame = (Ok (main_data, impact_links), log) ∧
    main_data = plain_frame ∧ len impact_links = 0.
Proof.
  assert (Hno : LStr "record_type" ∉ columns plain_frame)
    by (refine (bool_decide_unpack _ _); vm_compute; exact I).
  split; [exact Hno|].
  destruct (split_records_without_record_type true sample_value_str plain_frame Hno)
    as (m & i & l & Hs & Hm & Hlen & _).
  exists m, i, l. repeat split; assumption.
Defined.



(** The workbook of the design document resolves to ["data"]. *)
Example two_sheets_resolve :
  resolve_sheet ["data"; "Sheet1"] two_sheets = Some ("data", read_table five_rows).
Proof. reflexivity. Qed.

Lemma resolve_sheet_first_match_witness :
  two_sheets ≠ [] ∧
  ∃ name t,
    resolve_sheet ["data"; "Sheet1"] two_sheets = Some (name, read_table t) ∧
    (name, t) ∈ two_sheets.
Proof.
  assert (Hne : two_sheets ≠ []) by discriminate.
  split; [exact Hne|].
  destruct (resolve_sheet_first_match ["data"; "Sheet1"] two_sheets Hne)
    as (name & t & Hres & Hin & _).
  exists name, t. split; assumption.
Defined.



(** C4 as stated fails for the guide: with no file in the directory
    [load_additional_data_guide] returns the empty dictionary and does not
    raise. *)
Lemma guide_missing_returns_default :
  missing_input empty_dir "Additional Data Points Guide.xlsx" ∧
  (load_additional_data_guide empty_dir).1 = Ok ∅ ∧
  ¬ logged_and_reraised "Error loading additional data guide: "
      (load_additional_data_guide empty_dir).
Proof.
  split; [by split|]. split; [reflexivity|].
  intros (msg & log & Hrun & _). vm_compute in Hrun. discriminate.
Qed.

Lemma missing_input_outcomes_witness :
  missing_input empty_dir "ethiopia_fi_unified_data.xlsx" ∧
  missing_input empty_dir "reference_codes.xlsx" ∧
  missing_input empty_dir "Additional Data Points Guide.xlsx" ∧
  logged_and_reraised "Error loading unified data: "
    (sample_load_unified_data empty_dir) ∧
  logged_and_reraised "Error loading reference codes: "
    (load_reference_codes sample_str_other empty_dir) ∧
  logged_and_defaulted "Error loading additional data guide: " ∅
    (load_additional_data_guide empty_dir).
Proof.
  assert (Hu : missing_input empty_dir "ethiopia_fi_unified_data.xlsx") by (by split).
  assert (Hr : missing_input empty_dir "reference_codes.xlsx") by (by split).
  assert (Hg : missing_input empty_dir "Additional Data Points Guide.xlsx") by (by split).
  destruct (missing_input_outcomes true sample_value_str sample_str_other empty_dir)
    as (Ou & Or & Og).
  repeat split; auto.
Defined.


(** The lookup of the design document: no row for ["ACC_OWNERSHIP"] and
    2027. *)
Example forecast_2027_unavailable :
  get_forecast_value string sample_float_of_string
    data_to_2026 "ACC_OWNERSHIP" 2027 = None ∧
  get_forecast_value string sample_float_of_string
    data_to_2026 "ACC_OWNERSHIP" 2026 = Some "53.0" ∧
  get_forecast_value string sample_float_of_string
    {["forecasts" := forecasts_unparsable]} "ACC_OWNERSHIP" 2027 = None.
Proof. repeat split; reflexivity. Qed.

Lemma metric_derivations_unavailable_witness :
  forecast_unavailable string sample_float_of_string data_to_2026 "ACC_OWNERSHIP" 2027 ∧
  scenario_range_unavailable data_to_2026 ∧
  get_forecast_value string sample_float_of_string data_to_2026 "ACC_OWNERSHIP" 2027
    = None ∧
  value (forecast_metric string sample_float_of_string id sample_fsub
           sample_float_of_Z data_to_2026) = "Loading..." ∧
  scenario_range_metric sample_format_cell data_to_2026 = scenario_range_placeholder.
Proof.
  assert (Hf : forecast_unavailable string sample_float_of_string data_to_2026
                 "ACC_OWNERSHIP" 2027).
  { right. exists forecasts_to_2026. split; [reflexivity|].
    apply (row_absent _ _ _ _ _ 0 1); [reflexivity..|].
    intros r Hr [Hi Hy].
    unfold forecasts_to_2026, rows in Hr. simpl in Hr.
    repeat (apply elem_of_cons in Hr as [->|Hr]; [discriminate|]).
    by apply elem_of_nil in Hr. }
  assert (Hs : scenario_range_unavailable data_to_2026) by (left; reflexivity).
  destruct (metric_derivations_unavailable string sample_float_of_string id
              sample_fsub sample_float_of_Z sample_format_cell data_to_2026)
    as (Hget & Hmetrics & Hscenario).
  split; [exact Hf|]. split; [exact Hs|]. split; [exact (Hget _ _ Hf)|].
  split; [|exact (Hscenario Hs)].
  destruct (Hmetrics Hf) as [-> _]. reflexivity.
Defined.

Lemma load_unified_data_partitioned_witness :
  ∃ main_data impact_links log,
    sample_load_unified_data unified_dir = (Ok (main_data, impact_links), log) ∧
    1 ≤ len main_data + len impact_links ∧
    ∃ i, positions "record_type" (columns main_data) = [i] ∧
         ∀ r, r ∈ rows impact_links → cell_at i r = CStr "impact_link".
Proof.
  eexists _, _, _. split; [vm_compute; reflexivity|].
  destruct (load_unified_data_partitioned true sample_value_str sample_str_other
              unified_dir _ _ _ eq_refl) as (_ & Hlen & _ & Hin).
  split; [exact Hlen|].
  destruct Hin as (i & Hpos & _ & Hlinks & _).
  { refine (bool_decide_unpack _ _). vm_compute. exact I. }
  exists i. split; assumption.
Defined.

Lemma load_unified_data_empty_table_witness :
  unified_source blank_sheet_dir (Some (read_table (mkSheet [] []))) ∧
  empty (read_table (mkSheet [] [])) = true ∧
  ∃ log,
    sample_load_unified_data blank_sheet_dir
    = (Raise (ValueError "Loaded dataframe is empty"), log).
Proof.
  assert (Hsrc : unified_source blank_sheet_dir (Some (read_table (mkSheet [] [])))).
  { left. eexists. split; [vm_compute; reflexivity|reflexivity]. }
  split; [exact Hsrc|]. split; [reflexivity|].
  destruct (load_unified_data_empty_table true sample_value_str sample_str_other
              blank_sheet_dir _ Hsrc) as (log & Hrun & _).
  { right. eexists. split; reflexivity. }
  by exists log.
Defined.

Lemma load_unified_data_repeated_record_type_witness :
  unified_source repeated_label_dir (Some (read_table repeated_label_sheet)) ∧
  empty (read_table repeated_label_sheet) = false ∧
  normalize_columns sample_str_other (read_table repeated_label_sheet)
    = Ok (mkDataFrame [LStr "record_type"; LStr "record_type"]
            [(0, [CStr "observation"; CStr "impact_link"])]) ∧
  ∃ msg log,
    sample_load_unified_data repeated_label_dir
    = (Raise (AttributeError msg), log).
Proof.
  assert (Hsrc : unified_source repeated_label_dir
                   (Some (read_table repeated_label_sheet))).
  { left. eexists. split; [vm_compute; reflexivity|reflexivity]. }
  split; [exact Hsrc|]. split; [reflexivity|]. split; [reflexivity|].
  destruct (load_unified_data_repeated_record_type true sample_value_str
              sample_str_other repeated_label_dir _ _ 0 1 [] Hsrc eq_refl eq_refl eq_refl)
    as (msg & log & Hrun & _).
  by exists msg, log.
Defined.

Lemma load_unified_data_excel_shadows_csv_witness :
  ∃ wb,
    xlsx unified_dir !! "ethiopia_fi_unified_data.xlsx" = Some wb ∧
    xlsx unified_dir_with_csv !! "ethiopia_fi_unified_data.xlsx" = Some wb ∧
    (sample_load_unified_data unified_dir).1
    = (sample_load_unified_data unified_dir_with_csv).1.
Proof.
  exists [("data", unified_sheet)].
  split; [vm_compute; reflexivity|]. split; [vm_compute; reflexivity|].
  apply (load_unified_data_excel_shadows_csv true sample_value_str sample_str_other
           unified_dir unified_dir_with_csv [("data", unified_sheet)]);
    vm_compute; reflexivity.
Defined.

Lemma load_unified_data_succeeds_witness :
  unified_source unified_dir (Some (read_table unified_sheet)) ∧
  ∃ main_data impact_links log,
    sample_load_unified_data unified_dir = (Ok (main_data, impact_links), log).
Proof.
  assert (Hsrc : unified_source unified_dir (Some (read_table unified_sheet))).
  { left. eexists. split; [vm_compute; reflexivity|reflexivity]. }
  split; [exact Hsrc|].
  apply (load_unified_data_succeeds true sample_value_str sample_str_other
           unified_dir _ [" Record_Type "; "Value"] Hsrc);
    [reflexivity|reflexivity|vm_compute; lia].
Defined.


Lemma resolve_ref_sheet_first_match_witness :
  codes_workbook ≠ [] ∧
  ∃ name t,
    resolve_ref_sheet possible_ref_sheet_names codes_workbook
    = Some (name, read_table t) ∧
    (name, t) ∈ codes_workbook.
Proof.
  assert (Hne : codes_workbook ≠ []) by discriminate.
  split; [exact Hne|].
  destruct (resolve_ref_sheet_first_match possible_ref_sheet_names codes_workbook Hne)
    as (name & t & Hres & Hin & _).
  exists name, t. split; assumption.
Defined.

Lemma load_additional_data_guide_sheets_witness :
  xlsx guide_dir !! "Additional Data Points Guide.xlsx" = Some guide_workbook ∧
  ∃ sheets log,
    load_additional_data_guide guide_dir = (Ok sheets, log) ∧
    sheets !! "B. Direct Corrln"
    = Some (read_table (mkSheet [LStr "Indicator"] [[CStr "ACC_OWNERSHIP"]])).
Proof.
  assert (Hwb : xlsx guide_dir !! "Additional Data Points Guide.xlsx"
                = Some guide_workbook) by (vm_compute; reflexivity).
  split; [exact Hwb|].
  destruct (load_additional_data_guide_sheets guide_dir guide_workbook Hwb)
    as (sheets & log & Hrun & _ & Hsheet).
  exists sheets, log. split; [exact Hrun|]. apply Hsheet. reflexivity.
Defined.

Lemma load_additional_data_guide_csv_rejected_witness :
  xlsx guide_csv_dir !! "Additional Data Points Guide.xlsx" = None ∧
  is_Some (csv guide_csv_dir !! "Additional Data Points Guide.csv") ∧
  ∃ log, load_additional_data_guide guide_csv_dir = (Ok ∅, log).
Proof.
  assert (Hno : xlsx guide_csv_dir !! "Additional Data Points Guide.xlsx" = None)
    by (vm_compute; reflexivity).
  assert (Hcsv : is_Some (csv guide_csv_dir !! "Additional Data Points Guide.csv"))
    by (eexists; vm_compute; reflexivity).
  split; [exact Hno|]. split; [exact Hcsv|].
  destruct (load_additional_data_guide_csv_rejected guide_csv_dir Hno Hcsv)
    as (paths & log0 & log & _ & _ & Hrun & _).
  by exists log.
Defined.

Lemma record_type_counts_total_witness :
  ∃ report,
    (sample_validate pillar_frame).1 = Ok report ∧
    empty pillar_frame = false ∧
    positions "record_type" (columns pillar_frame) = [0] ∧
    record_type_counts report !! CStr "observation" = Some 2 ∧
    total_count (record_type_counts report) = 2 ∧
    missing_values report !! LStr "record_type" = Some 1 ∧
    total_records report = 3.
Proof.
  destruct (sample_validate pillar_frame).1 as [report|e] eqn:Hrun;
    [|vm_compute in Hrun; discriminate].
  exists report. split; [reflexivity|]. split; [reflexivity|]. split; [reflexivity|].
  destruct (record_type_counts_total sample_to_datetime sample_strftime
              pillar_frame 0 report Hrun eq_refl eq_refl)
    as (Hkeys & _ & Htotal & n & Hmissing & Hn & Hsum).
  split.
  { apply Hkeys. split; [reflexivity|]. split; [|reflexivity].
    refine (bool_decide_unpack _ _). vm_compute. exact I. }
  split; [rewrite Htotal; reflexivity|].
  assert (n = 1) as -> by (rewrite Hn; reflexivity).
  split; [exact Hmissing|].
  rewrite <- Hsum, Htotal. reflexivity.
Defined.

Lemma get_forecast_value_first_match_witness :
  data_to_2026 !! "forecasts" = Some forecasts_to_2026 ∧
  locate "Indicator" forecasts_to_2026 = OneColumn 0 ∧
  locate "Year" forecasts_to_2026 = OneColumn 1 ∧
  locate "Forecast_%" forecasts_to_2026 = OneColumn 2 ∧
  forecast_row 0 1 "ACC_OWNERSHIP" 2026 [CStr "ACC_OWNERSHIP"; CInt 2026; CStr "53.0%"] ∧
  get_forecast_value string sample_float_of_string data_to_2026 "ACC_OWNERSHIP" 2026
    = Some "53.0".
Proof.
  assert (Hrow : forecast_row 0 1 "ACC_OWNERSHIP" 2026
                   [CStr "ACC_OWNERSHIP"; CInt 2026; CStr "53.0%"]) by (by split).
  repeat (split; [first [reflexivity|exact Hrow]|]).
  rewrite (get_forecast_value_first_match string sample_float_of_string
             data_to_2026 forecasts_to_2026 "ACC_OWNERSHIP" 2026 0 1 2
             [[CStr "ACC_OWNERSHIP"; CInt 2025; CStr "51.2%"]]
             [[CStr "USG_DIGITAL_PAYMENT"; CInt 2027; CStr "40.1%"]]
             [CStr "ACC_OWNERSHIP"; CInt 2026; CStr "53.0%"]);
    try reflexivity; [|exact Hrow].
  intros r' Hr' [_ Hyear].
  apply elem_of_cons in Hr' as [->|Hr']; [discriminate|by apply elem_of_nil in Hr'].
Defined.

Lemma scenario_range_metric_first_match_witness :
  data_with_comparison !! "comparison_2027" = Some comparison_table ∧
  locate "Indicator" comparison_table = OneColumn 0 ∧
  locate "Range_pp" comparison_table = OneColumn 1 ∧
  value (scenario_range_metric sample_format_cell data_with_comparison) = "4.5pp".
Proof.
  repeat (split; [reflexivity|]).
  rewrite (scenario_range_metric_first_match sample_format_cell
             data_with_comparison comparison_table 0 1
             [[CStr "USG_DIGITAL_PAYMENT"; CStr "6.0"]] []
             [CStr "ACC_OWNERSHIP"; CStr "4.5"]); try reflexivity.
  intros r' Hr'.
  apply elem_of_cons in Hr' as [->|Hr']; [discriminate|by apply elem_of_nil in Hr'].
Defined.

Lemma load_data_loaded_flag_witness :
  ∃ dict shown,
    load_data string good_workdir = (dict, true, shown) ∧ dict ≠ ∅.
Proof.
  eexists _, _. split; [reflexivity|].
  apply (load_data_loaded_flag string good_workdir _ true _ eq_refl). reflexivity.
Defined.

Lemma load_data_failure_witness :
  first_existing string (possible_paths string failing_workdir) = Some failing_processed ∧
  load_plan string failing_processed
  = take 3 (load_plan string failing_processed)
    ++ ("forecasts", "Loaded final forecasts",
        Some (Raise (ValueError "No columns to parse from file")))
    :: drop 4 (load_plan string failing_processed) ∧
  ∃ dict shown,
    load_data string failing_workdir
    = (dict, false,
       shown ++ [SidebarError "Error loading data: No columns to parse from file"]) ∧
    dict !! "forecasts" = None ∧
    dict !! "comparison_2027" = None ∧
    is_Some (dict !! "baseline").
Proof.
  assert (Hsplit : load_plan string failing_processed
            = take 3 (load_plan string failing_processed)
              ++ ("forecasts", "Loaded final forecasts",
                  Some (Raise (ValueError "No columns to parse from file")))
              :: drop 4 (load_plan string failing_processed))
    by (vm_compute; reflexivity).
  split; [reflexivity|]. split; [exact Hsplit|].
  destruct (load_data_failure string failing_workdir failing_processed _ _ _ _ _
              eq_refl Hsplit) as (dict & shown & Hrun & Hkey & Hpost & Hpre).
  { apply raises_in_false. vm_compute. reflexivity. }
  exists dict, shown. split; [exact Hrun|]. split; [exact Hkey|]. split.
  - apply Hpost. refine (bool_decide_unpack _ _). vm_compute. exact I.
  - exists (ATable string (read_table forecasts_sheet)).
    apply (Hpre "baseline" "Loaded baseline forecasts").
    apply (list_elem_of_lookup_2 _ 0). vm_compute. reflexivity.
Defined.

Lemma load_data_historical_witness :
  ∃ dict shown a,
    load_data string good_workdir = (dict, true, shown) ∧
    dict !! "historical" = Some a ∧
    ∃ hist,
      a = ATable string hist ∧
      historical_points string String.length dict = length (rows hist).
Proof.
  eexists _, _, _. split; [reflexivity|]. split; [reflexivity|].
  destruct (load_data_historical string String.length good_workdir _ true _ _
              eq_refl eq_refl)
    as (d & t & i & hist & _ & _ & _ & Ha & _ & _ & _ & Hpoints).
  exists hist. split; [exact Ha|exact Hpoints].
Defined.

Lemma forecast_value_from_final_table_witness :
  ∃ dict shown,
    load_data string good_workdir = (dict, true, shown) ∧
    first_existing string (possible_paths string good_workdir) = Some good_processed ∧
    get_forecast_value string sample_float_of_string (tables_of string dict)
      "ACC_OWNERSHIP" 2027 = Some "55.2".
Proof.
  eexists _, _. split; [reflexivity|]. split; [reflexivity|].
  etrans.
  { eapply (forecast_value_from_final_table string string sample_float_of_string
              good_workdir good_processed _ _ "ACC_OWNERSHIP" 2027); reflexivity. }
  reflexivity.
Defined.
